(** * Dorfl: the movement / position state machine of the curtain switch

    A shallow embedding of the control core of [Dorfl.ino] (firmware of an
    ESP8285 curtain/blinds switch): the relay driver ([startL1], [startL2],
    [stopL1], [stopL2]), the position model ([updateBlindPos]), the movement
    supervisor ([movementLoop]), the manual switch arbiter ([gpioLoop]), the
    command interpreter ([mqttCallback], [autoMoveToPos]) and the status
    publisher ([mqttCommunicate]).

    - The global variables of the sketch are the fields of [State]; what the
      sketch does to the outside (pin writes, publishes, requests to
      WiFiManager) is logged in its field [out].
    - The functions of the sketch are computations in a small state monad
      that also reads the environment of one call: the successive readings
      of [millis()], the input pins, the state of the MQTT link.
    - Integers are 32 bits wide on the target ([int], [long] and
      [unsigned long] alike), and the wrap-around is written out.
    - The settings ([Config]) are read once in [setup] and are a parameter of
      a run; the provisioning portal, which rewrites them and restarts the
      device, is represented by the requests made to it only.

    A second part embeds the rest of the sketch around that core: the
    settings and the configuration file ([saveParamsCallback], the loading in
    [startWifiManager]), the network supervision ([wifimanagerLoop],
    [mqttLoop], [mqttReconnect]) and the main [loop] with its restart. There
    the settings are part of the state ([Device]), and what the libraries
    answer during one iteration is a [World]. Where a [strcpy] of the sketch
    would write past its buffer the behaviour is undefined: the model marks
    the device ([overrun]) and the statements about whole lifetimes assume
    texts that fit. *)

From Stdlib Require Import ZArith Lia Bool List String Ascii.
From Stdlib Require Import DecimalString.
From Stdlib Require DecimalFacts DecimalPos.
Import ListNotations.
Open Scope Z_scope.

(** ** Machine integers *)

Definition to_ulong (z : Z) : Z := z mod 2 ^ 32.
Definition to_long (z : Z) : Z := (z + 2 ^ 31) mod 2 ^ 32 - 2 ^ 31.

Definition LONG_MAX : Z := 2 ^ 31 - 1.

(** ** Constants of the sketch *)

Definition SWITCH_S1 : Z := 4.
Definition SWITCH_S2 : Z := 5.
Definition MANUAL_LOCK_MIN_DELAY_MS : Z := 200.
Definition MANUAL_LOCK_MAX_DELAY_MS : Z := 500.
Definition MANUAL_SETUP_COUNTER : Z := 5.
Definition CMD_MOVE_ABS : string := "mva".
Definition CMD_MOVE_REL : string := "mvr".
Definition CMD_SETUP : string := "set".

(** ** Configuration, state, outputs, environment *)

(** The persisted settings the core reads; they are loaded in [setup] and
    stay fixed for the run. [blindMaxPos] is an [unsigned long]. *)
Record Config : Type := mkConfig {
  blindMaxPos : Z;
  blindInvertZero : bool;
  blindInvertSwitch : bool;
  blindDisableManualLock : bool
}.

Definition wf_config (c : Config) : Prop := 0 <= blindMaxPos c < 2 ^ 32.

Definition default_config : Config := mkConfig 60000 false false false.

Inductive Pin : Type := RELAY_L1 | RELAY_L2.

(** What the core does to the outside world, in the order it does it. *)
Inductive Event : Type :=
| DigitalWrite (p : Pin) (high : bool)
| MqttPublish (msg : string)
| StartConfigPortal
| AutoConnect.

Record State : Type := mkState {
  blindPos : Z;
  manualMode : bool;
  manualLocked : bool;
  manualLockActivatorTime : Z;
  manualLockActivatorSwitch : Z;
  manualSetupModeCounter : Z;
  movementStartTime : Z;
  movementTimeout : Z;
  movementL1 : bool;
  movementProgress : bool;
  wifiManagerSetupRunning : bool;
  wifiManagerSetupStart : Z;
  out : list Event   (* newest first *)
}.

(** The environment of one call of an entry point: the successive readings
    of [millis()], the levels of the input pins ([true] is LOW, that is,
    asserted), whether a publish can go out ([!offline &&
    mqttClient.connected()]), and whether WiFiManager runs the access-point
    callback when asked to open the portal. *)
Record Env : Type := mkEnv {
  millis_at : nat -> Z;
  s1Low : bool;
  s2Low : bool;
  buttonLow : bool;
  mqttUp : bool;
  apCallback : bool
}.

(** Field updates. *)
Definition set_blindPos (v : Z) (s : State) : State :=
  mkState v (manualMode s) (manualLocked s) (manualLockActivatorTime s)
    (manualLockActivatorSwitch s) (manualSetupModeCounter s)
    (movementStartTime s) (movementTimeout s) (movementL1 s)
    (movementProgress s) (wifiManagerSetupRunning s)
    (wifiManagerSetupStart s) (out s).
Definition set_manualMode (v : bool) (s : State) : State :=
  mkState (blindPos s) v (manualLocked s) (manualLockActivatorTime s)
    (manualLockActivatorSwitch s) (manualSetupModeCounter s)
    (movementStartTime s) (movementTimeout s) (movementL1 s)
    (movementProgress s) (wifiManagerSetupRunning s)
    (wifiManagerSetupStart s) (out s).
Definition set_manualLocked (v : bool) (s : State) : State :=
  mkState (blindPos s) (manualMode s) v (manualLockActivatorTime s)
    (manualLockActivatorSwitch s) (manualSetupModeCounter s)
    (movementStartTime s) (movementTimeout s) (movementL1 s)
    (movementProgress s) (wifiManagerSetupRunning s)
    (wifiManagerSetupStart s) (out s).
Definition set_manualLockActivatorTime (v : Z) (s : State) : State :=
  mkState (blindPos s) (manualMode s) (manualLocked s) v
    (manualLockActivatorSwitch s) (manualSetupModeCounter s)
    (movementStartTime s) (movementTimeout s) (movementL1 s)
    (movementProgress s) (wifiManagerSetupRunning s)
    (wifiManagerSetupStart s) (out s).
Definition set_manualLockActivatorSwitch (v : Z) (s : State) : State :=
  mkState (blindPos s) (manualMode s) (manualLocked s)
    (manualLockActivatorTime s) v (manualSetupModeCounter s)
    (movementStartTime s) (movementTimeout s) (movementL1 s)
    (movementProgress s) (wifiManagerSetupRunning s)
    (wifiManagerSetupStart s) (out s).
Definition set_manualSetupModeCounter (v : Z) (s : State) : State :=
  mkState (blindPos s) (manualMode s) (manualLocked s)
    (manualLockActivatorTime s) (manualLockActivatorSwitch s) v
    (movementStartTime s) (movementTimeout s) (movementL1 s)
    (movementProgress s) (wifiManagerSetupRunning s)
    (wifiManagerSetupStart s) (out s).
Definition set_movementStartTime (v : Z) (s : State) : State :=
  mkState (blindPos s) (manualMode s) (manualLocked s)
    (manualLockActivatorTime s) (manualLockActivatorSwitch s)
    (manualSetupModeCounter s) v (movementTimeout s) (movementL1 s)
    (movementProgress s) (wifiManagerSetupRunning s)
    (wifiManagerSetupStart s) (out s).
Definition set_movementTimeout (v : Z) (s : State) : State :=
  mkState (blindPos s) (manualMode s) (manualLocked s)
    (manualLockActivatorTime s) (manualLockActivatorSwitch s)
    (manualSetupModeCounter s) (movementStartTime s) v (movementL1 s)
    (movementProgress s) (wifiManagerSetupRunning s)
    (wifiManagerSetupStart s) (out s).
Definition set_movementL1 (v : bool) (s : State) : State :=
  mkState (blindPos s) (manualMode s) (manualLocked s)
    (manualLockActivatorTime s) (manualLockActivatorSwitch s)
    (manualSetupModeCounter s) (movementStartTime s) (movementTimeout s) v
    (movementProgress s) (wifiManagerSetupRunning s)
    (wifiManagerSetupStart s) (out s).
Definition set_movementProgress (v : bool) (s : State) : State :=
  mkState (blindPos s) (manualMode s) (manualLocked s)
    (manualLockActivatorTime s) (manualLockActivatorSwitch s)
    (manualSetupModeCounter s) (movementStartTime s) (movementTimeout s)
    (movementL1 s) v (wifiManagerSetupRunning s)
    (wifiManagerSetupStart s) (out s).
Definition set_wifiManagerSetupRunning (v : bool) (s : State) : State :=
  mkState (blindPos s) (manualMode s) (manualLocked s)
    (manualLockActivatorTime s) (manualLockActivatorSwitch s)
    (manualSetupModeCounter s) (movementStartTime s) (movementTimeout s)
    (movementL1 s) (movementProgress s) v
    (wifiManagerSetupStart s) (out s).
Definition set_wifiManagerSetupStart (v : Z) (s : State) : State :=
  mkState (blindPos s) (manualMode s) (manualLocked s)
    (manualLockActivatorTime s) (manualLockActivatorSwitch s)
    (manualSetupModeCounter s) (movementStartTime s) (movementTimeout s)
    (movementL1 s) (movementProgress s) (wifiManagerSetupRunning s)
    v (out s).
Definition emit (ev : Event) (s : State) : State :=
  mkState (blindPos s) (manualMode s) (manualLocked s)
    (manualLockActivatorTime s) (manualLockActivatorSwitch s)
    (manualSetupModeCounter s) (movementStartTime s) (movementTimeout s)
    (movementL1 s) (movementProgress s) (wifiManagerSetupRunning s)
    (wifiManagerSetupStart s) (ev :: out s).

(** ** The monad of the sketch's functions

    A computation reads the environment of the call, and threads the number
    of clock readings made so far together with the globals. *)
Definition M (A : Type) : Type := Env -> nat * State -> A * (nat * State).

Definition ret {A} (a : A) : M A := fun _ w => (a, w).
Definition bind {A B} (m : M A) (f : A -> M B) : M B :=
  fun e w => let (a, w') := m e w in f a e w'.
Definition get : M State := fun _ w => (snd w, w).
Definition modify (f : State -> State) : M unit :=
  fun _ w => (tt, (fst w, f (snd w))).
Definition ask : M Env := fun e w => (e, w).
Definition millis : M Z :=
  fun e w => (to_ulong (millis_at e (fst w)), (S (fst w), snd w)).
Definition when (b : bool) (m : M unit) : M unit := if b then m else ret tt.

Notation "x <- m ;; k" := (bind m (fun x => k))
  (at level 61, m at next level, right associativity).
Notation "m ;; k" := (bind m (fun _ => k))
  (at level 61, right associativity).

(** Running an entry point on a state: the call starts with a fresh count of
    clock readings. *)
Definition exec (m : M unit) (e : Env) (s : State) : State :=
  snd (snd (m e (0%nat, s))).

Definition digitalWrite (p : Pin) (high : bool) : M unit :=
  modify (emit (DigitalWrite p high)).

(** ** Status publisher *)

(** [ltoa(v, buf, 10)]. *)
Definition ltoa (v : Z) : string := NilZero.string_of_int (Z.to_int v).

Definition mqttMsg (pos : Z) (manual : bool) : string :=
  (ltoa (Z.quot pos 1000) ++ (if manual then "." else EmptyString))%string.

Definition mqttCommunicate : M unit :=
  e <- ask ;;
  when (mqttUp e)
    (s <- get ;;
     modify (emit (MqttPublish (mqttMsg (blindPos s) (manualMode s))))).

Section Controller.

Variable cfg : Config.

(** ** Position model *)

Definition updateBlindPos : M unit :=
  now <- millis ;;
  s <- get ;;
  let moved := to_ulong (now - movementStartTime s) in
  let p :=
    if movementL1 s then
      if blindInvertZero cfg then to_long (blindPos s + moved)
      else to_long (blindPos s - moved)
    else
      if blindInvertZero cfg then to_long (blindPos s - moved)
      else to_long (blindPos s + moved) in
  let p :=
    if p <? 0 then 0
    else if blindMaxPos cfg <? to_ulong p then to_long (blindMaxPos cfg)
    else p in
  modify (set_blindPos p) ;;
  (* send current position to mqtt *)
  mqttCommunicate.

(** ** Relay driver *)

Definition stopL1 : M unit :=
  digitalWrite RELAY_L1 false ;;
  s <- get ;;
  when (movementProgress s && movementL1 s)
    (modify (set_movementProgress false) ;;
     updateBlindPos).

Definition stopL2 : M unit :=
  digitalWrite RELAY_L2 false ;;
  s <- get ;;
  when (movementProgress s && negb (movementL1 s))
    (modify (set_movementProgress false) ;;
     updateBlindPos).

Definition startL1 (timeout : Z) : M unit :=
  stopL2 ;;
  digitalWrite RELAY_L1 true ;;
  modify (set_movementProgress true) ;;
  modify (set_movementL1 true) ;;
  now <- millis ;;
  modify (set_movementStartTime now) ;;
  modify (set_movementTimeout (if timeout =? 0 then blindMaxPos cfg else timeout)).

Definition startL2 (timeout : Z) : M unit :=
  stopL1 ;;
  digitalWrite RELAY_L2 true ;;
  modify (set_movementProgress true) ;;
  modify (set_movementL1 false) ;;
  now <- millis ;;
  modify (set_movementStartTime now) ;;
  modify (set_movementTimeout (if timeout =? 0 then blindMaxPos cfg else timeout)).

(** ** Movement supervisor *)

Definition movementLoop : M unit :=
  s <- get ;;
  if movementProgress s then
    now <- millis ;;
    when (movementTimeout s <=? to_ulong (now - movementStartTime s))
      (stopL1 ;; stopL2)
  else ret tt.

(** ** Provisioning collaborator (interface only) *)

(** The access-point callback the sketch registers with WiFiManager. *)
Definition wifiManagerSetupStarted : M unit :=
  modify (set_wifiManagerSetupRunning true) ;;
  now <- millis ;;
  modify (set_wifiManagerSetupStart now).

(** [startWifiManager]: the settings it loads when [onDemand] is false are
    [cfg]; the request to WiFiManager is logged, and WiFiManager (a library
    outside the sketch) may run the access-point callback during the call. *)
Definition startWifiManager (onDemand : bool) : M unit :=
  s <- get ;;
  if wifiManagerSetupRunning s then ret tt
  else
    modify (emit (if onDemand then StartConfigPortal else AutoConnect)) ;;
    e <- ask ;;
    when (apCallback e) wifiManagerSetupStarted.

(** ** Manual switch arbiter *)

Definition gpioLoop : M unit :=
  e <- ask ;;
  (* is WifiManager configuration portal requested? *)
  when (buttonLow e) (startWifiManager true) ;;
  (* process manual switches *)
  now <- millis ;;
  s <- get ;;
  let manualActivatorDelay := to_ulong (now - manualLockActivatorTime s) in
  if MANUAL_LOCK_MIN_DELAY_MS <? manualActivatorDelay then
    if s1Low e then
      s <- get ;;
      when (negb (manualLockActivatorSwitch s =? SWITCH_S1))
        (modify (set_manualSetupModeCounter 0)) ;;
      s <- get ;;
      when (negb (blindDisableManualLock cfg) && negb (manualLocked s)
            && (manualActivatorDelay <? MANUAL_LOCK_MAX_DELAY_MS)
            && (manualSetupModeCounter s =? 1))
        (modify (set_manualLocked true) ;;
         modify (set_manualMode true) ;;
         mqttCommunicate) ;;
      s <- get ;;
      when (negb (manualLocked s))
        (modify (set_manualLockActivatorSwitch SWITCH_S1) ;;
         s <- get ;;
         when (negb (manualMode s))
           (modify (set_manualMode true) ;;
            now <- millis ;;
            modify (set_manualLockActivatorTime now) ;;
            mqttCommunicate ;; (* send to MQTT, to indicate manual mode *)
            s <- get ;;
            if blindInvertSwitch cfg then
              when (negb (movementProgress s) || movementL1 s) (startL2 0)
            else
              when (negb (movementProgress s) || negb (movementL1 s)) (startL1 0)))
    else if s2Low e then
      s <- get ;;
      when (manualLockActivatorSwitch s =? SWITCH_S1)
        (modify (set_manualSetupModeCounter 0)) ;;
      s <- get ;;
      when (negb (blindDisableManualLock cfg) && negb (manualLocked s)
            && (manualActivatorDelay <? MANUAL_LOCK_MAX_DELAY_MS)
            && (manualSetupModeCounter s =? 1))
        (modify (set_manualLocked true) ;;
         modify (set_manualMode true) ;;
         mqttCommunicate) ;;
      s <- get ;;
      when (negb (manualLocked s))
        (modify (set_manualLockActivatorSwitch SWITCH_S2) ;;
         s <- get ;;
         when (negb (manualMode s))
           (modify (set_manualMode true) ;;
            now <- millis ;;
            modify (set_manualLockActivatorTime now) ;;
            mqttCommunicate ;; (* send to MQTT, to indicate manual mode *)
            s <- get ;;
            if blindInvertSwitch cfg then
              when (negb (movementProgress s) || negb (movementL1 s)) (startL1 0)
            else
              when (negb (movementProgress s) || movementL1 s) (startL2 0)))
    else
      s <- get ;;
      when (manualMode s)
        ((if manualActivatorDelay <? MANUAL_LOCK_MAX_DELAY_MS then
            modify (fun s => set_manualSetupModeCounter
                               (to_long (manualSetupModeCounter s + 1)) s) ;;
            s <- get ;;
            when (manualSetupModeCounter s =? MANUAL_SETUP_COUNTER)
              (startWifiManager true)
          else modify (set_manualSetupModeCounter 0)) ;;
         modify (set_manualMode false) ;;
         now <- millis ;;
         modify (set_manualLockActivatorTime now) ;;
         s <- get ;;
         if manualLocked s then
           mqttCommunicate (* send to MQTT, to indicate manual mode is off *)
         else if movementProgress s then stopL1 ;; stopL2
         else mqttCommunicate) ;;
      modify (set_manualLocked false)
  else ret tt.

(** ** Command interpreter *)

Definition autoMoveToPos (newPos : Z) : M unit :=
  s <- get ;;
  when (negb (manualMode s))
    (let deltaMove := to_long (newPos - blindPos s) in
     if blindInvertZero cfg then
       if 0 <? deltaMove then startL1 (to_ulong deltaMove)
       else when (deltaMove <? 0) (startL2 (to_ulong (to_long (- deltaMove))))
     else
       if 0 <? deltaMove then startL2 (to_ulong deltaMove)
       else when (deltaMove <? 0) (startL1 (to_ulong (to_long (- deltaMove))))).

(** The command string: the first [min(length, 9)] bytes of the payload, as
    [strncpy] copies them and [String(char* )] reads them back, that is, up to
    the first NUL. *)
Fixpoint c_str (s : string) : string :=
  match s with
  | EmptyString => EmptyString
  | String c s' => if Ascii.eqb c zero then EmptyString else String c (c_str s')
  end.

Definition payloadCopy (payload : string) : string :=
  c_str (substring 0 (Nat.min (String.length payload) 9) payload).

Definition startsWith (s pre : string) : bool := prefix pre s.

(** [String::substring(left)]: from index [left] to the end. *)
Definition substring_from (left : nat) (s : string) : string :=
  substring left (String.length s - left) s.

Definition isspace (c : ascii) : bool :=
  let n := nat_of_ascii c in
  Nat.eqb n 32 || (Nat.leb 9 n && Nat.leb n 13).

Definition digit_of (c : ascii) : option Z :=
  let n := Z.of_nat (nat_of_ascii c) in
  if (48 <=? n) && (n <=? 57) then Some (n - 48) else None.

Fixpoint skip_spaces (s : string) : string :=
  match s with
  | String c s' => if isspace c then skip_spaces s' else s
  | EmptyString => s
  end.

Fixpoint digits (acc : Z) (s : string) : Z :=
  match s with
  | String c s' =>
      match digit_of c with
      | Some d => digits (acc * 10 + d) s'
      | None => acc
      end
  | EmptyString => acc
  end.

(** [atoi]: white space, an optional sign, then decimal digits; anything else
    ends the number. (The strings it is applied to hold at most six
    characters, so the value always fits an [int].) *)
Definition atoi (s : string) : Z :=
  match skip_spaces s with
  | String c s' =>
      if Ascii.eqb c "-" then - digits 0 s'
      else if Ascii.eqb c "+" then digits 0 s'
      else digits 0 (String c s')
  | EmptyString => 0
  end.

Definition mqttCallback (payload : string) : M unit :=
  let cmd := payloadCopy payload in
  if startsWith cmd CMD_SETUP then startWifiManager true
  else if startsWith cmd CMD_MOVE_ABS then
    s <- get ;;
    when (movementProgress s && negb (manualMode s)) (stopL1 ;; stopL2) ;;
    let absPos := atoi (substring_from 3 cmd) in
    let newPos := to_long (absPos * 1000) in
    autoMoveToPos newPos
  else if startsWith cmd CMD_MOVE_REL then
    s <- get ;;
    when (movementProgress s && negb (manualMode s)) (stopL1 ;; stopL2) ;;
    let relPos := atoi (substring_from 3 cmd) in
    s <- get ;;
    let newPos := to_long (blindPos s + to_long (relPos * 1000)) in
    autoMoveToPos newPos
  else ret tt.

(** ** Boot *)

(** The globals as the C++ runtime zero-initialises them, except [blindPos],
    whose initialiser is 0 too; nothing has been output yet. *)
Definition power_on : State :=
  mkState 0 false false 0 0 0 0 0 false false false 0 [].

Definition setup : M unit :=
  e <- ask ;;
  modify (set_manualLocked (s1Low e || s2Low e)) ;;
  modify (set_manualSetupModeCounter 0) ;;
  stopL1 ;;
  stopL2 ;;
  startWifiManager false.

(** ** Runs of the controller

    What can happen after [setup]: the three handlers the main loop drives
    ([gpioLoop], [movementLoop], and [mqttCallback] from inside [mqttLoop]),
    and, for statements about the relay driver alone, direct calls of its
    four operations. *)
Inductive Step : Type :=
| Gpio (e : Env)
| Movement (e : Env)
| Mqtt (e : Env) (payload : string)
| StartL1 (e : Env) (timeout : Z)
| StartL2 (e : Env) (timeout : Z)
| StopL1 (e : Env)
| StopL2 (e : Env).

Definition step (s : State) (st : Step) : State :=
  match st with
  | Gpio e => exec gpioLoop e s
  | Movement e => exec movementLoop e s
  | Mqtt e payload => exec (mqttCallback payload) e s
  | StartL1 e timeout => exec (startL1 (to_ulong timeout)) e s
  | StartL2 e timeout => exec (startL2 (to_ulong timeout)) e s
  | StopL1 e => exec stopL1 e s
  | StopL2 e => exec stopL2 e s
  end.

Definition boot (e0 : Env) : State := exec setup e0 power_on.

Definition run (e0 : Env) (l : list Step) : State :=
  fold_left step l (boot e0).

End Controller.

(** ** Relay levels along the output *)

(** The levels of the two relay outputs after the events of [t] (newest
    first); both are low when nothing has been written yet. *)
Fixpoint relays (t : list Event) : bool * bool :=
  match t with
  | [] => (false, false)
  | DigitalWrite RELAY_L1 v :: t' => (v, snd (relays t'))
  | DigitalWrite RELAY_L2 v :: t' => (fst (relays t'), v)
  | _ :: t' => relays t'
  end.

Definition both_on (t : list Event) : bool := fst (relays t) && snd (relays t).

(** No instant of the history [t] has both relays energized. *)
Fixpoint never_both (t : list Event) : bool :=
  match t with
  | [] => true
  | _ :: t' => negb (both_on t) && never_both t'
  end.

(** ** Sample environments

    A call at time [t] in which every clock reading is [t], the link is up
    and WiFiManager runs no callback; no switch, S1 or S2 asserted. *)

Definition quiet (t : Z) : Env := mkEnv (fun _ => t) false false false true false.
Definition press1 (t : Z) : Env := mkEnv (fun _ => t) true false false true false.
Definition press2 (t : Z) : Env := mkEnv (fun _ => t) false true false true false.

(** ** Predicates on states *)

(** A Hoare triple on the globals, for every environment and every count of
    clock readings. *)
Definition hoare {A} (P : State -> Prop) (m : M A) (Q : State -> Prop) : Prop :=
  forall e n s, P s -> Q (snd (snd (m e (n, s)))).

(** A published message shows a position of the range. *)
Definition pub_ok (cfg : Config) (ev : Event) : Prop :=
  match ev with
  | MqttPublish msg =>
      exists p b, 0 <= p <= blindMaxPos cfg /\ msg = mqttMsg p b
  | _ => True
  end.

(** The position is in range (and a [long]), and so is every position
    published. *)
Definition pos_inv (cfg : Config) (s : State) : Prop :=
  (0 <= blindPos s <= blindMaxPos cfg /\ blindPos s <= LONG_MAX) /\
  Forall (pub_ok cfg) (out s).

(** The history of the relay outputs is safe, and their present levels
    satisfy [Q]. *)
Definition relay_inv (Q : bool * bool -> Prop) (s : State) : Prop :=
  never_both (out s) = true /\ Q (relays (out s)).

Definition any_levels (r : bool * bool) : Prop := True.
Definition l1_low (r : bool * bool) : Prop := fst r = false.
Definition l2_low (r : bool * bool) : Prop := snd r = false.

(** Events that write no pin. *)
Definition writes_no_pin (ev : Event) : bool :=
  match ev with DigitalWrite _ _ => false | _ => true end.

(** The movement state the driver keeps, and the direction it is driving. *)
Definition movement_state (s : State) : bool * bool * Z * Z :=
  (movementProgress s, movementL1 s, movementStartTime s, movementTimeout s).

Definition active_direction (s : State) : option Pin :=
  if movementProgress s
  then Some (if movementL1 s then RELAY_L1 else RELAY_L2)
  else None.

(** [deactivate]: [stopL1] or [stopL2], by direction. *)
Definition deactivate (cfg : Config) (p : Pin) : M unit :=
  match p with RELAY_L1 => stopL1 cfg | RELAY_L2 => stopL2 cfg end.

(** The payload holds a move command. *)
Definition is_move_command (payload : string) : bool :=
  startsWith (payloadCopy payload) CMD_MOVE_ABS
  || startsWith (payloadCopy payload) CMD_MOVE_REL.

(** The number of requests made to WiFiManager to open the portal. *)
Fixpoint portal_requests (t : list Event) : nat :=
  match t with
  | [] => 0%nat
  | StartConfigPortal :: t' => S (portal_requests t')
  | _ :: t' => portal_requests t'
  end.

(** What the switch arbiter keeps between ticks, with the provisioning flag
    and the requests made so far. *)
Definition gesture_view (s : State) : bool * bool * Z * Z * Z * bool * nat :=
  (manualMode s, manualLocked s, manualLockActivatorTime s,
   manualLockActivatorSwitch s, manualSetupModeCounter s,
   wifiManagerSetupRunning s, portal_requests (out s)).

(** The state and the count of clock readings after the pairing-button check
    that opens [gpioLoop], and the delay the call then computes from its next
    clock reading. *)
Definition after_button (e : Env) (s : State) : nat * State :=
  snd (when (buttonLow e) (startWifiManager true) e (0%nat, s)).

Definition manualActivatorDelay (e : Env) (s : State) : Z :=
  to_ulong (to_ulong (millis_at e (fst (after_button e s)))
            - manualLockActivatorTime s).

(** A computation that leaves the arbiter's view as it is. *)
Definition keeps_view {A} (m : M A) : Prop :=
  forall g, hoare (fun s => gesture_view s = g) m (fun s => gesture_view s = g).

(** The switch a tick of [gpioLoop] finds asserted: S1 is looked at first. *)
Definition pressed_switch (e : Env) : option Z :=
  if s1Low e then Some SWITCH_S1
  else if s2Low e then Some SWITCH_S2
  else None.


(** Consecutive ticks of [gpioLoop]. *)
Definition ticks (cfg : Config) (l : list Env) (s : State) : State :=
  fold_left (fun s e => exec (gpioLoop cfg) e s) l s.

(** A tick that brings nothing new: it falls within the debounce delay, or
    it finds the switches as [sw] says (both released, or that switch still
    asserted); the pairing button is released. *)
Definition quiet_tick (sw : option Z) (e : Env) (s : State) : Prop :=
  buttonLow e = false /\
  (manualActivatorDelay e s <= MANUAL_LOCK_MIN_DELAY_MS \/ pressed_switch e = sw).

Fixpoint quiet_ticks (cfg : Config) (sw : option Z) (l : list Env) (s : State) : Prop :=
  match l with
  | [] => True
  | e :: l' => quiet_tick sw e s /\ quiet_ticks cfg sw l' (exec (gpioLoop cfg) e s)
  end.

(** The ticks of one tap: those before the press, the tick that sees the
    press, those during the hold, the tick that sees the release. *)
Record Tap : Type := mkTap {
  idle : list Env;
  press : Env;
  hold : list Env;
  release : Env
}.

Definition tap (cfg : Config) (t : Tap) (s : State) : State :=
  exec (gpioLoop cfg) (release t)
    (ticks cfg (hold t)
       (exec (gpioLoop cfg) (press t) (ticks cfg (idle t) s))).

Fixpoint taps (cfg : Config) (l : list Tap) (s : State) : State :=
  match l with
  | [] => s
  | t :: l' => taps cfg l' (tap cfg t s)
  end.

(** Quick taps on switch [sw]: every press is seen after the debounce delay,
    every release is seen after the debounce delay and less than
    [MANUAL_LOCK_MAX_DELAY_MS] after the stamp; the other ticks bring nothing
    new, and the pairing button stays released. *)
Fixpoint quick_taps (cfg : Config) (sw : Z) (l : list Tap) (s : State) : Prop :=
  match l with
  | [] => True
  | t :: l' =>
      let s0 := ticks cfg (idle t) s in
      let s1 := exec (gpioLoop cfg) (press t) s0 in
      let s2 := ticks cfg (hold t) s1 in
      quiet_ticks cfg None (idle t) s /\
      pressed_switch (press t) = Some sw /\ buttonLow (press t) = false /\
      MANUAL_LOCK_MIN_DELAY_MS < manualActivatorDelay (press t) s0 /\
      quiet_ticks cfg (Some sw) (hold t) s1 /\
      pressed_switch (release t) = None /\ buttonLow (release t) = false /\
      MANUAL_LOCK_MIN_DELAY_MS
        < manualActivatorDelay (release t) s2
        < MANUAL_LOCK_MAX_DELAY_MS /\
      quick_taps cfg sw l' (tap cfg t s)
  end.

(** Five short taps on S1, each press seen 250 ms after the release before
    it, with some of the ticks in between. *)
Definition five_taps_S1 : list Tap :=
  [ mkTap [quiet 500] (press1 1000) [press1 1100] (quiet 1210);
    mkTap [quiet 1300] (press1 1460) [press1 1500] (quiet 1560);
    mkTap [] (press1 1810) [] (quiet 2020);
    mkTap [] (press1 2270) [] (quiet 2480);
    mkTap [quiet 2500; quiet 2700] (press1 2730) [press1 2800] (quiet 2940) ].

(** A numeric payload with no number in it: after white space and an
    optional sign, no digit follows. *)
Definition no_digit (s : string) : bool :=
  match s with
  | String c _ => match digit_of c with Some _ => false | None => true end
  | EmptyString => true
  end.

Definition malformed (s : string) : bool :=
  match skip_spaces s with
  | String c s' =>
      if Ascii.eqb c "-" then no_digit s'
      else if Ascii.eqb c "+" then no_digit s'
      else no_digit (String c s')
  | EmptyString => true
  end.

(** ** More predicates on the states of the core *)

(** The relay levels the movement state stands for. *)
Definition levels_of (s : State) : bool * bool :=
  (movementProgress s && movementL1 s,
   movementProgress s && negb (movementL1 s)).

Definition coherent (s : State) : Prop := relays (out s) = levels_of s.

(** The portal is running since [t], and [g] requests have been made. *)
Definition portal_settled (t : Z) (g : nat) (s : State) : Prop :=
  wifiManagerSetupRunning s = true /\ wifiManagerSetupStart s = t /\
  portal_requests (out s) = g.

(** A call in which the pairing button is asserted and WiFiManager runs the
    access-point callback. *)
Definition portal_opens (t : Z) : Env :=
  mkEnv (fun _ => t) false false true true true.

(** The relay a press of switch [sw] drives: S1 drives L1 and S2 drives L2,
    unless [blindInvertSwitch] swaps them. *)
Definition press_drives_L1 (cfg : Config) (sw : Z) : bool :=
  if sw =? SWITCH_S1 then negb (blindInvertSwitch cfg) else blindInvertSwitch cfg.

(** A tick that finds a switch asserted and the pairing button released. *)
Definition held (e : Env) : Prop :=
  buttonLow e = false /\ pressed_switch e <> None.

(** The state of a tap just before the tick that sees its release. *)
Definition before_release (cfg : Config) (t : Tap) (s : State) : State :=
  ticks cfg (hold t) (exec (gpioLoop cfg) (press t) (ticks cfg (idle t) s)).

(** The first part of a move command: a remote movement in progress is
    stopped. *)
Definition stopped_first (cfg : Config) (e : Env) (s : State) : State :=
  if movementProgress s && negb (manualMode s)
  then exec (stopL1 cfg ;; stopL2 cfg) e s
  else s.

(** The clock reading with which a move command stamps the movement it
    starts: the first reading of the call, or the second when stopping the
    movement in progress has made one. *)
Definition command_clock (e : Env) (s : State) : Z :=
  to_ulong (millis_at e
              (if movementProgress s && negb (manualMode s) then 1 else 0)%nat).

(** The time from [t0] to the [k]-th clock reading of the call [e], as the
    sketch computes it. *)
Definition elapsed_since (t0 : Z) (e : Env) (k : nat) : Z :=
  to_ulong (to_ulong (millis_at e k) - t0).

(** The relay levels (L1, L2) of a drive toward the maximum and toward
    zero: L2 drives toward the maximum unless [blindInvertZero] swaps the
    directions. *)
Definition toward_max_levels (cfg : Config) : bool * bool :=
  if blindInvertZero cfg then (true, false) else (false, true).
Definition toward_zero_levels (cfg : Config) : bool * bool :=
  if blindInvertZero cfg then (false, true) else (true, false).

(** The movement in progress goes toward position 0. *)
Definition toward_zero (cfg : Config) (s : State) : bool :=
  xorb (movementL1 s) (blindInvertZero cfg).

(** The number of messages handed to the broker. *)
Fixpoint publishes (t : list Event) : nat :=
  match t with
  | [] => 0%nat
  | MqttPublish _ :: t' => S (publishes t')
  | _ :: t' => publishes t'
  end.

(** A computation that publishes nothing when the link is down. *)
Definition silent {A} (m : M A) : Prop :=
  forall e n s, mqttUp e = false ->
  publishes (out (snd (snd (m e (n, s))))) = publishes (out s).

(** The value of a decimal numeral read from the left, as [digits] reads
    its text. *)
Fixpoint numeral (u : Decimal.uint) (acc : Z) : Z :=
  match u with
  | Decimal.Nil => acc
  | Decimal.D0 l => numeral l (acc * 10 + 0)
  | Decimal.D1 l => numeral l (acc * 10 + 1)
  | Decimal.D2 l => numeral l (acc * 10 + 2)
  | Decimal.D3 l => numeral l (acc * 10 + 3)
  | Decimal.D4 l => numeral l (acc * 10 + 4)
  | Decimal.D5 l => numeral l (acc * 10 + 5)
  | Decimal.D6 l => numeral l (acc * 10 + 6)
  | Decimal.D7 l => numeral l (acc * 10 + 7)
  | Decimal.D8 l => numeral l (acc * 10 + 8)
  | Decimal.D9 l => numeral l (acc * 10 + 9)
  end.

(** A text of white space only. *)
Fixpoint all_space (s : string) : bool :=
  match s with
  | EmptyString => true
  | String c s' => isspace c && all_space s'
  end.


(** * The rest of the sketch: settings, network supervision, main loop *)

Definition CONFIG_TIMEOUT_MS : Z := 300000.
Definition LOOP_DELAY_MS : Z := 10.

Definition to_uint16 (z : Z) : Z := z mod 2 ^ 16.

(** ** Settings *)

(** [strcpy(dst, v)] into [char dst[size]] stays inside [dst]: the text and
    its NUL take at most [size] bytes. *)
Definition fits (size : nat) (v : string) : bool :=
  (String.length v <? size)%nat.

(** [atoi] on a text of any length: the number read, saturated to the range
    of an [int] (the C library's [atoi] is [strtol] cut to an [int], and
    [strtol] saturates). On the short texts of a command it is [atoi]. *)
Definition atoi_int (v : string) : Z :=
  Z.max (- 2 ^ 31) (Z.min (2 ^ 31 - 1) (atoi v)).

(** The settings the portal edits: the MQTT texts and the four settings of
    the control core. The texts are C strings in buffers of 40 bytes
    ([mqttPort]: 6 bytes). *)
Record Settings : Type := mkSettings {
  mqttServer : string;
  mqttPort : string;
  mqttClientName : string;
  mqttUser : string;
  mqttPassword : string;
  mqttOutTopic : string;
  mqttInTopic : string;
  blind : Config
}.

(** The initialisers of the globals ([mqttClientName] has none). *)
Definition initial_settings : Settings :=
  mkSettings "TiffanyAching.local" "1883" EmptyString "moist" "password"
    "ibnhouse/blinds/kitchen/pos" "ibnhouse/blinds/kitchen/cmd"
    default_config.

(** What [getValue()] gives for the eleven parameters of the portal. *)
Record Params : Type := mkParams {
  customMqttServer : string;
  customMqttPort : string;
  customMqttClientName : string;
  customMqttUser : string;
  customMqttPassword : string;
  customMqttOutTopic : string;
  customMqttInTopic : string;
  customBlindMaxPos : string;
  customBlindInvertZero : string;
  customBlindInvertSwitch : string;
  customBlindDisableManualLock : string
}.

(** The JSON document of [/config.json]: every member the sketch writes or
    reads is a string. *)
Definition Json : Type := list (string * string).

Fixpoint json_get (k : string) (doc : Json) : option string :=
  match doc with
  | [] => None
  | (k', v) :: doc' => if String.eqb k k' then Some v else json_get k doc'
  end.

(** [json[k] = v]. *)
Fixpoint json_set (k v : string) (doc : Json) : Json :=
  match doc with
  | [] => [(k, v)]
  | (k', v') :: doc' =>
      if String.eqb k k' then (k, v) :: doc' else (k', v') :: json_set k v doc'
  end.

(** [json.containsKey(k) && strlen(json[k]) > 0], with the value. *)
Definition json_text (k : string) (doc : Json) : option string :=
  match json_get k doc with
  | Some v => if (0 <? String.length v)%nat then Some v else None
  | None => None
  end.

(** [strcmp("true", v) == 0 ? true : false]. *)
Definition is_true (v : string) : bool := String.eqb "true" v.

(** [1000 * atoi(v)], stored in the [unsigned long] [blindMaxPos]: the
    product of two [int]s, kept modulo [2^32]. *)
Definition max_pos_of (v : string) : Z := to_ulong (1000 * atoi_int v).

(** The assignments that open [saveParamsCallback]. *)
Definition read_params (p : Params) : Settings :=
  mkSettings (customMqttServer p) (customMqttPort p) (customMqttClientName p)
    (customMqttUser p) (customMqttPassword p) (customMqttOutTopic p)
    (customMqttInTopic p)
    (mkConfig (max_pos_of (customBlindMaxPos p))
       (is_true (customBlindInvertZero p))
       (is_true (customBlindInvertSwitch p))
       (is_true (customBlindDisableManualLock p))).

Definition bool_text (b : bool) : string := if b then "true" else "false".

(** [String(blindMaxPos / 1000)], the text copied to [blindMaxPosStr]: the
    quotient is below [2^32 / 1000], so its decimal text is the one [ltoa]
    writes. *)
Definition blindMaxPosStr (st : Settings) : string :=
  ltoa (blindMaxPos (blind st) / 1000).

(** Every [strcpy] of [saveParamsCallback] stays inside its buffer: the
    seven texts in their globals, and the text of the maximum position in
    [char blindMaxPosStr[4]]. *)
Definition params_fit (p : Params) : bool :=
  fits 40 (customMqttServer p) && fits 6 (customMqttPort p) &&
  fits 40 (customMqttClientName p) && fits 40 (customMqttUser p) &&
  fits 40 (customMqttPassword p) && fits 40 (customMqttOutTopic p) &&
  fits 40 (customMqttInTopic p) && fits 4 (blindMaxPosStr (read_params p)).

(** The document [saveParamsCallback] serialises. *)
Definition config_json (st : Settings) : Json :=
  let json := [] in
  let json := json_set "mqtt_server" (mqttServer st) json in
  let json := json_set "mqtt_port" (mqttPort st) json in
  let json := json_set "mqtt_client_name" (mqttClientName st) json in
  let json := json_set "mqtt_user" (mqttUser st) json in
  let json := json_set "mqtt_password" (mqttPassword st) json in
  let json := json_set "mqtt_out_topic" (mqttOutTopic st) json in
  let json := json_set "mqtt_in_topic" (mqttInTopic st) json in
  let json := json_set "blind_max_pos" (blindMaxPosStr st) json in
  let json := json_set "blind_invert_zero" (bool_text (blindInvertZero (blind st))) json in
  let json := json_set "blind_invert_switch" (bool_text (blindInvertSwitch (blind st))) json in
  let json := json_set "disable_manual_lock"
                (bool_text (blindDisableManualLock (blind st))) json in
  json.

(** The guarded assignments of [startWifiManager] once the file is parsed. *)
Definition text_or (k : string) (json : Json) (old : string) : string :=
  match json_text k json with Some v => v | None => old end.

Definition load_settings (json : Json) (st : Settings) : Settings :=
  mkSettings
    (text_or "mqtt_server" json (mqttServer st))
    (text_or "mqtt_port" json (mqttPort st))
    (text_or "mqtt_client_name" json (mqttClientName st))
    (text_or "mqtt_user" json (mqttUser st))
    (text_or "mqtt_password" json (mqttPassword st))
    (text_or "mqtt_out_topic" json (mqttOutTopic st))
    (text_or "mqtt_in_topic" json (mqttInTopic st))
    (mkConfig
       (match json_text "blind_max_pos" json with
        | Some v => max_pos_of v
        | None => blindMaxPos (blind st)
        end)
       (match json_text "blind_invert_zero" json with
        | Some v => is_true v
        | None => blindInvertZero (blind st)
        end)
       (match json_text "blind_invert_switch" json with
        | Some v => is_true v
        | None => blindInvertSwitch (blind st)
        end)
       (match json_text "disable_manual_lock" json with
        | Some v => is_true v
        | None => blindDisableManualLock (blind st)
        end)).

(** Every [strcpy] of the guarded assignments stays inside its buffer. *)
Definition text_fits (size : nat) (k : string) (json : Json) : bool :=
  match json_text k json with Some v => fits size v | None => true end.

Definition json_fits (json : Json) : bool :=
  text_fits 40 "mqtt_server" json && text_fits 6 "mqtt_port" json &&
  text_fits 40 "mqtt_client_name" json && text_fits 40 "mqtt_user" json &&
  text_fits 40 "mqtt_password" json && text_fits 40 "mqtt_out_topic" json &&
  text_fits 40 "mqtt_in_topic" json.

(** Every [strcpy] of the first part of [startWifiManager(false)] stays
    inside its buffer: the one of [apName] and those of the file's texts. *)
Definition boot_fits (apName : string) (file : option Json) : bool :=
  fits 40 apName &&
  match file with Some json => json_fits json | None => true end.

(** The settings after the first part of [startWifiManager(false)]:
    [apName] is ["Dorfl-"] followed by the chip id; [file] is the document of
    [/config.json] when the file system mounts and the file exists, opens
    and parses. (Where a [strcpy] would leave its buffer the model copies
    nothing: see [overrun].) *)
Definition boot_settings (apName : string) (file : option Json) : Settings :=
  let st := mkSettings (mqttServer initial_settings) (mqttPort initial_settings)
              apName (mqttUser initial_settings) (mqttPassword initial_settings)
              (mqttOutTopic initial_settings) (mqttInTopic initial_settings)
              (blind initial_settings) in
  if boot_fits apName file then
    match file with
    | Some json => load_settings json st
    | None => st
    end
  else initial_settings.

(** ** The device *)

(** What the sketch asks of the network libraries and of the chip. *)
Inductive NetEvent : Type :=
| StopConfigPortal
| SetServer (host : string) (port : Z)   (* the port is a [uint16_t] *)
| Connect (clientName user password : string)
| Subscribe (topic : string)
| ClientLoop
| Delay (ms : Z)
| EspRestart.

(** All the globals: those of the control core, the settings, and those of
    the network supervision; with the configuration file and the calls made
    (newest first).

    [overrun] is not a global of the sketch. It is set where a [strcpy] of
    the sketch writes past the end of its buffer: what the sketch does from
    there on is undefined, and the model does not try to follow it (the call
    that overruns copies and saves nothing in the model). The other fields
    of a device with [overrun] set say nothing about the sketch. *)
Record Device : Type := mkDevice {
  core : State;
  settings : Settings;
  offline : bool;
  restart : bool;
  mqttConnectAttempt : Z;
  mqttConnectDelay : Z;
  configFile : option Json;
  net : list NetEvent;
  overrun : bool
}.

Definition set_core (v : State) (d : Device) : Device :=
  mkDevice v (settings d) (offline d) (restart d) (mqttConnectAttempt d)
    (mqttConnectDelay d) (configFile d) (net d) (overrun d).
Definition set_settings (v : Settings) (d : Device) : Device :=
  mkDevice (core d) v (offline d) (restart d) (mqttConnectAttempt d)
    (mqttConnectDelay d) (configFile d) (net d) (overrun d).
Definition set_offline (v : bool) (d : Device) : Device :=
  mkDevice (core d) (settings d) v (restart d) (mqttConnectAttempt d)
    (mqttConnectDelay d) (configFile d) (net d) (overrun d).
Definition set_restart (v : bool) (d : Device) : Device :=
  mkDevice (core d) (settings d) (offline d) v (mqttConnectAttempt d)
    (mqttConnectDelay d) (configFile d) (net d) (overrun d).
Definition set_mqttConnectAttempt (v : Z) (d : Device) : Device :=
  mkDevice (core d) (settings d) (offline d) (restart d) v
    (mqttConnectDelay d) (configFile d) (net d) (overrun d).
Definition set_mqttConnectDelay (v : Z) (d : Device) : Device :=
  mkDevice (core d) (settings d) (offline d) (restart d) (mqttConnectAttempt d)
    v (configFile d) (net d) (overrun d).
Definition set_configFile (v : option Json) (d : Device) : Device :=
  mkDevice (core d) (settings d) (offline d) (restart d) (mqttConnectAttempt d)
    (mqttConnectDelay d) v (net d) (overrun d).
Definition note (ev : NetEvent) (d : Device) : Device :=
  mkDevice (core d) (settings d) (offline d) (restart d) (mqttConnectAttempt d)
    (mqttConnectDelay d) (configFile d) (ev :: net d) (overrun d).
Definition set_overrun (v : bool) (d : Device) : Device :=
  mkDevice (core d) (settings d) (offline d) (restart d) (mqttConnectAttempt d)
    (mqttConnectDelay d) (configFile d) (net d) v.

(** What happens around the sketch during one iteration of [loop]: the
    environments of the calls of the core (their field [mqttUp] is what
    [mqttClient.connected()] answers there), what [wifiManager.process()]
    hands to [saveParamsCallback] (and whether the file can be written), the
    clock reading of [wifimanagerLoop], the state of WiFi and of the mDNS
    search, what [mqttClient.connected()] and [connect] answer in
    [mqttLoop] (its call of [connected()] and the one that opens
    [mqttReconnect] follow each other and get one answer), its two clock
    readings, and the messages [mqttClient.loop()] passes to
    [mqttCallback]. [mDnsResolver.loop()] touches no global of the sketch
    and is left out. *)
Record World : Type := mkWorld {
  gpio_env : Env;
  movement_env : Env;
  saved : option (Params * bool);
  wm_millis : Z;
  wifiConnected : bool;
  mdns : option string;
  connected : bool;
  link_millis : nat -> Z;
  connectOk : bool;
  inbound : list (Env * string)
}.

(** A call of the core from the device: [offline] is a global of the
    sketch, and the core publishes when [!offline && mqttClient.connected()]. *)
Definition online (d : Device) (e : Env) : Env :=
  mkEnv (millis_at e) (s1Low e) (s2Low e) (buttonLow e)
    (negb (offline d) && mqttUp e) (apCallback e).

Definition drive (st : Step) (d : Device) : Device :=
  set_core (step (blind (settings d)) (core d) st) d.

(** ** Provisioning *)

Definition wifiManagerSetupStopped (d : Device) : Device :=
  (* don't restart immediately *)
  set_restart true d.

(** [writable]: the file opens for writing. *)
Definition saveParamsCallback (p : Params) (writable : bool) (d : Device) : Device :=
  if params_fit p then
    let d := set_settings (read_params p) d in
    let d := if writable
             then set_configFile (Some (config_json (settings d))) d
             else d in
    wifiManagerSetupStopped d
  else set_overrun true d.

Definition wifimanagerLoop (w : World) (d : Device) : Device :=
  (* wifiManager.process() *)
  let d := match saved w with
           | Some (p, writable) => saveParamsCallback p writable d
           | None => d
           end in
  let d :=
    if wifiManagerSetupRunning (core d) then
      if CONFIG_TIMEOUT_MS
           <? to_ulong (to_ulong (wm_millis w) - wifiManagerSetupStart (core d))
      then wifiManagerSetupStopped (note StopConfigPortal d)
      else d
    else d in
  if wifiConnected w then
    let d :=
      if offline d then
        (* MQTT connection *)
        note (SetServer (match mdns w with
                         | Some ip => ip
                         | None => mqttServer (settings d)
                         end)
                (to_uint16 (atoi_int (mqttPort (settings d))))) d
      else d in
    set_offline false d
  else set_offline true d.

(** ** MQTT link *)

Definition mqttReconnect (w : World) (d : Device) : bool * Device :=
  if negb (connected w) then
    (* don't attempt more often than a delay *)
    if mqttConnectDelay d
         <? to_ulong (to_ulong (link_millis w 0%nat) - mqttConnectAttempt d)
    then
      (* increase reconnect attempt delay by 1 second *)
      let d := set_mqttConnectDelay (to_ulong (mqttConnectDelay d + 1000)) d in
      (* don't attempt more often than once a minute *)
      let d := if 60000 <? mqttConnectDelay d
               then set_mqttConnectDelay 60000 d else d in
      (* Attempt to connect *)
      let d := set_mqttConnectAttempt (to_ulong (link_millis w 1%nat)) d in
      let d := note (Connect (mqttClientName (settings d)) (mqttUser (settings d))
                       (mqttPassword (settings d))) d in
      if connectOk w then
        (* Once connected resubscribe *)
        let d := note (Subscribe (mqttInTopic (settings d))) d in
        let d := set_mqttConnectDelay 0 d in
        (true, d)
      else (false, d)
    else (false, d)
  else (false, d).

(** [mqttClient.loop()]: the library hands the inbound messages to the
    callback the sketch registered, [mqttCallback]. *)
Definition clientLoop (w : World) (d : Device) : Device :=
  fold_left (fun d m => drive (Mqtt (online d (fst m)) (snd m)) d)
    (inbound w) (note ClientLoop d).

Definition mqttLoop (w : World) (d : Device) : Device :=
  if negb (connected w) then
    let (ok, d) := mqttReconnect w d in
    if negb ok then d else clientLoop w d
  else clientLoop w d.

(** ** Main loop *)

Definition loop (w : World) (d : Device) : Device :=
  let d := drive (Gpio (online d (gpio_env w))) d in
  let d := drive (Movement (online d (movement_env w))) d in
  let d := wifimanagerLoop w d in
  let d := if negb (offline d) then mqttLoop w d else d in
  (* try to save power by delaying, which forces a light sleep *)
  let d := if negb (movementProgress (core d)) then note (Delay LOOP_DELAY_MS) d
           else d in
  if restart d then note EspRestart d else d.

(** [setup] on a chip that has just been reset: the globals have their
    initial values, [startWifiManager(false)] loads the settings. [setup]
    stops the relays before that call, under the initial settings; as no
    movement is in progress then, the settings play no part in it (lemma
    [boot_any_config]), and the core is run under the settings loaded. *)
Definition setup_device (e0 : Env) (apName : string) (file : option Json) : Device :=
  let st := boot_settings apName file in
  let d := mkDevice power_on st true false 0 0 file []
             (negb (boot_fits apName file)) in
  set_core (exec (setup (blind st)) (online d e0) (core d)) d.

(** One iteration of [loop], followed by the reset and [setup] when it ends
    in [ESP.restart()]; [e0] is the environment of that [setup]. *)
Definition iteration (apName : string) (d : Device) (we : World * Env) : Device :=
  let d' := loop (fst we) d in
  if restart d' then setup_device (snd we) apName (configFile d') else d'.

(** The device after power-on and the iterations [l]. *)
Definition lifetime (apName : string) (file : option Json) (e0 : Env)
    (l : list (World * Env)) : Device :=
  fold_left (iteration apName) l (setup_device e0 apName file).

(** ** Predicates on the device *)

(** Consecutive calls of [mqttReconnect]. *)
Definition reconnects (l : list World) (d : Device) : Device :=
  fold_left (fun d w => snd (mqttReconnect w d)) l d.

(** The time since the last attempt, as [mqttReconnect] computes it. *)
Definition sinceAttempt (w : World) (d : Device) : Z :=
  to_ulong (to_ulong (link_millis w 0%nat) - mqttConnectAttempt d).

(** Every call of [l] finds the client disconnected and the delay elapsed,
    and its attempt to connect fails. *)
Fixpoint failed_attempts (l : list World) (d : Device) : Prop :=
  match l with
  | [] => True
  | w :: l' =>
      connected w = false /\ mqttConnectDelay d < sinceAttempt w d /\
      connectOk w = false /\
      failed_attempts l' (snd (mqttReconnect w d))
  end.

(** The attempts to connect made so far. *)
Fixpoint connects (t : list NetEvent) : nat :=
  match t with
  | [] => 0%nat
  | Connect _ _ _ :: t' => S (connects t')
  | _ :: t' => connects t'
  end.

(** What a call of the core leaves alone. *)
Definition outside_core (d : Device) :
    Settings * bool * bool * Z * Z * option Json * list NetEvent * bool :=
  (settings d, offline d, restart d, mqttConnectAttempt d, mqttConnectDelay d,
   configFile d, net d, overrun d).

(** What holds of the core whatever the settings are. *)
Definition core_safe (s : State) : Prop :=
  never_both (out s) = true /\ coherent s.

Definition device_safe (d : Device) : Prop :=
  never_both (out (core d)) = true /\ coherent (core d) /\
  0 <= mqttConnectDelay d <= 60000 /\ wf_config (blind (settings d)).

(** No [strcpy] overruns: in what the portal hands over, in the file. *)
Definition world_fits (w : World) : Prop :=
  match saved w with
  | Some (p, _) => params_fit p = true
  | None => True
  end.

Definition file_fits (file : option Json) : Prop :=
  match file with
  | Some json => json_fits json = true
  | None => True
  end.

(** What holds between two iterations of [loop]. *)
Definition device_inv (d : Device) : Prop :=
  device_safe d /\ pos_inv (blind (settings d)) (core d) /\ restart d = false.

(** The sketch has stayed inside its buffers, and will at the next
    [setup]. *)
Definition device_defined (d : Device) : Prop :=
  overrun d = false /\ file_fits (configFile d).

(** A text of the file is used only when it is not empty. *)
Definition nonempty_or (v old : string) : string :=
  if (0 <? String.length v)%nat then v else old.

(** ** Sample iterations

    An iteration at time [t] in which no switch is asserted, nothing is saved
    and no message arrives: with WiFi up and the client connected; with WiFi
    down; with WiFi up, the client disconnected and the broker refusing. *)

Definition calm (t : Z) : World :=
  mkWorld (quiet t) (quiet t) None t true None true (fun _ => t) true [].
Definition refused (t : Z) : World :=
  mkWorld (quiet t) (quiet t) None t true None false (fun _ => t) false [].


(** * The model at work *)

(** The numbers of commands, the status messages, and the
    example run of the documentation ([mva30] from position 0 with
    [blindMaxPos] 60000: relay L2 for 30000 ms, then the status ["30"]). *)
Example atoi_examples :
  atoi "30" = 30 /\ atoi " -12ab" = -12 /\ atoi "+7" = 7 /\ atoi "xyz" = 0.
Proof. repeat split. Qed.

Example payloadCopy_example : payloadCopy "mva1234567890" = "mva123456"%string.
Proof. reflexivity. Qed.

Example mqttMsg_examples :
  mqttMsg 30000 false = "30"%string /\ mqttMsg 29700 true = "29."%string /\
  mqttMsg 0 true = "0."%string.
Proof. repeat split. Qed.

Example mva30_run :
  let s1 := run default_config (quiet 0) [Mqtt (quiet 100) "mva30"] in
  let s2 := step default_config s1 (Movement (quiet 30100)) in
  relays (out s1) = (false, true) /\ movementTimeout s1 = 30000 /\
  blindPos s2 = 30000 /\ relays (out s2) = (false, false) /\
  out s2 = MqttPublish "30" :: DigitalWrite RELAY_L2 false
           :: DigitalWrite RELAY_L1 false :: out s1.
Proof. vm_compute. repeat split. Qed.

Example never_both_detects :
  never_both [DigitalWrite RELAY_L1 true; DigitalWrite RELAY_L2 true] = false.
Proof. reflexivity. Qed.

(** * Reasoning principles *)

Lemma to_long_range (z : Z) : - 2 ^ 31 <= to_long z < 2 ^ 31.
Proof. unfold to_long. pose proof (Z.mod_pos_bound (z + 2 ^ 31) (2 ^ 32)). lia. Qed.

Lemma to_long_small (z : Z) : - 2 ^ 31 <= z < 2 ^ 31 -> to_long z = z.
Proof. intros H. unfold to_long. rewrite Z.mod_small; lia. Qed.

Lemma to_ulong_small (z : Z) : 0 <= z < 2 ^ 32 -> to_ulong z = z.
Proof. intros H. unfold to_ulong. apply Z.mod_small. lia. Qed.

Lemma hoare_ret {A} (P : State -> Prop) (a : A) : hoare P (ret a) P.
Proof. intros e n s H. exact H. Qed.

Lemma hoare_bind {A B} (P R Q : State -> Prop) (m : M A) (f : A -> M B) :
  hoare P m R -> (forall a, hoare R (f a) Q) -> hoare P (bind m f) Q.
Proof.
  intros Hm Hf e n s HP. unfold bind.
  specialize (Hm e n s HP).
  destruct (m e (n, s)) as [a [n' s']]. apply Hf. exact Hm.
Qed.

Lemma hoare_get (P : State -> Prop) : hoare P get P.
Proof. intros e n s H. exact H. Qed.

Lemma hoare_ask (P : State -> Prop) : hoare P ask P.
Proof. intros e n s H. exact H. Qed.

Lemma hoare_millis (P : State -> Prop) : hoare P millis P.
Proof. intros e n s H. exact H. Qed.

Lemma hoare_modify (P Q : State -> Prop) (f : State -> State) :
  (forall s, P s -> Q (f s)) -> hoare P (modify f) Q.
Proof. intros H e n s HP. apply H. exact HP. Qed.

Lemma hoare_when (P : State -> Prop) (b : bool) (m : M unit) :
  hoare P m P -> hoare P (when b m) P.
Proof. intros H. destruct b; [exact H | apply hoare_ret]. Qed.

Lemma hoare_weaken {A} (P Q Q' : State -> Prop) (m : M A) :
  hoare P m Q -> (forall s, Q s -> Q' s) -> hoare P m Q'.
Proof. intros H HQ e n s HP. apply HQ. apply H. exact HP. Qed.

Lemma hoare_exec (P Q : State -> Prop) (m : M unit) (e : Env) (s : State) :
  hoare P m Q -> P s -> Q (exec m e s).
Proof. intros H HP. apply H. exact HP. Qed.

(** Running the monad on a symbolic state. *)
Ltac mrun :=
  cbn [fst snd
       blindPos manualMode manualLocked manualLockActivatorTime
       manualLockActivatorSwitch manualSetupModeCounter movementStartTime
       movementTimeout movementL1 movementProgress wifiManagerSetupRunning
       wifiManagerSetupStart out
       set_blindPos set_manualMode set_manualLocked set_manualLockActivatorTime
       set_manualLockActivatorSwitch set_manualSetupModeCounter
       set_movementStartTime set_movementTimeout set_movementL1
       set_movementProgress set_wifiManagerSetupRunning
       set_wifiManagerSetupStart emit] in *.

Ltac mgoal :=
  cbn [fst snd
       blindPos manualMode manualLocked manualLockActivatorTime
       manualLockActivatorSwitch manualSetupModeCounter movementStartTime
       movementTimeout movementL1 movementProgress wifiManagerSetupRunning
       wifiManagerSetupStart out
       set_blindPos set_manualMode set_manualLocked set_manualLockActivatorTime
       set_manualLockActivatorSwitch set_manualSetupModeCounter
       set_movementStartTime set_movementTimeout set_movementL1
       set_movementProgress set_wifiManagerSetupRunning
       set_wifiManagerSetupStart emit].

Ltac munfold := unfold bind, ask, get, millis, modify, ret in *.

Lemma hoare_modify_inv (P : State -> Prop) (f : State -> State) :
  (forall s, P s -> P (f s)) -> hoare P (modify f) P.
Proof. apply hoare_modify. Qed.

Create HintDb dorfl.

(** Preservation of an invariant through a computation, one construct at a
    time; [tac] settles the field updates, the hint database the calls. *)
Ltac inv_step tac :=
  first
    [ apply hoare_ret | apply hoare_get | apply hoare_ask | apply hoare_millis
    | apply hoare_when
    | match goal with
      | |- hoare _ (if ?b then _ else _) _ => destruct b
      | |- hoare _ (let _ := _ in _) _ => cbv zeta
      end
    | solve [eauto with dorfl]
    | eapply hoare_bind; [ | intro ]
    | apply hoare_modify_inv; tac ].

Ltac inv_auto tac := repeat (inv_step tac).

(** * Position model: the clamp invariant *)

Ltac pos_field :=
  let s := fresh "s" in let H := fresh "H" in
  intros s H; destruct H; split;
  [ assumption
  | first [ assumption | cbn [out emit]; constructor; [exact I | assumption] ] ].

Section Position.

Variable cfg : Config.
Hypothesis cfg_ok : wf_config cfg.

Lemma clamp_range (p : Z) :
  - 2 ^ 31 <= p < 2 ^ 31 ->
  let q := if p <? 0 then 0
           else if blindMaxPos cfg <? to_ulong p then to_long (blindMaxPos cfg)
           else p in
  0 <= q <= blindMaxPos cfg /\ q <= LONG_MAX.
Proof.
  intros Hp. cbv zeta. unfold wf_config, LONG_MAX in *.
  destruct (Z.ltb_spec p 0); [lia|].
  rewrite (to_ulong_small p) by lia.
  destruct (Z.ltb_spec (blindMaxPos cfg) p).
  - rewrite to_long_small; lia.
  - lia.
Qed.

Lemma pos_mqttCommunicate : hoare (pos_inv cfg) mqttCommunicate (pos_inv cfg).
Proof.
  intros e n s [Hp Ho]. unfold mqttCommunicate, bind, ask, when, get, modify, ret.
  destruct (mqttUp e); cbn; split; try assumption.
  constructor; [ | assumption].
  exists (blindPos s), (manualMode s). split; [apply Hp | reflexivity].
Qed.
Hint Resolve pos_mqttCommunicate : dorfl.

Lemma pos_updateBlindPos :
  hoare (fun s => Forall (pub_ok cfg) (out s)) (updateBlindPos cfg) (pos_inv cfg).
Proof.
  unfold updateBlindPos.
  eapply hoare_bind; [apply hoare_millis | intro now].
  eapply hoare_bind; [apply hoare_get | intro s0]. cbv zeta.
  eapply hoare_bind; [ | intros _; apply pos_mqttCommunicate].
  apply hoare_modify. intros s Ho. split; [ | exact Ho].
  cbn [blindPos set_blindPos].
  destruct (movementL1 s0), (blindInvertZero cfg);
    apply clamp_range; apply to_long_range.
Qed.

Lemma pos_updateBlindPos' : hoare (pos_inv cfg) (updateBlindPos cfg) (pos_inv cfg).
Proof.
  intros e n s [_ H]. apply pos_updateBlindPos. exact H.
Qed.
Hint Resolve pos_updateBlindPos' : dorfl.

Ltac pos_auto := inv_auto pos_field.

Lemma pos_stopL1 : hoare (pos_inv cfg) (stopL1 cfg) (pos_inv cfg).
Proof. unfold stopL1, digitalWrite. pos_auto. Qed.
Hint Resolve pos_stopL1 : dorfl.

Lemma pos_stopL2 : hoare (pos_inv cfg) (stopL2 cfg) (pos_inv cfg).
Proof. unfold stopL2, digitalWrite. pos_auto. Qed.
Hint Resolve pos_stopL2 : dorfl.

Lemma pos_startL1 t : hoare (pos_inv cfg) (startL1 cfg t) (pos_inv cfg).
Proof. unfold startL1, digitalWrite. pos_auto. Qed.
Hint Resolve pos_startL1 : dorfl.

Lemma pos_startL2 t : hoare (pos_inv cfg) (startL2 cfg t) (pos_inv cfg).
Proof. unfold startL2, digitalWrite. pos_auto. Qed.
Hint Resolve pos_startL2 : dorfl.

Lemma pos_movementLoop : hoare (pos_inv cfg) (movementLoop cfg) (pos_inv cfg).
Proof. unfold movementLoop. pos_auto. Qed.

Lemma pos_startWifiManager b : hoare (pos_inv cfg) (startWifiManager b) (pos_inv cfg).
Proof. unfold startWifiManager, wifiManagerSetupStarted. destruct b; pos_auto. Qed.
Hint Resolve pos_startWifiManager : dorfl.

Lemma pos_gpioLoop : hoare (pos_inv cfg) (gpioLoop cfg) (pos_inv cfg).
Proof. unfold gpioLoop. pos_auto. Qed.

Lemma pos_autoMoveToPos p : hoare (pos_inv cfg) (autoMoveToPos cfg p) (pos_inv cfg).
Proof. unfold autoMoveToPos. pos_auto. Qed.
Hint Resolve pos_autoMoveToPos : dorfl.

Lemma pos_mqttCallback p : hoare (pos_inv cfg) (mqttCallback cfg p) (pos_inv cfg).
Proof. unfold mqttCallback. pos_auto. Qed.

Lemma pos_setup : hoare (pos_inv cfg) (setup cfg) (pos_inv cfg).
Proof. unfold setup. pos_auto. Qed.

Lemma pos_power_on : pos_inv cfg power_on.
Proof.
  unfold wf_config, LONG_MAX in *.
  split; cbn; [lia | constructor].
Qed.

Lemma pos_step s st : pos_inv cfg s -> pos_inv cfg (step cfg s st).
Proof.
  intros H.
  destruct st; cbn [step];
    (apply (hoare_exec (pos_inv cfg) (pos_inv cfg)); [ | exact H]);
    auto using pos_gpioLoop, pos_movementLoop, pos_mqttCallback with dorfl.
Qed.

Lemma pos_run e0 l : pos_inv cfg (run cfg e0 l).
Proof.
  unfold run.
  assert (H : pos_inv cfg (boot cfg e0))
    by (unfold boot; apply (hoare_exec (pos_inv cfg));
        [apply pos_setup | apply pos_power_on]).
  revert H. generalize (boot cfg e0) as s.
  induction l as [ | st l IH]; intros s H; cbn [fold_left].
  - exact H.
  - apply IH. apply pos_step. exact H.
Qed.

End Position.

(** C2, as the code has it. In every state of every run under the settings
    read at [setup] the position is within [0, maxPos]: it is 0 after boot,
    every update stores a clamped value, and every message handed to the
    broker shows a position of that range; and whatever the controller does
    in a state where this holds, it holds afterwards. *)
Theorem position_clamped (cfg : Config) (e0 : Env) (l : list Step) :
  wf_config cfg ->
  blindPos (boot cfg e0) = 0 /\
  0 <= blindPos (run cfg e0 l) <= blindMaxPos cfg /\
  Forall (pub_ok cfg) (out (run cfg e0 l)) /\
  (forall s st, pos_inv cfg s -> pos_inv cfg (step cfg s st)).
Proof.
  intros Hcfg. split.
  - unfold boot, exec, setup, stopL1, stopL2, startWifiManager,
      wifiManagerSetupStarted, digitalWrite, bind, ask, modify, get, when, ret.
    cbn. destruct (apCallback e0); reflexivity.
  - destruct (pos_run cfg Hcfg e0 l) as [[Hr _] Ho].
    split; [exact Hr | split; [exact Ho | ] ].
    intros s st. apply pos_step. exact Hcfg.
Qed.

Lemma position_clamped_witness :
  wf_config default_config /\
  0 <= blindPos (run default_config (quiet 0)
                   [Mqtt (quiet 100) "mva61"; Movement (quiet 62000)]) <= 60000.
Proof.
  assert (H : wf_config default_config) by (unfold wf_config; cbn; lia).
  split; [exact H | ].
  exact (proj1 (proj2 (position_clamped default_config (quiet 0)
                         [Mqtt (quiet 100) "mva61"; Movement (quiet 62000)] H))).
Defined.

(** C2 as stated fails once the portal saves a smaller maximum. The blind
    is driven to position 8000 (S2 asserted from 1000 to 9000, maximum
    60000); in the iteration at 10000 the portal saves a maximum of 5
    seconds. [saveParamsCallback] stores 5000 at once and leaves the restart
    to the end of the iteration: [mqttLoop] still runs, and when [loop]
    reaches [ESP.restart()] the position is 8000, above the maximum. *)
Lemma position_after_save_counterexample :
  let p := mkParams "broker.local" "1883" "kitchen" "moist" "password"
             "blinds/pos" "blinds/cmd" "5" "false" "false" "false" in
  let up t g m := mkWorld g m None t true None true (fun _ => t) true [] in
  let d := lifetime "Dorfl-1a2b3c" None (quiet 0)
             [ (up 1000 (press2 1000) (quiet 1000), quiet 0);
               (up 9000 (quiet 9000) (quiet 9000), quiet 0) ] in
  let w := mkWorld (quiet 10000) (quiet 10000) (Some (p, true)) 10000 true None
             true (fun _ => 10000) true [] in
  let d' := loop w d in
  blindPos (core d) = 8000 /\ blindMaxPos (blind (settings d)) = 60000 /\
  params_fit p = true /\ overrun d' = false /\ restart d' = true /\
  net d' = [EspRestart; Delay LOOP_DELAY_MS; ClientLoop] ++ net d /\
  blindMaxPos (blind (settings d')) = 5000 /\ blindPos (core d') = 8000 /\
  ~ (0 <= blindPos (core d') <= blindMaxPos (blind (settings d'))).
Proof.
  cbv zeta. repeat (split; [vm_compute; reflexivity | ]).
  intros [_ H]. revert H. vm_compute. intros H. apply H. reflexivity.
Qed.

(** * Relay driver: mutual exclusion *)

Lemma never_both_now (t : list Event) : never_both t = true -> both_on t = false.
Proof.
  destruct t as [ | ev t]; [reflexivity | ].
  cbn [never_both]. intros H. apply andb_true_iff in H.
  destruct H as [H _]. apply negb_true_iff in H. exact H.
Qed.

Lemma relays_quiet_event ev t : writes_no_pin ev = true -> relays (ev :: t) = relays t.
Proof. destruct ev; cbn; congruence. Qed.

Lemma relay_inv_quiet_event Q ev s :
  writes_no_pin ev = true -> relay_inv Q s -> relay_inv Q (emit ev s).
Proof.
  intros Hev [H1 H2].
  split; [ | cbn [out emit]; rewrite relays_quiet_event; assumption ].
  cbn [out emit never_both]. unfold both_on.
  rewrite relays_quiet_event by exact Hev.
  pose proof (never_both_now _ H1) as H3. unfold both_on in H3.
  rewrite H3, H1. reflexivity.
Qed.

Ltac relay_field :=
  let s := fresh "s" in let H := fresh "H" in
  intros s H; first [exact H | destruct H; split; cbn; assumption].

Ltac relay_auto := inv_auto relay_field.

Section Relays.

Variable cfg : Config.

Lemma relay_mqttCommunicate Q : hoare (relay_inv Q) mqttCommunicate (relay_inv Q).
Proof.
  intros e n s H. unfold mqttCommunicate, bind, ask, when, get, modify, ret.
  destruct (mqttUp e); cbn [fst snd]; [ | exact H].
  apply relay_inv_quiet_event; [reflexivity | exact H].
Qed.
Hint Resolve relay_mqttCommunicate : dorfl.

Lemma relay_updateBlindPos Q : hoare (relay_inv Q) (updateBlindPos cfg) (relay_inv Q).
Proof. unfold updateBlindPos. relay_auto. Qed.
Hint Resolve relay_updateBlindPos : dorfl.

Lemma relay_stopL1 Q :
  hoare (relay_inv Q) (stopL1 cfg) (relay_inv l1_low).
Proof.
  unfold stopL1, digitalWrite.
  eapply hoare_bind with (R := relay_inv l1_low); [ | intro; relay_auto ].
  apply hoare_modify. intros s [H1 _]. split; [ | reflexivity ].
  cbn [out emit never_both]. unfold both_on. cbn [relays fst snd].
  rewrite H1. reflexivity.
Qed.

Lemma relay_stopL2 Q :
  hoare (relay_inv Q) (stopL2 cfg) (relay_inv l2_low).
Proof.
  unfold stopL2, digitalWrite.
  eapply hoare_bind with (R := relay_inv l2_low); [ | intro; relay_auto ].
  apply hoare_modify. intros s [H1 _]. split; [ | reflexivity ].
  cbn [out emit never_both]. unfold both_on. cbn [relays fst snd].
  rewrite H1, andb_false_r. reflexivity.
Qed.

Lemma relay_stopL1_any : hoare (relay_inv any_levels) (stopL1 cfg) (relay_inv any_levels).
Proof.
  eapply hoare_weaken; [apply relay_stopL1 | ].
  intros s [H _]. split; [exact H | exact I].
Qed.

Lemma relay_stopL2_any : hoare (relay_inv any_levels) (stopL2 cfg) (relay_inv any_levels).
Proof.
  eapply hoare_weaken; [apply relay_stopL2 | ].
  intros s [H _]. split; [exact H | exact I].
Qed.
Hint Resolve relay_stopL1_any relay_stopL2_any : dorfl.

(** Activation: the opposite relay is written low before the requested one
    is written high. *)
Lemma relay_startL1 t : hoare (relay_inv any_levels) (startL1 cfg t) (relay_inv any_levels).
Proof.
  unfold startL1, digitalWrite.
  eapply hoare_bind; [apply relay_stopL2 | intro].
  eapply hoare_bind with (R := relay_inv any_levels); [ | intro; relay_auto ].
  apply hoare_modify. intros s [H1 H2]. split; [ | exact I ].
  unfold l2_low in H2.
  cbn [out emit never_both]. unfold both_on. cbn [relays fst snd].
  rewrite H1, H2. reflexivity.
Qed.

Lemma relay_startL2 t : hoare (relay_inv any_levels) (startL2 cfg t) (relay_inv any_levels).
Proof.
  unfold startL2, digitalWrite.
  eapply hoare_bind; [apply relay_stopL1 | intro].
  eapply hoare_bind with (R := relay_inv any_levels); [ | intro; relay_auto ].
  apply hoare_modify. intros s [H1 H2]. split; [ | exact I ].
  unfold l1_low in H2.
  cbn [out emit never_both]. unfold both_on. cbn [relays fst snd].
  rewrite H1, H2. reflexivity.
Qed.
Hint Resolve relay_startL1 relay_startL2 : dorfl.

Lemma relay_startWifiManager b :
  hoare (relay_inv any_levels) (startWifiManager b) (relay_inv any_levels).
Proof.
  unfold startWifiManager, wifiManagerSetupStarted.
  inv_auto ltac:(first [ relay_field
                       | intros s H; apply relay_inv_quiet_event;
                         [destruct b; reflexivity | exact H] ]).
Qed.
Hint Resolve relay_startWifiManager : dorfl.

Lemma relay_movementLoop :
  hoare (relay_inv any_levels) (movementLoop cfg) (relay_inv any_levels).
Proof. unfold movementLoop. relay_auto. Qed.

Lemma relay_gpioLoop :
  hoare (relay_inv any_levels) (gpioLoop cfg) (relay_inv any_levels).
Proof. unfold gpioLoop. relay_auto. Qed.

Lemma relay_autoMoveToPos p :
  hoare (relay_inv any_levels) (autoMoveToPos cfg p) (relay_inv any_levels).
Proof. unfold autoMoveToPos. relay_auto. Qed.
Hint Resolve relay_autoMoveToPos : dorfl.

Lemma relay_mqttCallback p :
  hoare (relay_inv any_levels) (mqttCallback cfg p) (relay_inv any_levels).
Proof. unfold mqttCallback. relay_auto. Qed.

Lemma relay_setup : hoare (relay_inv any_levels) (setup cfg) (relay_inv any_levels).
Proof. unfold setup. relay_auto. Qed.

Lemma relay_step s st : relay_inv any_levels s -> relay_inv any_levels (step cfg s st).
Proof.
  intros H.
  destruct st; cbn [step];
    (apply (hoare_exec (relay_inv any_levels) (relay_inv any_levels)); [ | exact H]);
    auto using relay_gpioLoop, relay_movementLoop, relay_mqttCallback with dorfl.
Qed.

Lemma relay_run e0 l : relay_inv any_levels (run cfg e0 l).
Proof.
  unfold run.
  assert (H : relay_inv any_levels (boot cfg e0)).
  { unfold boot. apply (hoare_exec (relay_inv any_levels)); [apply relay_setup | ].
    split; [reflexivity | exact I]. }
  revert H. generalize (boot cfg e0) as s.
  induction l as [ | st l IH]; intros s H; cbn [fold_left].
  - exact H.
  - apply IH. apply relay_step. exact H.
Qed.

End Relays.

Lemma startL1_levels cfg t e s :
  relays (out (exec (startL1 cfg t) e s)) = (true, false).
Proof.
  unfold exec, startL1, stopL2, updateBlindPos, mqttCommunicate, digitalWrite,
    bind, ask, modify, get, millis, when, ret.
  cbn. destruct (movementProgress s && negb (movementL1 s)); cbn;
    [destruct (mqttUp e) | ]; reflexivity.
Qed.

Lemma startL2_levels cfg t e s :
  relays (out (exec (startL2 cfg t) e s)) = (false, true).
Proof.
  unfold exec, startL2, stopL1, updateBlindPos, mqttCommunicate, digitalWrite,
    bind, ask, modify, get, millis, when, ret.
  cbn. destruct (movementProgress s && movementL1 s); cbn;
    [destruct (mqttUp e) | ]; reflexivity.
Qed.

(** C1. Whatever the controller is made to do after boot (switch ticks,
    supervisor ticks, remote commands, direct activations and deactivations
    with any time-out), no instant of the history of pin writes has both
    relays high; and an activation leaves exactly the requested relay high,
    the opposite one having been written low before. *)
Theorem relays_never_both_on (cfg : Config) (e0 : Env) (l : list Step) :
  never_both (out (run cfg e0 l)) = true /\
  (forall t e s, relays (out (exec (startL1 cfg t) e s)) = (true, false)) /\
  (forall t e s, relays (out (exec (startL2 cfg t) e s)) = (false, true)).
Proof.
  split; [ | split].
  - apply (relay_run cfg e0 l).
  - apply startL1_levels.
  - apply startL2_levels.
Qed.

(** * Relay driver: stopping an idle direction *)

(** C9. Deactivating a direction that is not the one being driven writes
    that relay low and changes nothing else: movement state and position are
    as before and nothing is published. The direction is still not the one
    being driven afterwards, so deactivating it again is again a no-op. *)
Theorem stop_idle_direction (cfg : Config) (p : Pin) (e : Env) (s : State) :
  active_direction s <> Some p ->
  movement_state (exec (deactivate cfg p) e s) = movement_state s /\
  blindPos (exec (deactivate cfg p) e s) = blindPos s /\
  out (exec (deactivate cfg p) e s) = DigitalWrite p false :: out s /\
  active_direction (exec (deactivate cfg p) e s) <> Some p.
Proof.
  intros H. unfold active_direction in *.
  unfold exec, deactivate, stopL1, stopL2, digitalWrite, when. munfold.
  destruct (movementProgress s) eqn:Hp, (movementL1 s) eqn:HL; destruct p;
    repeat progress (mrun; rewrite ?Hp, ?HL; cbn [andb negb]);
    try (exfalso; apply H; reflexivity);
    unfold movement_state; mrun; rewrite ?Hp, ?HL;
    repeat split; first [assumption | discriminate].
Qed.

Lemma stop_idle_direction_witness :
  active_direction (boot default_config (quiet 0)) <> Some RELAY_L1 /\
  blindPos (exec (deactivate default_config RELAY_L1) (quiet 5)
              (boot default_config (quiet 0))) = 0.
Proof.
  assert (H : active_direction (boot default_config (quiet 0)) <> Some RELAY_L1)
    by (vm_compute; discriminate).
  split; [exact H | ].
  exact (proj1 (proj2 (stop_idle_direction default_config RELAY_L1 (quiet 5)
                         (boot default_config (quiet 0)) H))).
Defined.

(** * Command interpreter *)

Lemma move_not_setup (cmd : string) :
  startsWith cmd CMD_MOVE_ABS || startsWith cmd CMD_MOVE_REL = true ->
  startsWith cmd CMD_SETUP = false.
Proof.
  unfold startsWith, CMD_MOVE_ABS, CMD_MOVE_REL, CMD_SETUP.
  destruct cmd as [ | c r]; cbn [prefix]; [discriminate | ].
  destruct (ascii_dec "m" c) as [Hm | Hm].
  - subst c. intros _. destruct (ascii_dec "s" "m"); [discriminate | reflexivity].
  - discriminate.
Qed.

(** C3. While manual mode is on, a move command ([mva] or [mvr], with any
    number) leaves the whole state as it is: movement state and position are
    unchanged, no relay is written and nothing is published. *)
Theorem override_blocks_remote (cfg : Config) (e : Env) (payload : string) (s : State) :
  manualMode s = true ->
  is_move_command payload = true ->
  exec (mqttCallback cfg payload) e s = s.
Proof.
  intros Hm Hc. unfold is_move_command in Hc.
  unfold exec, mqttCallback. cbv zeta.
  rewrite (move_not_setup _ Hc).
  unfold autoMoveToPos, bind, get, when, ret.
  destruct (startsWith (payloadCopy payload) CMD_MOVE_ABS);
    [ | destruct (startsWith (payloadCopy payload) CMD_MOVE_REL); [ | discriminate ] ];
    cbn [fst snd]; rewrite Hm, andb_false_r; cbn; rewrite ?Hm; reflexivity.
Qed.

Lemma override_blocks_remote_witness :
  let s := run default_config (quiet 0) [Gpio (press1 1000)] in
  manualMode s = true /\
  is_move_command "mva30" = true /\
  exec (mqttCallback default_config "mva30") (quiet 1100) s = s.
Proof.
  cbv zeta.
  assert (H1 : manualMode (run default_config (quiet 0) [Gpio (press1 1000)]) = true)
    by reflexivity.
  assert (H2 : is_move_command "mva30" = true) by reflexivity.
  split; [exact H1 | split; [exact H2 | ] ].
  exact (override_blocks_remote default_config (quiet 1100) "mva30" _ H1 H2).
Defined.

(** * Manual switch arbiter *)

Ltac view_field :=
  let s := fresh "s" in let H := fresh "H" in
  intros s H; rewrite <- H; reflexivity.

Ltac view_auto := inv_auto view_field.

Lemma call_view {A} (m : M A) e n s a n' s' :
  keeps_view m -> m e (n, s) = (a, (n', s')) -> gesture_view s' = gesture_view s.
Proof.
  intros H E. specialize (H (gesture_view s) e n s eq_refl).
  rewrite E in H. exact H.
Qed.

(** What a portal request does to the arbiter's view. *)
Lemma call_startWifiManager e n s a n' s' :
  startWifiManager true e (n, s) = (a, (n', s')) ->
  manualMode s' = manualMode s /\ manualLocked s' = manualLocked s /\
  manualLockActivatorTime s' = manualLockActivatorTime s /\
  manualLockActivatorSwitch s' = manualLockActivatorSwitch s /\
  manualSetupModeCounter s' = manualSetupModeCounter s /\
  wifiManagerSetupRunning s' = (wifiManagerSetupRunning s || apCallback e) /\
  portal_requests (out s') =
    ((if wifiManagerSetupRunning s then 0 else 1) + portal_requests (out s))%nat.
Proof.
  unfold startWifiManager, wifiManagerSetupStarted, when. munfold. mrun.
  destruct (wifiManagerSetupRunning s) eqn:Hr; mrun;
    [ | destruct (apCallback e); mrun ];
    intros E; injection E as _ _ <-; mrun; rewrite ?Hr; repeat split.
Qed.

Lemma after_button_fields e s :
  let s0 := snd (after_button e s) in
  manualMode s0 = manualMode s /\ manualLocked s0 = manualLocked s /\
  manualLockActivatorTime s0 = manualLockActivatorTime s /\
  manualLockActivatorSwitch s0 = manualLockActivatorSwitch s /\
  manualSetupModeCounter s0 = manualSetupModeCounter s /\
  movement_state s0 = movement_state s /\ blindPos s0 = blindPos s.
Proof.
  unfold after_button, startWifiManager, wifiManagerSetupStarted, when. munfold.
  destruct (buttonLow e); mrun; [ | repeat split].
  destruct (wifiManagerSetupRunning s); mrun; [repeat split | ].
  destruct (apCallback e); mrun; repeat split.
Qed.

Lemma after_button_idle e s :
  buttonLow e = false -> after_button e s = (0%nat, s).
Proof. intros H. unfold after_button. rewrite H. reflexivity. Qed.

Section Gestures.

Variable cfg : Config.

Lemma view_mqttCommunicate : keeps_view mqttCommunicate.
Proof. intro g. unfold mqttCommunicate. view_auto. Qed.
Hint Resolve view_mqttCommunicate : dorfl.

Lemma view_updateBlindPos : keeps_view (updateBlindPos cfg).
Proof. intro g. unfold updateBlindPos. view_auto. Qed.
Hint Resolve view_updateBlindPos : dorfl.

Lemma view_stopL1 : keeps_view (stopL1 cfg).
Proof. intro g. unfold stopL1, digitalWrite. view_auto. Qed.

Lemma view_stopL2 : keeps_view (stopL2 cfg).
Proof. intro g. unfold stopL2, digitalWrite. view_auto. Qed.
Hint Resolve view_stopL1 view_stopL2 : dorfl.

Lemma view_stops : keeps_view (stopL1 cfg ;; stopL2 cfg).
Proof. intro g. view_auto. Qed.

Lemma view_startL1 t : keeps_view (startL1 cfg t).
Proof. intro g. unfold startL1, digitalWrite. view_auto. Qed.

Lemma view_startL2 t : keeps_view (startL2 cfg t).
Proof. intro g. unfold startL2, digitalWrite. view_auto. Qed.

(** Symbolic execution of [gpioLoop]: the state reached is put under an
    abstract predicate, the branches are taken one by one, and the calls of
    the driver are replaced by what they preserve. *)
Ltac view_of E :=
  apply call_view in E;
  [ unfold gesture_view in E; injection E as ? ? ? ? ? ? ?
  | auto using view_mqttCommunicate, view_stops, view_stopL1, view_stopL2,
      view_startL1, view_startL2 ].

Ltac call_step :=
  match goal with
  | |- context [startWifiManager true ?e (?n, ?s)] =>
      let E := fresh "E" in
      destruct (startWifiManager true e (n, s)) as [? [? ?]] eqn:E;
      apply call_startWifiManager in E;
      destruct E as (? & ? & ? & ? & ? & ? & ?)
  | |- context [mqttCommunicate ?e (?n, ?s)] =>
      let E := fresh "E" in
      destruct (mqttCommunicate e (n, s)) as [? [? ?]] eqn:E; view_of E
  | |- context [stopL1 cfg ?e (?n, ?s)] =>
      let E := fresh "E" in
      destruct (stopL1 cfg e (n, s)) as [? [? ?]] eqn:E; view_of E
  | |- context [stopL2 cfg ?e (?n, ?s)] =>
      let E := fresh "E" in
      destruct (stopL2 cfg e (n, s)) as [? [? ?]] eqn:E; view_of E
  | |- context [startL1 cfg ?t ?e (?n, ?s)] =>
      let E := fresh "E" in
      destruct (startL1 cfg t e (n, s)) as [? [? ?]] eqn:E; view_of E
  | |- context [startL2 cfg ?t ?e (?n, ?s)] =>
      let E := fresh "E" in
      destruct (startL2 cfg t e (n, s)) as [? [? ?]] eqn:E; view_of E
  end; mgoal.

Ltac if_step :=
  match goal with
  | |- context [(if ?b then _ else _) ?e (?n, ?s)] =>
      let Hb := fresh "Hb" in destruct b eqn:Hb
  end; mgoal.

Ltac focus_state :=
  match goal with
  | |- context [exec ?m ?e ?s] =>
      pattern (exec m e s);
      match goal with
      | |- ?Q _ => let Qv := fresh "Q" in let HQ := fresh "HQ" in
                   remember Q as Qv eqn:HQ
      end
  end.

Ltac enter_gpio e s Hab :=
  pose proof (after_button_fields e s) as Hab; cbv zeta in Hab;
  unfold manualActivatorDelay in *;
  unfold after_button in *;
  focus_state;
  unfold exec, gpioLoop, when in *;
  munfold;
  let n0 := fresh "n" in let s0 := fresh "s" in let E0 := fresh "E" in
  destruct ((if buttonLow e then startWifiManager true else fun _ w => (tt, w))
              e (0%nat, s)) as [[] [n0 s0]] eqn:E0;
  mrun;
  destruct Hab as (? & ? & ? & ? & ? & ? & ?).

Ltac chain :=
  repeat match goal with
  | H : ?x = ?x |- _ => clear H
  | H : true = false |- _ => discriminate H
  | H : false = true |- _ => discriminate H
  | H : true = _ |- _ => symmetry in H
  | H : false = _ |- _ => symmetry in H
  | H : ?f ?a = _ |- _ => is_var a; rewrite H in *; clear H
  | H : portal_requests (out ?a) = _ |- _ => is_var a; rewrite H in *; clear H
  end.

Ltac unneg :=
  repeat match goal with
  | H : negb _ = true |- _ => apply negb_true_iff in H
  | H : negb _ = false |- _ => apply negb_false_iff in H
  end.

Ltac run_gpio e s Hd :=
  let Hab := fresh "Hab" in
  enter_gpio e s Hab;
  lazymatch goal with H : manualLockActivatorTime _ = _ |- _ => rewrite H end;
  apply Z.ltb_lt in Hd; rewrite Hd;
  lazymatch type of Hd with
  | (_ <? ?x) = true => set (d := x) in *; clearbody d
  end;
  repeat match goal with
         | H : s1Low e = _ |- _ => rewrite H
         | H : s2Low e = _ |- _ => rewrite H
         end;
  repeat first [if_step | call_step];
  lazymatch goal with HQ : ?Q = _ |- ?Q _ => subst Q end; mrun;
  unneg; chain.

(** A tick that finds switch S1 asserted (after the debounce delay). *)
Lemma press1_view e s :
  s1Low e = true ->
  MANUAL_LOCK_MIN_DELAY_MS < manualActivatorDelay e s ->
  let s' := exec (gpioLoop cfg) e s in
  let s0 := snd (after_button e s) in
  let c := if manualLockActivatorSwitch s =? SWITCH_S1
           then manualSetupModeCounter s else 0 in
  let lock := negb (blindDisableManualLock cfg) && negb (manualLocked s)
              && (manualActivatorDelay e s <? MANUAL_LOCK_MAX_DELAY_MS)
              && (c =? 1) in
  manualSetupModeCounter s' = c /\
  wifiManagerSetupRunning s' = wifiManagerSetupRunning s0 /\
  portal_requests (out s') = portal_requests (out s0) /\
  (if lock
   then manualLocked s' = true /\ manualMode s' = true /\
        manualLockActivatorSwitch s' = manualLockActivatorSwitch s /\
        manualLockActivatorTime s' = manualLockActivatorTime s
   else manualLocked s' = manualLocked s /\
        if manualLocked s
        then manualMode s' = manualMode s /\
             manualLockActivatorSwitch s' = manualLockActivatorSwitch s /\
             manualLockActivatorTime s' = manualLockActivatorTime s
        else manualMode s' = true /\
             manualLockActivatorSwitch s' = SWITCH_S1 /\
             manualLockActivatorTime s' =
               if manualMode s then manualLockActivatorTime s
               else to_ulong (millis_at e (S (fst (after_button e s))))).
Proof.
  intros H1 Hd. cbv zeta.
  run_gpio e s Hd.
  all: destruct (blindDisableManualLock cfg), (manualLocked s),
         (d <? MANUAL_LOCK_MAX_DELAY_MS),
         (manualLockActivatorSwitch s =? SWITCH_S1) eqn:Hsw;
       cbn in *; try discriminate.
  all: try (destruct (manualSetupModeCounter s =? 1); cbn in *; try discriminate).
  all: destruct (manualMode s); try discriminate.
  all: repeat split; congruence.
Qed.

(** A tick that finds switch S2 asserted and S1 not. *)
Lemma press2_view e s :
  s1Low e = false -> s2Low e = true ->
  MANUAL_LOCK_MIN_DELAY_MS < manualActivatorDelay e s ->
  let s' := exec (gpioLoop cfg) e s in
  let s0 := snd (after_button e s) in
  let c := if manualLockActivatorSwitch s =? SWITCH_S1
           then 0 else manualSetupModeCounter s in
  let lock := negb (blindDisableManualLock cfg) && negb (manualLocked s)
              && (manualActivatorDelay e s <? MANUAL_LOCK_MAX_DELAY_MS)
              && (c =? 1) in
  manualSetupModeCounter s' = c /\
  wifiManagerSetupRunning s' = wifiManagerSetupRunning s0 /\
  portal_requests (out s') = portal_requests (out s0) /\
  (if lock
   then manualLocked s' = true /\ manualMode s' = true /\
        manualLockActivatorSwitch s' = manualLockActivatorSwitch s /\
        manualLockActivatorTime s' = manualLockActivatorTime s
   else manualLocked s' = manualLocked s /\
        if manualLocked s
        then manualMode s' = manualMode s /\
             manualLockActivatorSwitch s' = manualLockActivatorSwitch s /\
             manualLockActivatorTime s' = manualLockActivatorTime s
        else manualMode s' = true /\
             manualLockActivatorSwitch s' = SWITCH_S2 /\
             manualLockActivatorTime s' =
               if manualMode s then manualLockActivatorTime s
               else to_ulong (millis_at e (S (fst (after_button e s))))).
Proof.
  intros H1 H2 Hd. cbv zeta.
  run_gpio e s Hd.
  all: destruct (blindDisableManualLock cfg), (manualLocked s),
         (d <? MANUAL_LOCK_MAX_DELAY_MS),
         (manualLockActivatorSwitch s =? SWITCH_S1) eqn:Hsw;
       cbn in *; try discriminate.
  all: try (destruct (manualSetupModeCounter s =? 1); cbn in *; try discriminate).
  all: destruct (manualMode s); try discriminate.
  all: repeat split; congruence.
Qed.

(** A tick that finds both switches released. *)
Lemma release_view e s :
  s1Low e = false -> s2Low e = false ->
  MANUAL_LOCK_MIN_DELAY_MS < manualActivatorDelay e s ->
  let s' := exec (gpioLoop cfg) e s in
  let s0 := snd (after_button e s) in
  let quick := manualActivatorDelay e s <? MANUAL_LOCK_MAX_DELAY_MS in
  let c := if manualMode s
           then if quick then to_long (manualSetupModeCounter s + 1) else 0
           else manualSetupModeCounter s in
  let fire := manualMode s && quick && (c =? MANUAL_SETUP_COUNTER)
              && negb (wifiManagerSetupRunning s0) in
  manualSetupModeCounter s' = c /\
  manualMode s' = false /\ manualLocked s' = false /\
  manualLockActivatorSwitch s' = manualLockActivatorSwitch s /\
  portal_requests (out s') =
    ((if fire then 1 else 0) + portal_requests (out s0))%nat /\
  wifiManagerSetupRunning s' =
    (if fire then apCallback e else wifiManagerSetupRunning s0) /\
  (manualMode s = true ->
   exists k, manualLockActivatorTime s' = to_ulong (millis_at e k)).
Proof.
  intros H1 H2 Hd. cbv zeta.
  run_gpio e s Hd.
  all: set (c1 := to_long (manualSetupModeCounter s + 1)) in *; clearbody c1.
  all: destruct (manualMode s), (d <? MANUAL_LOCK_MAX_DELAY_MS);
       cbn in *; try discriminate.
  all: try match goal with
       | H : (?x =? ?y) = _ |- _ => rewrite H in *
       end.
  all: try (destruct (wifiManagerSetupRunning s0); cbn in *).
  all: repeat split; try congruence.
  all: intros _; eexists; reflexivity.
Qed.

(** A tick within the debounce delay leaves the arbiter's state alone. *)
Lemma debounce_view e s :
  manualActivatorDelay e s <= MANUAL_LOCK_MIN_DELAY_MS ->
  exec (gpioLoop cfg) e s = snd (after_button e s).
Proof.
  intros Hd.
  pose proof (after_button_fields e s) as Hab. cbv zeta in Hab.
  unfold manualActivatorDelay in *. unfold after_button in *.
  unfold exec, gpioLoop, when in *. munfold.
  destruct ((if buttonLow e then startWifiManager true else fun _ w => (tt, w))
              e (0%nat, s)) as [[] [n0 s0]] eqn:E0.
  mrun. destruct Hab as (_ & _ & Ht & _).
  rewrite Ht.
  destruct (Z.ltb_spec MANUAL_LOCK_MIN_DELAY_MS
              (to_ulong (to_ulong (millis_at e n0) - manualLockActivatorTime s)));
    [lia | reflexivity].
Qed.












End Gestures.

Lemma pressed_switch_cases e sw :
  pressed_switch e = Some sw ->
  (s1Low e = true /\ sw = SWITCH_S1) \/
  (s1Low e = false /\ s2Low e = true /\ sw = SWITCH_S2).
Proof.
  unfold pressed_switch. destruct (s1Low e), (s2Low e); intros H;
    try discriminate H; injection H as <-; auto.
Qed.

Lemma pressed_switch_none e :
  pressed_switch e = None -> s1Low e = false /\ s2Low e = false.
Proof.
  unfold pressed_switch. destruct (s1Low e), (s2Low e); intros H;
    try discriminate H; auto.
Qed.



(** The stamp a release is measured against: a press that starts driving
    stamps its own time, a lock press leaves the stamp of the release before
    it. *)
Lemma press_stamp (cfg : Config) (e : Env) (s : State) (sw : Z) :
  pressed_switch e = Some sw ->
  MANUAL_LOCK_MIN_DELAY_MS < manualActivatorDelay e s ->
  manualMode s = false -> manualLocked s = false ->
  manualMode (exec (gpioLoop cfg) e s) = true /\
  ((manualLocked (exec (gpioLoop cfg) e s) = true /\
    manualLockActivatorTime (exec (gpioLoop cfg) e s) = manualLockActivatorTime s) \/
   (manualLocked (exec (gpioLoop cfg) e s) = false /\
    manualLockActivatorTime (exec (gpioLoop cfg) e s)
    = to_ulong (millis_at e (S (fst (after_button e s)))))).
Proof.
  intros Hp Hd Hm Hu.
  destruct (pressed_switch_cases e sw Hp) as [(H1 & ->) | (H1 & H2 & ->)];
    [ destruct (press1_view cfg e s H1 Hd) as (_ & _ & _ & Hl)
    | destruct (press2_view cfg e s H1 H2 Hd) as (_ & _ & _ & Hl) ];
    rewrite Hu, Hm in Hl;
    destruct (_ && _ && _ && _) in Hl; intuition.
Qed.

(** C8, as the code has it. On a release that ends an active manual
    override, the tap counter is incremented exactly when the release is
    processed less than [MANUAL_LOCK_MAX_DELAY_MS] after the stamp
    [manualLockActivatorTime], and is reset to 0 otherwise; the override ends
    and the stamp is set to a clock reading of this tick. The stamp is not
    always the prior release: the press that began the override restamped it
    with its own time if it started driving, and left it alone only if it
    engaged the lock. *)
Theorem release_counts_from_stamp (cfg : Config) :
  (forall e s,
     pressed_switch e = None ->
     MANUAL_LOCK_MIN_DELAY_MS < manualActivatorDelay e s ->
     manualMode s = true ->
     manualSetupModeCounter (exec (gpioLoop cfg) e s) =
       (if manualActivatorDelay e s <? MANUAL_LOCK_MAX_DELAY_MS
        then to_long (manualSetupModeCounter s + 1) else 0) /\
     manualMode (exec (gpioLoop cfg) e s) = false /\
     exists k, manualLockActivatorTime (exec (gpioLoop cfg) e s)
               = to_ulong (millis_at e k)) /\
  (forall e s sw,
     pressed_switch e = Some sw ->
     MANUAL_LOCK_MIN_DELAY_MS < manualActivatorDelay e s ->
     manualMode s = false -> manualLocked s = false ->
     manualMode (exec (gpioLoop cfg) e s) = true /\
     ((manualLocked (exec (gpioLoop cfg) e s) = true /\
       manualLockActivatorTime (exec (gpioLoop cfg) e s)
       = manualLockActivatorTime s) \/
      (manualLocked (exec (gpioLoop cfg) e s) = false /\
       manualLockActivatorTime (exec (gpioLoop cfg) e s)
       = to_ulong (millis_at e (S (fst (after_button e s))))))).
Proof.
  split.
  - intros e s Hp Hd Hm.
    destruct (pressed_switch_none e Hp) as [H1 H2].
    destruct (release_view cfg e s H1 H2 Hd) as (Ec & Em & _ & _ & _ & _ & Ht).
    rewrite Hm in Ec.
    split; [exact Ec | split; [exact Em | exact (Ht Hm)] ].
  - intros e s sw. apply press_stamp.
Qed.

Lemma release_counts_from_stamp_witness :
  let s0 := run default_config (quiet 0) [Gpio (quiet 500)] in
  let s := run default_config (quiet 0) [Gpio (quiet 500); Gpio (press1 1000)] in
  (pressed_switch (quiet 1210) = None /\
   MANUAL_LOCK_MIN_DELAY_MS < manualActivatorDelay (quiet 1210) s /\
   manualMode s = true /\
   manualSetupModeCounter (exec (gpioLoop default_config) (quiet 1210) s) = 1) /\
  (pressed_switch (press1 1000) = Some SWITCH_S1 /\
   MANUAL_LOCK_MIN_DELAY_MS < manualActivatorDelay (press1 1000) s0 /\
   manualMode s0 = false /\ manualLocked s0 = false /\
   manualMode (exec (gpioLoop default_config) (press1 1000) s0) = true).
Proof.
  cbv zeta.
  assert (H1 : pressed_switch (quiet 1210) = None) by reflexivity.
  assert (H2 : MANUAL_LOCK_MIN_DELAY_MS
               < manualActivatorDelay (quiet 1210)
                   (run default_config (quiet 0)
                      [Gpio (quiet 500); Gpio (press1 1000)]))
    by (vm_compute; reflexivity).
  assert (H3 : manualMode (run default_config (quiet 0)
                             [Gpio (quiet 500); Gpio (press1 1000)]) = true)
    by reflexivity.
  assert (H4 : pressed_switch (press1 1000) = Some SWITCH_S1) by reflexivity.
  assert (H5 : MANUAL_LOCK_MIN_DELAY_MS
               < manualActivatorDelay (press1 1000)
                   (run default_config (quiet 0) [Gpio (quiet 500)]))
    by (vm_compute; reflexivity).
  assert (H6 : manualMode (run default_config (quiet 0) [Gpio (quiet 500)]) = false)
    by reflexivity.
  assert (H7 : manualLocked (run default_config (quiet 0) [Gpio (quiet 500)]) = false)
    by reflexivity.
  split.
  - split; [exact H1 | split; [exact H2 | split; [exact H3 | ] ] ].
    exact (proj1 (proj1 (release_counts_from_stamp default_config)
                    (quiet 1210) _ H1 H2 H3)).
  - split; [exact H4 | split; [exact H5 | split; [exact H6 | split; [exact H7 | ] ] ] ].
    exact (proj1 (proj2 (release_counts_from_stamp default_config)
                    (press1 1000) _ SWITCH_S1 H4 H5 H6 H7)).
Defined.

(** C8 as stated fails. S1 is tapped (press seen at 1000, release at 1210:
    counter 1), and tapped again much later (press seen at 10000, release at
    10210). The second release ends an override and comes 9000 ms after the
    prior release, yet the counter goes from 1 to 2 instead of being reset,
    because the delay is taken from the press at 10000. (The ticks not
    listed fall within the debounce delay or find both switches released,
    and change nothing.) *)
Lemma release_rule_counterexample :
  let s1 := run default_config (quiet 0)
              [ Gpio (press1 1000); Movement (press1 1000);
                Gpio (press1 1100); Movement (press1 1100);
                Gpio (quiet 1210); Movement (quiet 1210);
                Gpio (quiet 5000); Movement (quiet 5000) ] in
  let s2 := fold_left (step default_config)
              [ Gpio (press1 10000); Movement (press1 10000);
                Gpio (press1 10100); Movement (press1 10100) ] s1 in
  let s3 := step default_config s2 (Gpio (quiet 10210)) in
  manualMode s1 = false /\ manualLockActivatorTime s1 = 1210 /\
  manualMode s2 = true /\ manualSetupModeCounter s2 = 1 /\
  manualMode s3 = false /\
  ~ (10210 - 1210 < MANUAL_LOCK_MAX_DELAY_MS) /\
  manualSetupModeCounter s3 = 2.
Proof.
  vm_compute. repeat split; intros H; discriminate H.
Qed.

(** A tick that finds both switches released, outside an override, changes
    nothing. *)
Lemma idle_tick_noop (cfg : Config) (e : Env) (s : State) :
  manualMode s = false -> manualLocked s = false ->
  quiet_tick None e s -> exec (gpioLoop cfg) e s = s.
Proof.
  intros Hm Hu [Hb Hq].
  destruct (Z.le_gt_cases (manualActivatorDelay e s) MANUAL_LOCK_MIN_DELAY_MS)
    as [Hd | Hd].
  - rewrite (debounce_view cfg e s Hd), (after_button_idle e s Hb). reflexivity.
  - destruct Hq as [Hq | Hq]; [lia | ].
    destruct (pressed_switch_none e Hq) as [H1 H2].
    apply Z.ltb_lt in Hd. unfold manualActivatorDelay in Hd.
    rewrite (after_button_idle e s Hb) in Hd. cbn [fst] in Hd.
    unfold exec, gpioLoop, when. munfold. rewrite Hb. mgoal.
    rewrite Hd, H1, H2. mgoal. rewrite Hm. mgoal.
    destruct s; cbn in *; subst; reflexivity.
Qed.

Lemma idle_ticks_noop (cfg : Config) (l : list Env) (s : State) :
  manualMode s = false -> manualLocked s = false ->
  quiet_ticks cfg None l s -> ticks cfg l s = s.
Proof.
  intros Hm Hu. unfold ticks.
  induction l as [ | e l IH]; cbn [fold_left quiet_ticks]; [reflexivity | ].
  intros [Hq Hl].
  rewrite (idle_tick_noop cfg e s Hm Hu Hq) in *. apply IH. exact Hl.
Qed.

(** A tick that finds the activating switch still asserted leaves counter,
    stamp, activator and requests as they are (it may engage the lock). *)
Lemma hold_tick (cfg : Config) (sw : Z) (e : Env) (s : State) :
  manualMode s = true -> manualLockActivatorSwitch s = sw ->
  quiet_tick (Some sw) e s ->
  manualMode (exec (gpioLoop cfg) e s) = true /\
  manualLockActivatorSwitch (exec (gpioLoop cfg) e s) = sw /\
  manualSetupModeCounter (exec (gpioLoop cfg) e s) = manualSetupModeCounter s /\
  manualLockActivatorTime (exec (gpioLoop cfg) e s) = manualLockActivatorTime s /\
  wifiManagerSetupRunning (exec (gpioLoop cfg) e s) = wifiManagerSetupRunning s /\
  portal_requests (out (exec (gpioLoop cfg) e s)) = portal_requests (out s).
Proof.
  intros Hm Ha [Hb Hq].
  destruct (Z.le_gt_cases (manualActivatorDelay e s) MANUAL_LOCK_MIN_DELAY_MS)
    as [Hd | Hd].
  - rewrite (debounce_view cfg e s Hd), (after_button_idle e s Hb).
    cbn [snd]. repeat split; assumption.
  - destruct Hq as [Hq | Hq]; [lia | ].
    destruct (pressed_switch_cases e sw Hq) as [(H1 & ->) | (H1 & H2 & ->)];
      [ destruct (press1_view cfg e s H1 Hd) as (Ec & Er & Eq & Hl)
      | destruct (press2_view cfg e s H1 H2 Hd) as (Ec & Er & Eq & Hl) ];
      rewrite (after_button_idle e s Hb) in Er, Eq; cbn [snd] in Er, Eq;
      rewrite Ec, Er, Eq; rewrite Hm, Ha in *;
      cbn [Z.eqb Pos.eqb SWITCH_S1 SWITCH_S2] in *;
      destruct (_ && _ && _ && _) in Hl;
      [ | destruct (manualLocked s) | | destruct (manualLocked s) ];
      intuition congruence.
Qed.

Lemma hold_ticks (cfg : Config) (sw : Z) (l : list Env) :
  forall s,
  manualMode s = true -> manualLockActivatorSwitch s = sw ->
  quiet_ticks cfg (Some sw) l s ->
  manualMode (ticks cfg l s) = true /\
  manualLockActivatorSwitch (ticks cfg l s) = sw /\
  manualSetupModeCounter (ticks cfg l s) = manualSetupModeCounter s /\
  manualLockActivatorTime (ticks cfg l s) = manualLockActivatorTime s /\
  wifiManagerSetupRunning (ticks cfg l s) = wifiManagerSetupRunning s /\
  portal_requests (out (ticks cfg l s)) = portal_requests (out s).
Proof.
  unfold ticks.
  induction l as [ | e l IH]; intros s Hm Ha; cbn [fold_left quiet_ticks].
  - intros _. repeat split; assumption.
  - intros [Hq Hl].
    destruct (hold_tick cfg sw e s Hm Ha Hq) as (E1 & E2 & E3 & E4 & E5 & E6).
    destruct (IH _ E1 E2 Hl) as (I1 & I2 & I3 & I4 & I5 & I6).
    rewrite I1, I2, I3, I4, I5, I6, E3, E4, E5, E6. repeat split.
Qed.

(** One quick tap on the recorded switch adds one to the counter, and asks
    for the portal exactly when the counter reaches
    [MANUAL_SETUP_COUNTER]. *)
Lemma quick_tap (cfg : Config) (sw : Z) (t : Tap) (s : State) :
  manualMode s = false -> manualLocked s = false ->
  0 <= manualSetupModeCounter s < LONG_MAX ->
  manualSetupModeCounter s = 0 \/ manualLockActivatorSwitch s = sw ->
  quick_taps cfg sw [t] s ->
  let fire := (manualSetupModeCounter s + 1 =? MANUAL_SETUP_COUNTER)
              && negb (wifiManagerSetupRunning s) in
  manualMode (tap cfg t s) = false /\
  manualLocked (tap cfg t s) = false /\
  manualLockActivatorSwitch (tap cfg t s) = sw /\
  manualSetupModeCounter (tap cfg t s) = manualSetupModeCounter s + 1 /\
  portal_requests (out (tap cfg t s)) =
    ((if fire then 1 else 0) + portal_requests (out s))%nat /\
  wifiManagerSetupRunning (tap cfg t s) =
    (if fire then apCallback (release t) else wifiManagerSetupRunning s).
Proof.
  intros Hm Hu Hc Hsw Hq. cbn [quick_taps] in Hq. cbv zeta in Hq.
  destruct Hq as (Hi & Hp & Hbp & Hdp & Hh & Hr & Hbr & Hdr & _). cbv zeta.
  unfold tap. rewrite (idle_ticks_noop cfg (idle t) s Hm Hu Hi) in *.
  set (p := press t) in *. set (r := release t) in *.
  set (s1 := exec (gpioLoop cfg) p s) in *.
  assert (Hs1 : manualSetupModeCounter s1 = manualSetupModeCounter s /\
                manualMode s1 = true /\ manualLockActivatorSwitch s1 = sw /\
                wifiManagerSetupRunning s1 = wifiManagerSetupRunning s /\
                portal_requests (out s1) = portal_requests (out s)).
  { subst s1.
    destruct (pressed_switch_cases p sw Hp) as [(H1 & ->) | (H1 & H2 & ->)];
      [ destruct (press1_view cfg p s H1 Hdp) as (Ec & Er & Eq & Hl)
      | destruct (press2_view cfg p s H1 H2 Hdp) as (Ec & Er & Eq & Hl) ];
      rewrite (after_button_idle p s Hbp) in Er, Eq; cbn [snd] in Er, Eq;
      rewrite Ec, Er, Eq; rewrite Hu, Hm in Hl;
      unfold SWITCH_S1, SWITCH_S2 in *;
      destruct (Z.eqb_spec (manualLockActivatorSwitch s) 4) as [E4 | N4];
      destruct (_ && _ && _ && _) eqn:Hlock in Hl;
      try (rewrite !andb_true_iff in Hlock;
           destruct Hlock as (_ & Hlock); apply Z.eqb_eq in Hlock);
      intuition (try congruence; try lia). }
  destruct Hs1 as (Ec1 & Em1 & Ea1 & Er1 & Eq1).
  destruct (hold_ticks cfg sw (hold t) s1 Em1 Ea1 Hh)
    as (Em2 & Ea2 & Ec2 & _ & Er2 & Eq2).
  set (s2 := ticks cfg (hold t) s1) in *.
  destruct (pressed_switch_none r Hr) as [H1 H2].
  destruct (release_view cfg r s2 H1 H2 (proj1 Hdr))
    as (Ec & Em & Eu & Ea & Eq & Er & _).
  rewrite (after_button_idle r s2 Hbr) in Eq, Er. cbn [snd] in Eq, Er.
  rewrite Em2 in Ec, Eq, Er.
  destruct Hdr as [_ Hdr]. apply Z.ltb_lt in Hdr. rewrite Hdr in Ec, Eq, Er.
  rewrite Ec2, Ec1 in Ec, Eq, Er. rewrite Er2, Er1 in Eq, Er.
  rewrite Eq2, Eq1 in Eq.
  unfold LONG_MAX in Hc.
  rewrite to_long_small in Ec, Eq, Er by lia.
  cbn [andb] in Eq, Er.
  rewrite Ec, Em, Eu, Ea, Eq, Er. rewrite Ea2. repeat split.
Qed.

Lemma quick_taps_count (cfg : Config) (sw : Z) (l : list Tap) :
  forall s,
  manualMode s = false -> manualLocked s = false ->
  0 <= manualSetupModeCounter s ->
  manualSetupModeCounter s + Z.of_nat (List.length l) <= LONG_MAX ->
  manualSetupModeCounter s = 0 \/ manualLockActivatorSwitch s = sw ->
  quick_taps cfg sw l s ->
  manualSetupModeCounter (taps cfg l s)
    = manualSetupModeCounter s + Z.of_nat (List.length l) /\
  manualMode (taps cfg l s) = false /\
  manualLocked (taps cfg l s) = false /\
  (manualSetupModeCounter (taps cfg l s) = 0 \/
   manualLockActivatorSwitch (taps cfg l s) = sw) /\
  portal_requests (out (taps cfg l s)) =
    Nat.add
      (if (manualSetupModeCounter s <? MANUAL_SETUP_COUNTER)
          && (MANUAL_SETUP_COUNTER
                <=? manualSetupModeCounter s + Z.of_nat (List.length l))
          && negb (wifiManagerSetupRunning s)
       then 1%nat else 0%nat)
      (portal_requests (out s)).
Proof.
  unfold MANUAL_SETUP_COUNTER.
  induction l as [ | t l IH]; intros s Hm Hu Hc0 Hc Hsw Hq.
  - cbn [taps List.length Z.of_nat]. rewrite Z.add_0_r.
    repeat split; try assumption.
    destruct (Z.ltb_spec (manualSetupModeCounter s) 5);
      destruct (Z.leb_spec 5 (manualSetupModeCounter s)); try lia; reflexivity.
  - cbn [taps]. cbn [List.length] in *. rewrite Nat2Z.inj_succ in *.
    assert (Hq1 : quick_taps cfg sw [t] s).
    { cbn [quick_taps] in *. cbv zeta in *. intuition. }
    assert (Hq2 : quick_taps cfg sw l (tap cfg t s)).
    { cbn [quick_taps] in Hq. cbv zeta in Hq. intuition. }
    destruct (quick_tap cfg sw t s Hm Hu ltac:(lia) Hsw Hq1)
      as (Em & Eu & Ea & Ec & Eq & Er).
    unfold MANUAL_SETUP_COUNTER in *.
    destruct (IH (tap cfg t s) Em Eu ltac:(lia) ltac:(lia) (or_intror Ea) Hq2)
      as (Ic & Im & Iu & Ia & Iq).
    rewrite Im, Iu, Iq, Eq, Er.
    split; [lia | split; [reflexivity | split; [reflexivity | split; [exact Ia | ] ] ] ].
    rewrite Ec.
    destruct (Z.eqb_spec (manualSetupModeCounter s + 1) 5) as [E5 | N5];
      destruct (wifiManagerSetupRunning s); cbn [andb negb];
      repeat match goal with
             | |- context [?a <? ?b] => destruct (Z.ltb_spec a b); try lia
             | |- context [?a <=? ?b] => destruct (Z.leb_spec a b); try lia
             end;
      cbn [andb negb]; rewrite ?andb_false_r; try reflexivity;
      destruct (apCallback (release t)); reflexivity.
Qed.

(** Up to the tick that sees its release, a quick tap makes no request. *)
Lemma quick_tap_held (cfg : Config) (sw : Z) (t : Tap) (s : State) :
  manualMode s = false -> manualLocked s = false ->
  manualSetupModeCounter s = 0 \/ manualLockActivatorSwitch s = sw ->
  quick_taps cfg sw [t] s ->
  portal_requests (out (before_release cfg t s)) = portal_requests (out s) /\
  tap cfg t s = exec (gpioLoop cfg) (release t) (before_release cfg t s).
Proof.
  intros Hm Hu Hsw Hq. cbn [quick_taps] in Hq. cbv zeta in Hq.
  destruct Hq as (Hi & Hp & Hbp & Hdp & Hh & Hr & Hbr & Hdr & _).
  split; [ | reflexivity].
  unfold before_release. rewrite (idle_ticks_noop cfg (idle t) s Hm Hu Hi) in *.
  set (p := press t) in *.
  set (s1 := exec (gpioLoop cfg) p s) in *.
  assert (Hs1 : manualMode s1 = true /\ manualLockActivatorSwitch s1 = sw /\
                portal_requests (out s1) = portal_requests (out s)).
  { subst s1.
    destruct (pressed_switch_cases p sw Hp) as [(H1 & ->) | (H1 & H2 & ->)];
      [ destruct (press1_view cfg p s H1 Hdp) as (Ec & Er & Eq & Hl)
      | destruct (press2_view cfg p s H1 H2 Hdp) as (Ec & Er & Eq & Hl) ];
      rewrite (after_button_idle p s Hbp) in Er, Eq; cbn [snd] in Er, Eq;
      rewrite Eq; rewrite Hu, Hm in Hl;
      unfold SWITCH_S1, SWITCH_S2 in *;
      destruct (Z.eqb_spec (manualLockActivatorSwitch s) 4) as [E4 | N4];
      destruct (_ && _ && _ && _) eqn:Hlock in Hl;
      intuition (try congruence; try lia). }
  destruct Hs1 as (Em1 & Ea1 & Eq1).
  destruct (hold_ticks cfg sw (hold t) s1 Em1 Ea1 Hh) as (_ & _ & _ & _ & _ & Eq2).
  rewrite Eq2. exact Eq1.
Qed.

Lemma taps_app (cfg : Config) (l1 l2 : list Tap) (s : State) :
  taps cfg (l1 ++ l2) s = taps cfg l2 (taps cfg l1 s).
Proof.
  revert s. induction l1 as [ | t l1 IH]; intros s; cbn [app taps];
    [reflexivity | apply IH].
Qed.

Lemma quick_taps_app (cfg : Config) (sw : Z) (l1 l2 : list Tap) (s : State) :
  quick_taps cfg sw (l1 ++ l2) s ->
  quick_taps cfg sw l1 s /\ quick_taps cfg sw l2 (taps cfg l1 s).
Proof.
  revert s. induction l1 as [ | t l1 IH]; intros s; cbn [app quick_taps taps].
  - intros H. split; [exact I | exact H].
  - cbv zeta. intros (H1 & H2 & H3 & H4 & H5 & H6 & H7 & H8 & H9).
    destruct (IH _ H9) as [Ha Hb].
    split; [ | exact Hb].
    exact (conj H1 (conj H2 (conj H3 (conj H4 (conj H5 (conj H6 (conj H7
             (conj H8 Ha)))))))).
Qed.

(** C4, as the code has it. Five quick taps on one switch, counted from
    zero while no setup is running. After each of the first four the counter
    is the number of taps made and no request has been made; during the
    fifth none is made up to the tick that sees its release; that tick makes
    the one request to open the portal. The tap counter is then 5: it is not
    reset by the request, further quick taps count on from 5 and make no
    further request. *)
Theorem five_quick_taps (cfg : Config) (sw : Z) (l l' : list Tap)
    (s : State) :
  manualMode s = false -> manualLocked s = false ->
  manualSetupModeCounter s = 0 -> wifiManagerSetupRunning s = false ->
  List.length l = 5%nat -> quick_taps cfg sw l s ->
  (forall k, (k < 5)%nat ->
   manualSetupModeCounter (taps cfg (firstn k l) s) = Z.of_nat k /\
   portal_requests (out (taps cfg (firstn k l) s)) = portal_requests (out s)) /\
  (forall t5, nth_error l 4 = Some t5 ->
   portal_requests (out (before_release cfg t5 (taps cfg (firstn 4 l) s)))
     = portal_requests (out s) /\
   taps cfg l s
     = exec (gpioLoop cfg) (release t5)
         (before_release cfg t5 (taps cfg (firstn 4 l) s))) /\
  manualSetupModeCounter (taps cfg l s) = MANUAL_SETUP_COUNTER /\
  portal_requests (out (taps cfg l s)) = S (portal_requests (out s)) /\
  (quick_taps cfg sw l' (taps cfg l s) ->
   Z.of_nat (List.length l') < LONG_MAX - MANUAL_SETUP_COUNTER ->
   manualSetupModeCounter (taps cfg l' (taps cfg l s))
     = MANUAL_SETUP_COUNTER + Z.of_nat (List.length l') /\
   portal_requests (out (taps cfg l' (taps cfg l s)))
     = S (portal_requests (out s))).
Proof.
  intros Hm Hu Hc Hr Hl Hq. unfold MANUAL_SETUP_COUNTER, LONG_MAX in *.
  assert (H0 : 0 <= manualSetupModeCounter s) by lia.
  assert (Hpre : forall k, (k < 5)%nat ->
            manualSetupModeCounter (taps cfg (firstn k l) s) = Z.of_nat k /\
            portal_requests (out (taps cfg (firstn k l) s))
              = portal_requests (out s) /\
            manualMode (taps cfg (firstn k l) s) = false /\
            manualLocked (taps cfg (firstn k l) s) = false /\
            (manualSetupModeCounter (taps cfg (firstn k l) s) = 0 \/
             manualLockActivatorSwitch (taps cfg (firstn k l) s) = sw) /\
            quick_taps cfg sw (skipn k l) (taps cfg (firstn k l) s)).
  { intros k Hk.
    pose proof Hq as Hq'. rewrite <- (firstn_skipn k l) in Hq'.
    destruct (quick_taps_app cfg sw _ _ s Hq') as [Hq1 Hq2].
    assert (Hlen : List.length (firstn k l) = k)
      by (rewrite length_firstn; lia).
    assert (H1 : manualSetupModeCounter s + Z.of_nat (List.length (firstn k l))
                 <= LONG_MAX) by (unfold LONG_MAX; lia).
    destruct (quick_taps_count cfg sw (firstn k l) s Hm Hu H0 H1 (or_introl Hc) Hq1)
      as (Ec & Em & Eu & Ea & Eq).
    unfold MANUAL_SETUP_COUNTER in Eq. rewrite Hc, Hlen, Hr in *.
    cbn [Z.ltb Z.compare andb negb] in Eq.
    destruct (Z.leb_spec 5 (0 + Z.of_nat k)) as [Hge | _]; [lia | ].
    cbn [andb Nat.add] in Eq.
    repeat split; assumption || lia. }
  assert (H1 : manualSetupModeCounter s + Z.of_nat (List.length l) <= LONG_MAX)
    by (unfold LONG_MAX; lia).
  destruct (quick_taps_count cfg sw l s Hm Hu H0 H1 (or_introl Hc) Hq)
    as (Ec & Em & Eu & Ea & Eq).
  unfold MANUAL_SETUP_COUNTER in Eq.
  rewrite Hc, Hl, Hr in *. cbn in Ec, Eq.
  split; [ | split; [ | split; [exact Ec | split; [exact Eq | ] ] ] ].
  - intros k Hk. destruct (Hpre k Hk) as (P1 & P2 & _). split; assumption.
  - intros t5 Ht5.
    destruct (Hpre 4%nat ltac:(lia)) as (_ & P2 & P3 & P4 & P5 & P6).
    assert (Hsk : skipn 4 l = [t5]).
    { destruct l as [ | t1 [ | t2 [ | t3 [ | t4 [ | t5' [ | t6 r] ] ] ] ] ];
        try discriminate Hl.
      cbn in Ht5. injection Ht5 as ->. reflexivity. }
    rewrite Hsk in P6.
    destruct (quick_tap_held cfg sw t5 _ P3 P4 P5 P6) as [Q1 Q2].
    split; [rewrite Q1; exact P2 | ].
    rewrite <- Q2. rewrite <- (firstn_skipn 4 l) at 1. rewrite Hsk.
    rewrite taps_app. reflexivity.
  - intros Hq' Hl'.
    assert (H2 : 0 <= manualSetupModeCounter (taps cfg l s)) by lia.
    assert (H3 : manualSetupModeCounter (taps cfg l s) + Z.of_nat (List.length l')
                 <= LONG_MAX) by (unfold LONG_MAX; lia).
    destruct (quick_taps_count cfg sw l' (taps cfg l s) Em Eu H2 H3 Ea Hq')
      as (Ec' & _ & _ & _ & Eq').
    unfold MANUAL_SETUP_COUNTER in Eq'.
    rewrite Ec in Ec', Eq'.
    cbn [Z.ltb Z.compare Pos.compare Pos.compare_cont andb] in Eq'.
    rewrite Ec', Eq', Eq. split; reflexivity.
Qed.

Lemma five_quick_taps_witness :
  let s := boot default_config (quiet 0) in
  let t5 := mkTap [quiet 2500; quiet 2700] (press1 2730) [press1 2800]
              (quiet 2940) in
  quick_taps default_config SWITCH_S1 five_taps_S1 s /\
  portal_requests (out (taps default_config (firstn 4 five_taps_S1) s)) = 0%nat /\
  portal_requests
    (out (before_release default_config t5
            (taps default_config (firstn 4 five_taps_S1) s))) = 0%nat /\
  manualSetupModeCounter (taps default_config five_taps_S1 s) = 5 /\
  portal_requests (out (taps default_config five_taps_S1 s)) = 1%nat.
Proof.
  cbv zeta.
  assert (Hq : quick_taps default_config SWITCH_S1 five_taps_S1
                 (boot default_config (quiet 0)))
    by (vm_compute; repeat split; try reflexivity; right; reflexivity).
  pose proof (five_quick_taps default_config SWITCH_S1 five_taps_S1 []
                (boot default_config (quiet 0))
                eq_refl eq_refl eq_refl eq_refl eq_refl Hq) as H.
  destruct H as (Hk & H5 & Hc & Hr & _).
  split; [exact Hq | ].
  split; [exact (proj2 (Hk 4%nat (le_n 5))) | ].
  split; [exact (proj1 (H5 _ eq_refl)) | ].
  split; [exact Hc | exact Hr].
Defined.

(** C4 as stated fails: after five quick taps on S1 (the ticks of
    [five_taps_S1], 250 ms from each release to the next press) one request
    has been made, and the tap counter is 5, not 0. *)
Lemma setup_gesture_counterexample :
  let s := run default_config (quiet 0)
             [ Gpio (quiet 500);
               Gpio (press1 1000); Gpio (press1 1100); Gpio (quiet 1210);
               Gpio (quiet 1300);
               Gpio (press1 1460); Gpio (press1 1500); Gpio (quiet 1560);
               Gpio (press1 1810); Gpio (quiet 2020);
               Gpio (press1 2270); Gpio (quiet 2480);
               Gpio (quiet 2500); Gpio (quiet 2700);
               Gpio (press1 2730); Gpio (press1 2800); Gpio (quiet 2940) ] in
  portal_requests (out s) = 1%nat /\
  manualSetupModeCounter s = 5 /\
  manualSetupModeCounter s <> 0.
Proof.
  vm_compute. repeat split. intros H; discriminate H.
Qed.

Lemma after_button_relays e s :
  relays (out (snd (after_button e s))) = relays (out s).
Proof.
  unfold after_button, startWifiManager, wifiManagerSetupStarted, when. munfold.
  destruct (buttonLow e); mrun; [ | reflexivity].
  destruct (wifiManagerSetupRunning s); mrun; [reflexivity | ].
  destruct (apCallback e); mrun; reflexivity.
Qed.

(** The lock branch of a press. With the lock enabled, the switch released,
    the tap counter at 1, a press of the recorded switch seen more than 200
    and less than 500 ms after the stamp sets the locked and manual-mode
    flags and, when the link is up, publishes the position with a dot. The
    tick writes no relay pin: the relay levels, the movement state and the
    position are what they were. *)
Lemma lock_gesture (cfg : Config) (e : Env) (s : State) (sw : Z) :
  blindDisableManualLock cfg = false ->
  manualMode s = false -> manualLocked s = false ->
  manualSetupModeCounter s = 1 ->
  pressed_switch e = Some sw -> manualLockActivatorSwitch s = sw ->
  MANUAL_LOCK_MIN_DELAY_MS < manualActivatorDelay e s < MANUAL_LOCK_MAX_DELAY_MS ->
  manualLocked (exec (gpioLoop cfg) e s) = true /\
  manualMode (exec (gpioLoop cfg) e s) = true /\
  out (exec (gpioLoop cfg) e s) =
    (if mqttUp e
     then [MqttPublish (ltoa (Z.quot (blindPos s) 1000) ++ ".")]
     else []) ++ out (snd (after_button e s)) /\
  relays (out (exec (gpioLoop cfg) e s)) = relays (out s) /\
  movement_state (exec (gpioLoop cfg) e s) = movement_state s /\
  blindPos (exec (gpioLoop cfg) e s) = blindPos s.
Proof.
  intros Hdis Hm Hu Hc Hp Ha [Hd1 Hd2].
  pose proof (after_button_fields e s) as Hab. cbv zeta in Hab.
  pose proof (after_button_relays e s) as Hrel.
  apply Z.ltb_lt in Hd1. apply Z.ltb_lt in Hd2.
  unfold manualActivatorDelay, after_button in *.
  unfold exec, gpioLoop, mqttCommunicate, when in *. munfold.
  destruct ((if buttonLow e then startWifiManager true else fun _ w => (tt, w))
              e (0%nat, s)) as [[] [n0 s0]] eqn:E0.
  mrun. destruct Hab as (Em & El & Et & Es & Ek & Emv & Eb).
  rewrite Et, Hd1.
  destruct (pressed_switch_cases e sw Hp) as [(H1 & ->) | (H1 & H2 & ->)];
    rewrite ?H1, ?H2; mrun;
    rewrite Es, Ha; cbn [Z.eqb Pos.eqb SWITCH_S1 SWITCH_S2 negb]; mrun;
    rewrite El, Hu, Ek, Hc, Hdis, Hd2; cbn [Z.eqb Pos.eqb negb andb]; mrun;
    destruct (mqttUp e); mrun; cbn [negb relays app];
    unfold mqttMsg; rewrite ?Eb, ?Hrel; repeat split; assumption.
Qed.

Lemma lock_gesture_witness :
  let s := run default_config (quiet 0)
             [Gpio (press1 1000); Gpio (press1 1100); Gpio (quiet 1210)] in
  (blindDisableManualLock default_config = false /\
   manualMode s = false /\ manualLocked s = false /\
   manualSetupModeCounter s = 1 /\
   pressed_switch (press1 1460) = Some SWITCH_S1 /\
   manualLockActivatorSwitch s = SWITCH_S1 /\
   MANUAL_LOCK_MIN_DELAY_MS < manualActivatorDelay (press1 1460) s
     < MANUAL_LOCK_MAX_DELAY_MS) /\
  manualLocked (exec (gpioLoop default_config) (press1 1460) s) = true.
Proof.
  cbv zeta.
  assert (Hd : MANUAL_LOCK_MIN_DELAY_MS
               < manualActivatorDelay (press1 1460)
                   (run default_config (quiet 0)
                      [Gpio (press1 1000); Gpio (press1 1100); Gpio (quiet 1210)])
               < MANUAL_LOCK_MAX_DELAY_MS)
    by (vm_compute; split; reflexivity).
  split.
  - repeat split; try reflexivity; apply Hd.
  - exact (proj1 (lock_gesture default_config (press1 1460)
                    (run default_config (quiet 0)
                       [Gpio (press1 1000); Gpio (press1 1100); Gpio (quiet 1210)])
                    SWITCH_S1
                    eq_refl eq_refl eq_refl eq_refl eq_refl eq_refl Hd)).
Defined.

(** C6. The sketch at the input where it fails the claim: S1 is tapped
    (press seen at 1000, release at 1210, counter 1), a remote [mva30] then
    starts relay L2 at 1300, and S1 is pressed again at 1460, 250 ms after
    the release. The lock engages, and relay L2 stays energized under it:
    the press has not ended the remote movement, as the notes of the sketch
    say a pushed switch does and as a press that drives does. *)
Lemma lock_press_keeps_remote_relay :
  let s := run default_config (quiet 0)
             [ Gpio (press1 1000); Movement (press1 1000);
               Gpio (press1 1100); Movement (press1 1100);
               Gpio (quiet 1210); Movement (quiet 1210);
               Gpio (quiet 1300); Movement (quiet 1300);
               Mqtt (quiet 1300) "mva30";
               Gpio (quiet 1400); Movement (quiet 1400) ] in
  let s' := step default_config s (Gpio (press1 1460)) in
  blindDisableManualLock default_config = false /\
  manualMode s = false /\ manualLocked s = false /\
  manualSetupModeCounter s = 1 /\
  pressed_switch (press1 1460) = Some SWITCH_S1 /\
  manualLockActivatorSwitch s = SWITCH_S1 /\
  manualActivatorDelay (press1 1460) s = 250 /\
  manualLocked s' = true /\ manualMode s' = true /\
  relays (out s') = (false, true).
Proof.
  vm_compute. repeat split.
Qed.

(** * Command interpreter: numbers *)

Lemma digit_of_range c d : digit_of c = Some d -> 0 <= d <= 9.
Proof.
  unfold digit_of.
  destruct (Z.leb_spec 48 (Z.of_nat (nat_of_ascii c)));
    destruct (Z.leb_spec (Z.of_nat (nat_of_ascii c)) 57);
    cbn [andb]; intros E; try discriminate E.
  injection E as <-. lia.
Qed.

Lemma digits_bound (s : string) :
  forall acc, 0 <= acc ->
  0 <= digits acc s < (acc + 1) * 10 ^ Z.of_nat (String.length s).
Proof.
  induction s as [ | c s IH]; intros acc Hacc; cbn [digits String.length].
  - cbn. lia.
  - rewrite Nat2Z.inj_succ, Z.pow_succ_r by lia.
    assert (Hpow : 0 < 10 ^ Z.of_nat (String.length s))
      by (apply Z.pow_pos_nonneg; lia).
    destruct (digit_of c) as [d | ] eqn:Hd.
    + apply digit_of_range in Hd.
      specialize (IH (acc * 10 + d) ltac:(lia)). nia.
    + nia.
Qed.

Lemma skip_spaces_length (s : string) :
  (String.length (skip_spaces s) <= String.length s)%nat.
Proof.
  induction s as [ | c s IH]; cbn [skip_spaces String.length]; [lia | ].
  destruct (isspace c); cbn [String.length]; lia.
Qed.

(** The value of [atoi] has fewer digits than the string has characters. *)
Lemma atoi_bound (s : string) :
  - 10 ^ Z.of_nat (String.length s) < atoi s < 10 ^ Z.of_nat (String.length s).
Proof.
  unfold atoi. pose proof (skip_spaces_length s) as Hs.
  assert (Hmono : 10 ^ Z.of_nat (String.length (skip_spaces s))
                  <= 10 ^ Z.of_nat (String.length s))
    by (apply Z.pow_le_mono_r; lia).
  destruct (skip_spaces s) as [ | c s'] eqn:E.
  - assert (0 < 10 ^ Z.of_nat (String.length s)) by (apply Z.pow_pos_nonneg; lia).
    lia.
  - cbn [String.length] in Hmono. rewrite Nat2Z.inj_succ, Z.pow_succ_r in Hmono by lia.
    assert (Hp : 0 < 10 ^ Z.of_nat (String.length s'))
      by (apply Z.pow_pos_nonneg; lia).
    pose proof (digits_bound s' 0 ltac:(lia)) as H1.
    pose proof (digits_bound (String c s') 0 ltac:(lia)) as H2.
    cbn [String.length] in H2. rewrite Nat2Z.inj_succ, Z.pow_succ_r in H2 by lia.
    destruct (Ascii.eqb c "-"); [lia | ].
    destruct (Ascii.eqb c "+"); lia.
Qed.

Lemma c_str_length (s : string) : (String.length (c_str s) <= String.length s)%nat.
Proof.
  induction s as [ | c s IH]; cbn [c_str String.length]; [lia | ].
  destruct (Ascii.eqb c zero); cbn [String.length]; lia.
Qed.

Lemma substring_length_le (s : string) :
  forall n m, (String.length (substring n m s) <= m)%nat.
Proof.
  induction s as [ | c s IH]; intros n m.
  - destruct n, m; cbn; lia.
  - destruct n as [ | n]; destruct m as [ | m]; cbn [substring String.length].
    + lia.
    + specialize (IH 0%nat m). lia.
    + apply (IH n 0%nat).
    + apply (IH n (S m)).
Qed.

Lemma payloadCopy_length (payload : string) :
  (String.length (payloadCopy payload) <= 9)%nat.
Proof.
  unfold payloadCopy.
  pose proof (c_str_length (substring 0 (Nat.min (String.length payload) 9) payload)).
  pose proof (substring_length_le payload 0 (Nat.min (String.length payload) 9)).
  lia.
Qed.

(** The number of a command is read from at most six characters, so it is
    below a million in absolute value, and a thousand times it fits a
    [long]. *)
Lemma command_number_bound (payload : string) :
  - 10 ^ 6 < atoi (substring_from 3 (payloadCopy payload)) < 10 ^ 6.
Proof.
  pose proof (atoi_bound (substring_from 3 (payloadCopy payload))) as H.
  assert (Hl : (String.length (substring_from 3 (payloadCopy payload)) <= 6)%nat).
  { unfold substring_from.
    pose proof (substring_length_le (payloadCopy payload) 3
                  (String.length (payloadCopy payload) - 3)).
    pose proof (payloadCopy_length payload). lia. }
  assert (Hp : 10 ^ Z.of_nat (String.length (substring_from 3 (payloadCopy payload)))
               <= 10 ^ 6) by (apply Z.pow_le_mono_r; lia).
  lia.
Qed.

Lemma atoi_malformed (s : string) : malformed s = true -> atoi s = 0.
Proof.
  unfold malformed, atoi, no_digit.
  destruct (skip_spaces s) as [ | c s']; [reflexivity | ].
  destruct (Ascii.eqb c "-"); [ | destruct (Ascii.eqb c "+") ].
  - destruct s' as [ | c' s'']; cbn [digits]; [reflexivity | ].
    destruct (digit_of c'); [discriminate | reflexivity].
  - destruct s' as [ | c' s'']; cbn [digits]; [reflexivity | ].
    destruct (digit_of c'); [discriminate | reflexivity].
  - cbn [digits]. destruct (digit_of c); [discriminate | reflexivity].
Qed.

(** * Relay driver: the outputs mirror the movement state *)

Ltac coh_field :=
  let s := fresh "s" in let H := fresh "H" in
  intros s H; unfold coherent, levels_of in *; mrun; exact H.

Ltac coh_driver :=
  let e := fresh "e" in let n := fresh "n" in let s := fresh "s" in
  let H := fresh "H" in let Hp := fresh "Hp" in let HL := fresh "HL" in
  let Hup := fresh "Hup" in
  intros e n s H; unfold coherent, levels_of in *;
  unfold startL1, startL2, stopL1, stopL2, updateBlindPos, mqttCommunicate,
    digitalWrite, when;
  munfold;
  destruct (movementProgress s) eqn:Hp, (movementL1 s) eqn:HL, (mqttUp e) eqn:Hup;
  repeat progress (mrun; rewrite ?Hp, ?HL, ?Hup; cbn [andb negb relays]);
  rewrite ?H; reflexivity.

Section Coherence.

Variable cfg : Config.

Lemma coh_mqttCommunicate : hoare coherent mqttCommunicate coherent.
Proof.
  intros e n s H. unfold mqttCommunicate, when. munfold.
  destruct (mqttUp e); mrun; exact H.
Qed.
Hint Resolve coh_mqttCommunicate : dorfl.

Lemma coh_updateBlindPos : hoare coherent (updateBlindPos cfg) coherent.
Proof. unfold updateBlindPos. inv_auto coh_field. Qed.
Hint Resolve coh_updateBlindPos : dorfl.

Lemma coh_stopL1 : hoare coherent (stopL1 cfg) coherent.
Proof. coh_driver. Qed.

Lemma coh_stopL2 : hoare coherent (stopL2 cfg) coherent.
Proof. coh_driver. Qed.
Hint Resolve coh_stopL1 coh_stopL2 : dorfl.

(** Between the write that energizes a relay and the update of the movement
    state the two disagree; at the end of the activation they agree again. *)
Lemma coh_startL1 t : hoare coherent (startL1 cfg t) coherent.
Proof. coh_driver. Qed.

Lemma coh_startL2 t : hoare coherent (startL2 cfg t) coherent.
Proof. coh_driver. Qed.
Hint Resolve coh_startL1 coh_startL2 : dorfl.

Lemma coh_startWifiManager b : hoare coherent (startWifiManager b) coherent.
Proof.
  unfold startWifiManager, wifiManagerSetupStarted.
  destruct b; inv_auto coh_field.
Qed.
Hint Resolve coh_startWifiManager : dorfl.

Lemma coh_movementLoop : hoare coherent (movementLoop cfg) coherent.
Proof. unfold movementLoop. inv_auto coh_field. Qed.

Lemma coh_gpioLoop : hoare coherent (gpioLoop cfg) coherent.
Proof. unfold gpioLoop. inv_auto coh_field. Qed.

Lemma coh_autoMoveToPos p : hoare coherent (autoMoveToPos cfg p) coherent.
Proof. unfold autoMoveToPos. inv_auto coh_field. Qed.
Hint Resolve coh_autoMoveToPos : dorfl.

Lemma coh_mqttCallback p : hoare coherent (mqttCallback cfg p) coherent.
Proof. unfold mqttCallback. inv_auto coh_field. Qed.

Lemma coh_setup : hoare coherent (setup cfg) coherent.
Proof. unfold setup. inv_auto coh_field. Qed.

Lemma coh_step s st : coherent s -> coherent (step cfg s st).
Proof.
  intros H.
  destruct st; cbn [step];
    (apply (hoare_exec coherent coherent); [ | exact H]);
    auto using coh_gpioLoop, coh_movementLoop, coh_mqttCallback with dorfl.
Qed.

Lemma coh_run e0 l : coherent (run cfg e0 l).
Proof.
  unfold run.
  assert (H : coherent (boot cfg e0))
    by (unfold boot; apply (hoare_exec coherent coherent);
        [apply coh_setup | reflexivity]).
  revert H. generalize (boot cfg e0) as s.
  induction l as [ | st l IH]; intros s H; cbn [fold_left]; [exact H | ].
  apply IH. apply coh_step. exact H.
Qed.

End Coherence.

(** X1. In every state of every run the two relay outputs are what the
    movement state says: L1 is high exactly when a movement is in progress
    in direction L1, L2 exactly when one is in progress in the other
    direction. So whenever no movement is in progress both relays are
    low. *)
Theorem relays_mirror_movement (cfg : Config) (e0 : Env) (l : list Step) :
  let s := run cfg e0 l in
  relays (out s) =
    (movementProgress s && movementL1 s,
     movementProgress s && negb (movementL1 s)) /\
  (movementProgress s = false -> relays (out s) = (false, false)).
Proof.
  cbv zeta. pose proof (coh_run cfg e0 l) as H. unfold coherent, levels_of in H.
  split; [exact H | ]. intros Hp. rewrite H, Hp. reflexivity.
Qed.

(** * Command interpreter: moves *)

(** Cancelling the movement in progress before a remote move: afterwards
    nothing moves, the override is as before and the position is in
    range. *)
Lemma cancel_result (cfg : Config) e n s u n1 sa :
  wf_config cfg ->
  manualMode s = false ->
  0 <= blindPos s <= blindMaxPos cfg -> blindPos s <= LONG_MAX ->
  when (movementProgress s && negb (manualMode s)) (stopL1 cfg ;; stopL2 cfg)
    e (n, s) = (u, (n1, sa)) ->
  manualMode sa = false /\ movementProgress sa = false /\
  0 <= blindPos sa <= blindMaxPos cfg /\ blindPos sa <= LONG_MAX /\
  (movementProgress s = false -> sa = s).
Proof.
  intros Hcfg Hm Hr Hl. rewrite Hm. cbn [negb]. rewrite andb_true_r.
  destruct (movementProgress s) eqn:Hp; cbn [when].
  - unfold stopL1, stopL2, updateBlindPos, mqttCommunicate, digitalWrite, when.
    munfold. mrun. rewrite Hp. cbn [andb negb].
    pose proof (clamp_range cfg Hcfg) as Hclamp. cbv zeta in Hclamp.
    destruct (movementL1 s) eqn:HL1; destruct (mqttUp e) eqn:Hup;
      repeat progress (mrun; rewrite ?HL1, ?Hp, ?Hup; cbn [andb negb]);
      intros E; injection E as _ _ <-; mrun;
      (split; [exact Hm | split; [reflexivity | ] ]);
      match goal with
      | |- ?A /\ ?B /\ ?C =>
          cut (A /\ B);
          [ intros [HA HB];
            split; [exact HA | split; [exact HB | intros H; congruence] ]
          | ]
      end;
      destruct (blindInvertZero cfg); apply Hclamp; apply to_long_range.
  - unfold ret. intros E. injection E as _ _ <-.
    repeat split; try assumption; apply Hr.
Qed.

(** What [autoMoveToPos] does on an idle controller without override. *)
Lemma autoMove_result (cfg : Config) e n s newPos :
  manualMode s = false -> movementProgress s = false ->
  let delta := to_long (newPos - blindPos s) in
  let s' := snd (snd (autoMoveToPos cfg newPos e (n, s))) in
  (delta = 0 -> s' = s) /\
  (0 < delta ->
   movementProgress s' = true /\ movementL1 s' = blindInvertZero cfg /\
   movementTimeout s' = delta /\
   movementStartTime s' = to_ulong (millis_at e n) /\
   blindPos s' = blindPos s /\ manualMode s' = false /\
   out s' = DigitalWrite (if blindInvertZero cfg then RELAY_L1 else RELAY_L2) true
            :: DigitalWrite (if blindInvertZero cfg then RELAY_L2 else RELAY_L1) false
            :: out s) /\
  (- 2 ^ 31 < delta < 0 ->
   movementProgress s' = true /\ movementL1 s' = negb (blindInvertZero cfg) /\
   movementTimeout s' = - delta /\
   movementStartTime s' = to_ulong (millis_at e n) /\
   blindPos s' = blindPos s /\ manualMode s' = false /\
   out s' = DigitalWrite (if blindInvertZero cfg then RELAY_L2 else RELAY_L1) true
            :: DigitalWrite (if blindInvertZero cfg then RELAY_L1 else RELAY_L2) false
            :: out s).
Proof.
  intros Hm Hp. cbv zeta.
  pose proof (to_long_range (newPos - blindPos s)) as Hr.
  set (delta := to_long (newPos - blindPos s)) in *.
  unfold autoMoveToPos, startL1, startL2, stopL1, stopL2, digitalWrite, when.
  munfold. mrun. rewrite Hm. cbn [negb]. fold delta.
  destruct (blindInvertZero cfg);
    destruct (Z.ltb_spec 0 delta) as [Hpos | Hnp];
    [ | destruct (Z.ltb_spec delta 0) as [Hneg | Hz]
      | | destruct (Z.ltb_spec delta 0) as [Hneg | Hz] ];
    repeat progress (mrun; rewrite ?Hp; cbn [andb negb]);
    (split; [intros H0 | split; [intros H0 | intros H0] ]); try lia;
    try reflexivity;
    try (rewrite (to_ulong_small delta) by lia;
         destruct (Z.eqb_spec delta 0); [lia | ]; repeat split; assumption);
    try (rewrite (to_long_small (- delta)) by lia;
         rewrite (to_ulong_small (- delta)) by lia;
         destruct (Z.eqb_spec (- delta) 0); [lia | ]; repeat split; assumption).
Qed.

(** A time-out that ends a drive toward the maximum, after at least the
    remaining distance, leaves the position at [blindMaxPos], with both relays
    low. *)
Lemma timeout_reaches_max (cfg : Config) e2 s1 :
  wf_config cfg ->
  movementProgress s1 = true -> movementL1 s1 = blindInvertZero cfg ->
  0 <= blindPos s1 ->
  movementTimeout s1 <= to_ulong (to_ulong (millis_at e2 0%nat) - movementStartTime s1) ->
  blindMaxPos cfg
    <= blindPos s1 + to_ulong (to_ulong (millis_at e2 1%nat) - movementStartTime s1) ->
  blindPos s1 + to_ulong (to_ulong (millis_at e2 1%nat) - movementStartTime s1)
    <= LONG_MAX ->
  blindPos (exec (movementLoop cfg) e2 s1) = blindMaxPos cfg /\
  movementProgress (exec (movementLoop cfg) e2 s1) = false /\
  relays (out (exec (movementLoop cfg) e2 s1)) = (false, false).
Proof.
  intros Hcfg Hp HL Hpos Hto Hmax Hlong. unfold wf_config, LONG_MAX in *.
  apply Z.leb_le in Hto.
  set (moved := to_ulong (to_ulong (millis_at e2 1%nat) - movementStartTime s1)) in *.
  assert (Hclamp :
    (let p := to_long (blindPos s1 + moved) in
     if p <? 0 then 0
     else if blindMaxPos cfg <? to_ulong p then to_long (blindMaxPos cfg) else p)
    = blindMaxPos cfg).
  { cbv zeta. rewrite (to_long_small (blindPos s1 + moved)) by lia.
    destruct (Z.ltb_spec (blindPos s1 + moved) 0); [lia | ].
    rewrite to_ulong_small by lia.
    destruct (Z.ltb_spec (blindMaxPos cfg) (blindPos s1 + moved));
      [rewrite to_long_small | ]; lia. }
  cbv zeta in Hclamp.
  unfold exec, movementLoop, stopL1, stopL2, updateBlindPos, mqttCommunicate,
    digitalWrite, when.
  munfold. mrun. rewrite Hp. mrun. rewrite Hto.
  destruct (blindInvertZero cfg) eqn:Hinv; destruct (mqttUp e2) eqn:Hup;
    repeat progress (mrun; rewrite ?HL, ?Hp, ?Hup; cbn [andb negb]);
    fold moved; rewrite Hclamp; repeat split.
Qed.

(** A move command on a controller without override: the movement in
    progress is cancelled, then [autoMoveToPos] is run on the target. *)
Lemma move_abs_steps (cfg : Config) e payload s :
  wf_config cfg -> manualMode s = false ->
  0 <= blindPos s <= blindMaxPos cfg -> blindPos s <= LONG_MAX ->
  startsWith (payloadCopy payload) CMD_MOVE_ABS = true ->
  exists n1 sa,
    (manualMode sa = false /\ movementProgress sa = false /\
     0 <= blindPos sa <= blindMaxPos cfg /\ blindPos sa <= LONG_MAX /\
     (movementProgress s = false -> sa = s)) /\
    exec (mqttCallback cfg payload) e s =
    snd (snd (autoMoveToPos cfg
                (to_long (atoi (substring_from 3 (payloadCopy payload)) * 1000))
                e (n1, sa))).
Proof.
  intros Hcfg Hm Hr Hl Hmva.
  assert (Hset : startsWith (payloadCopy payload) CMD_SETUP = false)
    by (apply move_not_setup; rewrite Hmva; reflexivity).
  unfold exec, mqttCallback. cbv zeta. rewrite Hset, Hmva.
  unfold bind at 1 2. unfold get at 1. cbn [fst snd].
  destruct (when (movementProgress s && negb (manualMode s))
              (stopL1 cfg;; stopL2 cfg) e (0%nat, s)) as [u [n1 sa]] eqn:E.
  exists n1, sa. split; [ | reflexivity].
  exact (cancel_result cfg e 0%nat s u n1 sa Hcfg Hm Hr Hl E).
Qed.

(** The clock readings made by the cancellation: one, by [updateBlindPos],
    when a movement is in progress. *)
Lemma cancel_count (cfg : Config) e n s u n1 sa :
  manualMode s = false ->
  when (movementProgress s && negb (manualMode s)) (stopL1 cfg ;; stopL2 cfg)
    e (n, s) = (u, (n1, sa)) ->
  n1 = if movementProgress s then S n else n.
Proof.
  intros Hm. rewrite Hm. cbn [negb]. rewrite andb_true_r.
  destruct (movementProgress s) eqn:Hp; cbn [when].
  - unfold stopL1, stopL2, updateBlindPos, mqttCommunicate, digitalWrite, when.
    munfold. mrun. rewrite Hp. cbn [andb negb].
    destruct (movementL1 s) eqn:HL1; destruct (mqttUp e) eqn:Hup;
      repeat progress (mrun; rewrite ?HL1, ?Hp, ?Hup; cbn [andb negb]);
      intros E; injection E as _ <- _; reflexivity.
  - unfold ret. intros E. injection E as _ <- _. reflexivity.
Qed.

(** The first part of a move command, without override: afterwards nothing
    moves, both relays are low and the position is in range; one clock
    reading has been made if something moved. *)
Lemma stopped_first_result (cfg : Config) e s :
  wf_config cfg -> manualMode s = false ->
  0 <= blindPos s <= blindMaxPos cfg -> blindPos s <= LONG_MAX ->
  (manualMode (stopped_first cfg e s) = false /\
   movementProgress (stopped_first cfg e s) = false /\
   0 <= blindPos (stopped_first cfg e s) <= blindMaxPos cfg /\
   blindPos (stopped_first cfg e s) <= LONG_MAX /\
   (movementProgress s = false -> stopped_first cfg e s = s)) /\
  (coherent s -> relays (out (stopped_first cfg e s)) = (false, false)) /\
  when (movementProgress s && negb (manualMode s)) (stopL1 cfg ;; stopL2 cfg)
    e (0%nat, s)
  = (tt, ((if movementProgress s && negb (manualMode s) then 1 else 0)%nat,
          stopped_first cfg e s)).
Proof.
  intros Hcfg Hm Hr Hl.
  destruct (when (movementProgress s && negb (manualMode s))
              (stopL1 cfg ;; stopL2 cfg) e (0%nat, s)) as [u [n1 sa]] eqn:E.
  pose proof (cancel_result cfg e 0%nat s u n1 sa Hcfg Hm Hr Hl E) as Hres.
  pose proof (cancel_count cfg e 0%nat s u n1 sa Hm E) as Hn.
  assert (Hsa : stopped_first cfg e s = sa).
  { unfold stopped_first, exec. destruct (movementProgress s && negb (manualMode s));
      cbn [when] in E; [rewrite E; reflexivity | ].
    unfold ret in E. injection E as _ _ <-. reflexivity. }
  rewrite Hsa. split; [exact Hres | split].
  - intros Hcoh.
    assert (Hc : coherent sa).
    { rewrite <- Hsa. unfold stopped_first.
      destruct (movementProgress s && negb (manualMode s)); [ | exact Hcoh].
      apply (hoare_exec coherent coherent); [ | exact Hcoh].
      apply (hoare_bind coherent coherent coherent);
        [apply coh_stopL1 | intros _; apply coh_stopL2]. }
    unfold coherent, levels_of in Hc. rewrite Hc.
    destruct Hres as (_ & -> & _). reflexivity.
  - destruct u. rewrite Hn, Hm. cbn [negb]. rewrite andb_true_r.
    destruct (movementProgress s); reflexivity.
Qed.

(** A move command without override is [autoMoveToPos] run after that first
    part. *)
Lemma move_abs_parts (cfg : Config) e payload s :
  wf_config cfg -> manualMode s = false ->
  0 <= blindPos s <= blindMaxPos cfg -> blindPos s <= LONG_MAX ->
  startsWith (payloadCopy payload) CMD_MOVE_ABS = true ->
  exec (mqttCallback cfg payload) e s =
  snd (snd (autoMoveToPos cfg
              (to_long (atoi (substring_from 3 (payloadCopy payload)) * 1000))
              e ((if movementProgress s && negb (manualMode s) then 1 else 0)%nat,
                 stopped_first cfg e s))).
Proof.
  intros Hcfg Hm Hr Hl Hmva.
  assert (Hset : startsWith (payloadCopy payload) CMD_SETUP = false)
    by (apply move_not_setup; rewrite Hmva; reflexivity).
  destruct (stopped_first_result cfg e s Hcfg Hm Hr Hl) as (_ & _ & E).
  unfold exec, mqttCallback. cbv zeta. rewrite Hset, Hmva.
  unfold bind at 1 2. unfold get at 1. cbn [fst snd].
  rewrite E. reflexivity.
Qed.

Lemma move_rel_parts (cfg : Config) e payload s :
  wf_config cfg -> manualMode s = false ->
  0 <= blindPos s <= blindMaxPos cfg -> blindPos s <= LONG_MAX ->
  startsWith (payloadCopy payload) CMD_MOVE_REL = true ->
  exec (mqttCallback cfg payload) e s =
  snd (snd (autoMoveToPos cfg
              (to_long (blindPos (stopped_first cfg e s)
                        + to_long (atoi (substring_from 3 (payloadCopy payload))
                                   * 1000)))
              e ((if movementProgress s && negb (manualMode s) then 1 else 0)%nat,
                 stopped_first cfg e s))).
Proof.
  intros Hcfg Hm Hr Hl Hmvr.
  assert (Hset : startsWith (payloadCopy payload) CMD_SETUP = false)
    by (apply move_not_setup; rewrite Hmvr; apply orb_true_r).
  assert (Hmva : startsWith (payloadCopy payload) CMD_MOVE_ABS = false).
  { revert Hmvr. unfold startsWith, CMD_MOVE_ABS, CMD_MOVE_REL.
    destruct (payloadCopy payload) as [ | c1 [ | c2 [ | c3 r] ] ]; cbn [prefix];
      try discriminate;
      destruct (ascii_dec "m" c1); try discriminate;
      destruct (ascii_dec "v" c2); try discriminate.
    destruct (ascii_dec "r" c3) as [<- | ]; [ | discriminate].
    destruct (ascii_dec "a" "r"); [discriminate | reflexivity]. }
  destruct (stopped_first_result cfg e s Hcfg Hm Hr Hl) as (_ & _ & E).
  unfold exec, mqttCallback. cbv zeta. rewrite Hset, Hmva, Hmvr.
  unfold bind at 1 2. unfold get at 1. cbn [fst snd].
  rewrite E. reflexivity.
Qed.

(** Before its time-out, at the first clock reading of the tick, the
    supervisor leaves the movement as it is. *)
Lemma movementLoop_waits (cfg : Config) e s :
  movementProgress s = true ->
  elapsed_since (movementStartTime s) e 0 < movementTimeout s ->
  exec (movementLoop cfg) e s = s.
Proof.
  intros Hp Hlt. unfold elapsed_since in Hlt. apply Z.leb_gt in Hlt.
  unfold exec, movementLoop, when. munfold. mgoal. rewrite Hp. mgoal.
  rewrite Hlt. reflexivity.
Qed.

(** C7, as the code has it. With the override off and the position within
    [0, blindMaxPos], a move-absolute command whose target is
    [blindMaxPos + 1000] energizes the relay that drives toward the maximum,
    stamps the movement with the clock reading of the command and gives it
    the time-out [blindMaxPos - position + 1000] ([position] being the
    position after any movement in progress has been stopped). The
    supervisor leaves the relay energized at every tick that reads less than
    that time-out since the stamp. At the tick that reads at least the
    time-out it stops the relay, and the position stored is exactly
    [blindMaxPos] (the clock not having run backwards between the two
    readings of that tick, and the sum staying within a [long]). *)
Theorem overshoot_recovery (cfg : Config) (s : State) (e : Env)
    (payload : string) (e2 : Env) :
  wf_config cfg ->
  manualMode s = false ->
  0 <= blindPos s <= blindMaxPos cfg -> blindPos s <= LONG_MAX ->
  startsWith (payloadCopy payload) CMD_MOVE_ABS = true ->
  atoi (substring_from 3 (payloadCopy payload)) * 1000 = blindMaxPos cfg + 1000 ->
  let s1 := exec (mqttCallback cfg payload) e s in
  let t0 := command_clock e s in
  let duration := blindMaxPos cfg - blindPos s1 + 1000 in
  (movementProgress s1 = true /\
   movementL1 s1 = blindInvertZero cfg /\
   relays (out s1) = toward_max_levels cfg /\
   movementStartTime s1 = t0 /\
   movementTimeout s1 = duration /\
   blindPos s1 = blindPos (stopped_first cfg e s) /\
   (movementProgress s = false -> blindPos s1 = blindPos s)) /\
  (elapsed_since t0 e2 0 < duration -> exec (movementLoop cfg) e2 s1 = s1) /\
  (duration <= elapsed_since t0 e2 0 ->
   elapsed_since t0 e2 0 <= elapsed_since t0 e2 1 ->
   blindPos s1 + elapsed_since t0 e2 1 <= LONG_MAX ->
   blindPos (exec (movementLoop cfg) e2 s1) = blindMaxPos cfg /\
   movementProgress (exec (movementLoop cfg) e2 s1) = false /\
   relays (out (exec (movementLoop cfg) e2 s1)) = (false, false)).
Proof.
  intros Hcfg Hm Hr Hl Hmva Hnum. cbv zeta.
  pose proof (command_number_bound payload) as Hb.
  destruct (stopped_first_result cfg e s Hcfg Hm Hr Hl)
    as ((Hma & Hpa & Hra & Hla & Hsa) & _ & _).
  assert (Hfacts :
    let s1 := exec (mqttCallback cfg payload) e s in
    movementProgress s1 = true /\ movementL1 s1 = blindInvertZero cfg /\
    relays (out s1) = toward_max_levels cfg /\
    movementStartTime s1 = command_clock e s /\
    movementTimeout s1 = blindMaxPos cfg - blindPos s1 + 1000 /\
    blindPos s1 = blindPos (stopped_first cfg e s)).
  { cbv zeta. rewrite (move_abs_parts cfg e payload s Hcfg Hm Hr Hl Hmva).
    rewrite Hnum. unfold LONG_MAX in *.
    rewrite (to_long_small (blindMaxPos cfg + 1000)) by lia.
    destruct (autoMove_result cfg e
                (if movementProgress s && negb (manualMode s) then 1 else 0)%nat
                (stopped_first cfg e s) (blindMaxPos cfg + 1000) Hma Hpa)
      as (_ & Hgo & _).
    rewrite (to_long_small (blindMaxPos cfg + 1000
                            - blindPos (stopped_first cfg e s))) in Hgo by lia.
    destruct (Hgo ltac:(lia)) as (G1 & G2 & G3 & G4 & G5 & G6 & G7).
    rewrite G1, G2, G3, G4, G5, G7. unfold toward_max_levels, command_clock.
    repeat split; try lia.
    destruct (blindInvertZero cfg); reflexivity. }
  cbv zeta in Hfacts.
  destruct Hfacts as (F1 & F2 & F3 & F4 & F5 & F6).
  split; [ | split].
  - repeat split; try assumption.
    intros Hidle. rewrite F6, (Hsa Hidle). reflexivity.
  - intros Hlt. apply movementLoop_waits; [exact F1 | ].
    rewrite F4, F5. exact Hlt.
  - intros Hto Hmono Hlong. unfold elapsed_since in *.
    apply timeout_reaches_max; try assumption; rewrite ?F4, ?F5; lia.
Qed.

Lemma overshoot_recovery_witness :
  let s := run default_config (quiet 0) [] in
  let s1 := exec (mqttCallback default_config "mva61") (quiet 100) s in
  (wf_config default_config /\
   manualMode s = false /\
   0 <= blindPos s <= blindMaxPos default_config /\ blindPos s <= LONG_MAX /\
   startsWith (payloadCopy "mva61") CMD_MOVE_ABS = true /\
   atoi (substring_from 3 (payloadCopy "mva61")) * 1000
     = blindMaxPos default_config + 1000) /\
  movementStartTime s1 = 100 /\ movementTimeout s1 = 61000 /\
  exec (movementLoop default_config) (quiet 61099) s1 = s1 /\
  blindPos (exec (movementLoop default_config) (quiet 61100) s1) = 60000.
Proof.
  cbv zeta.
  assert (H1 : wf_config default_config) by (unfold wf_config; cbn; lia).
  assert (H2 : manualMode (run default_config (quiet 0) []) = false) by reflexivity.
  assert (H3 : 0 <= blindPos (run default_config (quiet 0) [])
               <= blindMaxPos default_config) by (cbn; lia).
  assert (H4 : blindPos (run default_config (quiet 0) []) <= LONG_MAX)
    by (vm_compute; discriminate).
  assert (H5 : startsWith (payloadCopy "mva61") CMD_MOVE_ABS = true) by reflexivity.
  assert (H6 : atoi (substring_from 3 (payloadCopy "mva61")) * 1000
               = blindMaxPos default_config + 1000) by reflexivity.
  split; [exact (conj H1 (conj H2 (conj H3 (conj H4 (conj H5 H6))))) | ].
  pose proof (overshoot_recovery default_config (run default_config (quiet 0) [])
                (quiet 100) "mva61" (quiet 61099) H1 H2 H3 H4 H5 H6) as Ha.
  pose proof (overshoot_recovery default_config (run default_config (quiet 0) [])
                (quiet 100) "mva61" (quiet 61100) H1 H2 H3 H4 H5 H6) as Hb.
  cbv zeta in Ha, Hb.
  destruct Ha as ((_ & _ & _ & Hs & Ht & _) & Hwait & _).
  destruct Hb as (_ & _ & Hstop).
  split; [exact Hs | split; [exact Ht | split] ].
  - apply Hwait. vm_compute. reflexivity.
  - apply Hstop; vm_compute; discriminate.
Defined.

(** C7 as stated fails where the position is above the maximum. The blind
    is driven to position 8000 (S2 asserted from 1000 to 9000, maximum
    60000). In the iteration at 10000 the portal saves a maximum of 5
    seconds: [saveParamsCallback] stores 5000 and leaves the restart to the
    end of the iteration, and in the same iteration [mqttLoop] delivers
    [mva6], whose target is the new maximum plus 1000. The override is off;
    the relay energized is L1, toward zero, with a time-out of 2000, and not
    the relay toward the maximum for 5000 - 8000 + 1000. *)
Lemma overshoot_after_save_counterexample :
  let p := mkParams "broker.local" "1883" "kitchen" "moist" "password"
             "blinds/pos" "blinds/cmd" "5" "false" "false" "false" in
  let up t g m msgs := mkWorld g m None t true None true (fun _ => t) true msgs in
  let d := lifetime "Dorfl-1a2b3c" None (quiet 0)
             [ (up 1000 (press2 1000) (quiet 1000) [], quiet 0);
               (up 9000 (quiet 9000) (quiet 9000) [], quiet 0) ] in
  let w := mkWorld (quiet 10000) (quiet 10000) (Some (p, true)) 10000 true None
             true (fun _ => 10000) true [(quiet 10000, "mva6"%string)] in
  let d' := loop w d in
  blindPos (core d) = 8000 /\ manualMode (core d) = false /\
  params_fit p = true /\ overrun d' = false /\
  blindMaxPos (blind (settings d')) = 5000 /\
  atoi (substring_from 3 (payloadCopy "mva6")) * 1000
    = blindMaxPos (blind (settings d')) + 1000 /\
  manualMode (core d') = false /\
  movementProgress (core d') = true /\
  movementTimeout (core d') = 2000 /\
  relays (out (core d')) = toward_zero_levels (blind (settings d')) /\
  relays (out (core d')) <> toward_max_levels (blind (settings d')).
Proof.
  vm_compute. repeat split. intros H; discriminate H.
Qed.

(** C5, as the code has it. A numeric payload with no number in it parses
    to 0. Without override, a move command first stops the movement in
    progress (then nothing moves and both relays are low). An [mvr] with
    such a payload does nothing more: it energizes no relay, and on an idle
    controller the state is unchanged. An [mva] with such a payload is
    carried out as a move to position 0: if the position is 0 it does
    nothing more, otherwise it energizes the relay toward zero, stamps the
    movement with the clock reading of the command and gives it the position
    as time-out. Whatever the payload, a position within [0, maxPos] stays
    there. *)
Theorem malformed_number (cfg : Config) (e0 : Env) (l : list Step)
    (e : Env) (payload : string) :
  wf_config cfg ->
  manualMode (run cfg e0 l) = false ->
  malformed (substring_from 3 (payloadCopy payload)) = true ->
  let s := run cfg e0 l in
  let s0 := stopped_first cfg e s in
  let s' := exec (mqttCallback cfg payload) e s in
  atoi (substring_from 3 (payloadCopy payload)) = 0 /\
  (movementProgress s0 = false /\ relays (out s0) = (false, false) /\
   0 <= blindPos s0 <= blindMaxPos cfg /\
   (movementProgress s = false -> s0 = s)) /\
  (startsWith (payloadCopy payload) CMD_MOVE_REL = true -> s' = s0) /\
  (startsWith (payloadCopy payload) CMD_MOVE_ABS = true ->
   (blindPos s0 = 0 -> s' = s0) /\
   (0 < blindPos s0 ->
    movementProgress s' = true /\
    movementL1 s' = negb (blindInvertZero cfg) /\
    relays (out s') = toward_zero_levels cfg /\
    movementStartTime s' = command_clock e s /\
    movementTimeout s' = blindPos s0 /\
    blindPos s' = blindPos s0)) /\
  (forall p' e' s1,
     pos_inv cfg s1 -> pos_inv cfg (exec (mqttCallback cfg p') e' s1)).
Proof.
  intros Hcfg Hm Hbad. cbv zeta.
  destruct (pos_run cfg Hcfg e0 l) as [[Hr Hl] _].
  pose proof (coh_run cfg e0 l) as Hcoh.
  set (s := run cfg e0 l) in *. clearbody s.
  pose proof (atoi_malformed _ Hbad) as H0.
  destruct (stopped_first_result cfg e s Hcfg Hm Hr Hl)
    as ((Hma & Hpa & Hra & Hla & Hsa) & Hrel & _).
  unfold LONG_MAX in *.
  split; [exact H0 | split; [ | split; [ | split] ] ].
  - split; [exact Hpa | split; [exact (Hrel Hcoh) | split; [exact Hra | exact Hsa] ] ].
  - intros Hmvr.
    rewrite (move_rel_parts cfg e payload s Hcfg Hm Hr Hl Hmvr).
    rewrite H0. change (to_long (0 * 1000)) with 0. rewrite Z.add_0_r.
    destruct (autoMove_result cfg e
                (if movementProgress s && negb (manualMode s) then 1 else 0)%nat
                (stopped_first cfg e s)
                (to_long (blindPos (stopped_first cfg e s))) Hma Hpa)
      as (Hstay & _ & _).
    rewrite (to_long_small (blindPos (stopped_first cfg e s))) in * by lia.
    rewrite Z.sub_diag in Hstay. exact (Hstay eq_refl).
  - intros Hmva.
    rewrite (move_abs_parts cfg e payload s Hcfg Hm Hr Hl Hmva).
    rewrite H0. change (to_long (0 * 1000)) with 0.
    destruct (autoMove_result cfg e
                (if movementProgress s && negb (manualMode s) then 1 else 0)%nat
                (stopped_first cfg e s) 0 Hma Hpa) as (Hstay & _ & Hgo).
    rewrite (to_long_small (0 - blindPos (stopped_first cfg e s))) in * by lia.
    split.
    + intros Ez. apply Hstay. lia.
    + intros Hpos.
      destruct (Hgo ltac:(lia)) as (G1 & G2 & G3 & G4 & G5 & G6 & G7).
      rewrite G1, G2, G3, G4, G5, G7. unfold toward_zero_levels, command_clock.
      repeat split; try lia.
      destruct (blindInvertZero cfg); reflexivity.
  - intros p' e' s1 H. apply (hoare_exec (pos_inv cfg) (pos_inv cfg)); [ | exact H].
    apply pos_mqttCallback. exact Hcfg.
Qed.

Lemma malformed_number_witness :
  let l := [Mqtt (quiet 100) "mva30"; Movement (quiet 30100)] in
  let s := run default_config (quiet 0) l in
  (wf_config default_config /\
   manualMode s = false /\
   malformed (substring_from 3 (payloadCopy "mvrxyz")) = true) /\
  exec (mqttCallback default_config "mvrxyz") (quiet 40000) s
  = stopped_first default_config (quiet 40000) s /\
  stopped_first default_config (quiet 40000) s = s.
Proof.
  cbv zeta.
  assert (H1 : wf_config default_config) by (unfold wf_config; cbn; lia).
  assert (H4 : manualMode (run default_config (quiet 0)
                             [Mqtt (quiet 100) "mva30"; Movement (quiet 30100)])
               = false) by reflexivity.
  assert (H5 : malformed (substring_from 3 (payloadCopy "mvrxyz")) = true)
    by reflexivity.
  split; [exact (conj H1 (conj H4 H5)) | ].
  pose proof (malformed_number default_config (quiet 0)
                [Mqtt (quiet 100) "mva30"; Movement (quiet 30100)]
                (quiet 40000) "mvrxyz" H1 H4 H5) as H.
  cbv zeta in H. destruct H as (_ & (_ & _ & _ & Hidle) & Hmvr & _).
  split; [exact (Hmvr eq_refl) | exact (Hidle eq_refl)].
Defined.

(** C5 as stated fails: at position 30000, idle and without override, the
    command [mvaxyz] (no number in the payload) is not a no-op: it energizes
    relay L1 with a time-out of 30000, a full move to position 0. *)
Lemma malformed_number_counterexample :
  let s := run default_config (quiet 0)
             [Mqtt (quiet 100) "mva30"; Movement (quiet 30100)] in
  let s' := step default_config s (Mqtt (quiet 40000) "mvaxyz") in
  blindPos s = 30000 /\ movementProgress s = false /\ manualMode s = false /\
  relays (out s) = (false, false) /\
  malformed (substring_from 3 (payloadCopy "mvaxyz")) = true /\
  atoi (substring_from 3 (payloadCopy "mvaxyz")) = 0 /\
  movementProgress s' = true /\ movementTimeout s' = 30000 /\
  relays (out s') = (true, false).
Proof.
  vm_compute. repeat split.
Qed.

(** * Provisioning: one portal at a time *)

Lemma portal_startWifiManager t g b :
  hoare (portal_settled t g) (startWifiManager b) (portal_settled t g).
Proof.
  intros e n s (H1 & H2 & H3). unfold startWifiManager. munfold. mrun. rewrite H1.
  split; [ | split]; assumption.
Qed.

Ltac portal_field :=
  let s := fresh "s" in let H := fresh "H" in
  intros s H; destruct H as (? & ? & ?); split; [ | split];
  mrun; cbn [portal_requests]; assumption.

Section Portal.

Variable cfg : Config.
Variable t0 : Z.
Variable g : nat.

Hint Resolve portal_startWifiManager : dorfl.

Lemma portal_mqttCommunicate :
  hoare (portal_settled t0 g) mqttCommunicate (portal_settled t0 g).
Proof. unfold mqttCommunicate. inv_auto portal_field. Qed.
Hint Resolve portal_mqttCommunicate : dorfl.

Lemma portal_updateBlindPos :
  hoare (portal_settled t0 g) (updateBlindPos cfg) (portal_settled t0 g).
Proof. unfold updateBlindPos. inv_auto portal_field. Qed.
Hint Resolve portal_updateBlindPos : dorfl.

Lemma portal_stopL1 : hoare (portal_settled t0 g) (stopL1 cfg) (portal_settled t0 g).
Proof. unfold stopL1, digitalWrite. inv_auto portal_field. Qed.

Lemma portal_stopL2 : hoare (portal_settled t0 g) (stopL2 cfg) (portal_settled t0 g).
Proof. unfold stopL2, digitalWrite. inv_auto portal_field. Qed.
Hint Resolve portal_stopL1 portal_stopL2 : dorfl.

Lemma portal_startL1 t :
  hoare (portal_settled t0 g) (startL1 cfg t) (portal_settled t0 g).
Proof. unfold startL1, digitalWrite. inv_auto portal_field. Qed.

Lemma portal_startL2 t :
  hoare (portal_settled t0 g) (startL2 cfg t) (portal_settled t0 g).
Proof. unfold startL2, digitalWrite. inv_auto portal_field. Qed.
Hint Resolve portal_startL1 portal_startL2 : dorfl.

Lemma portal_movementLoop :
  hoare (portal_settled t0 g) (movementLoop cfg) (portal_settled t0 g).
Proof. unfold movementLoop. inv_auto portal_field. Qed.

Lemma portal_gpioLoop :
  hoare (portal_settled t0 g) (gpioLoop cfg) (portal_settled t0 g).
Proof. unfold gpioLoop. inv_auto portal_field. Qed.

Lemma portal_autoMoveToPos p :
  hoare (portal_settled t0 g) (autoMoveToPos cfg p) (portal_settled t0 g).
Proof. unfold autoMoveToPos. inv_auto portal_field. Qed.
Hint Resolve portal_autoMoveToPos : dorfl.

Lemma portal_mqttCallback p :
  hoare (portal_settled t0 g) (mqttCallback cfg p) (portal_settled t0 g).
Proof. unfold mqttCallback. inv_auto portal_field. Qed.

Lemma portal_step s st :
  portal_settled t0 g s -> portal_settled t0 g (step cfg s st).
Proof.
  intros H.
  destruct st; cbn [step];
    (apply (hoare_exec (portal_settled t0 g) (portal_settled t0 g)); [ | exact H]);
    auto using portal_gpioLoop, portal_movementLoop, portal_mqttCallback with dorfl.
Qed.

Lemma portal_steps l :
  forall s, portal_settled t0 g s -> portal_settled t0 g (fold_left (step cfg) l s).
Proof.
  induction l as [ | st l IH]; intros s H; cbn [fold_left]; [exact H | ].
  apply IH. apply portal_step. exact H.
Qed.

End Portal.

(** X2. Once the flag [wifiManagerSetupRunning] is set, nothing the
    controller does afterwards (pairing button, fifth tap, [set] command)
    makes another request to WiFiManager, and nothing clears the flag or
    moves the start stamp: the session ends only with the restart. *)
Theorem portal_requested_once (cfg : Config) (s : State) (l : list Step) :
  wifiManagerSetupRunning s = true ->
  wifiManagerSetupRunning (fold_left (step cfg) l s) = true /\
  wifiManagerSetupStart (fold_left (step cfg) l s) = wifiManagerSetupStart s /\
  portal_requests (out (fold_left (step cfg) l s)) = portal_requests (out s).
Proof.
  intros H.
  apply (portal_steps cfg (wifiManagerSetupStart s) (portal_requests (out s)) l s).
  split; [exact H | split; reflexivity].
Qed.

Lemma portal_requested_once_witness :
  let s := run default_config (quiet 0) [Gpio (portal_opens 100)] in
  let l := [Gpio (portal_opens 200); Mqtt (quiet 250) "set"; Gpio (portal_opens 300)] in
  wifiManagerSetupRunning s = true /\
  portal_requests (out s) = 1%nat /\
  portal_requests (out (fold_left (step default_config) l s)) = 1%nat.
Proof.
  cbv zeta.
  assert (H : wifiManagerSetupRunning
                (run default_config (quiet 0) [Gpio (portal_opens 100)]) = true)
    by reflexivity.
  split; [exact H | split; [reflexivity | ] ].
  exact (proj2 (proj2 (portal_requested_once default_config _
                         [Gpio (portal_opens 200); Mqtt (quiet 250) "set";
                          Gpio (portal_opens 300)] H))).
Defined.

(** * Manual switch arbiter: driving, locking, releasing *)

(** Symbolic execution of a tick on a symbolic state: the property asked of
    the state reached is set aside, the tick is run with the driver and the
    publisher written out, and the property is then read off the state. *)
Ltac sym_gpio :=
  unfold exec, gpioLoop, startL1, startL2, stopL1, stopL2, updateBlindPos,
    mqttCommunicate, startWifiManager, wifiManagerSetupStarted, digitalWrite, when;
  munfold.

Ltac focus_exec :=
  match goal with
  | |- context [exec ?m ?e ?s] =>
      pattern (exec m e s);
      match goal with
      | |- ?Q _ => let Qv := fresh "Q" in let HQ := fresh "HQ" in
                   remember Q as Qv eqn:HQ
      end
  end.

(** The events a call has put before those of [s]. *)
Ltac prefix_of s :=
  match goal with
  | |- exists pre, ?t = _ /\ _ =>
      let rec go t :=
        lazymatch t with
        | out s => constr:(@nil Event)
        | ?ev :: ?t' => let r := go t' in constr:(ev :: r)
        end in
      let pre := go t in exists pre
  end.

(** X3. A press that starts an override (override and lock off, no lock
    gesture under way: the tap counter is not 1) sets manual mode, records
    the switch, and drives the relay of that switch for up to [blindMaxPos]:
    unless a movement in that same direction is already in progress, which
    then goes on as it is, with its own start time and time-out, the tick
    writing no pin. *)
Theorem drive_press (cfg : Config) (e : Env) (s : State) (sw : Z) :
  buttonLow e = false ->
  pressed_switch e = Some sw ->
  MANUAL_LOCK_MIN_DELAY_MS < manualActivatorDelay e s ->
  manualMode s = false -> manualLocked s = false ->
  manualSetupModeCounter s <> 1 ->
  let s' := exec (gpioLoop cfg) e s in
  let d := press_drives_L1 cfg sw in
  manualMode s' = true /\ manualLocked s' = false /\
  manualLockActivatorSwitch s' = sw /\
  (movementProgress s = true -> movementL1 s = d ->
   movement_state s' = movement_state s /\ blindPos s' = blindPos s /\
   out s' = (if mqttUp e then [MqttPublish (mqttMsg (blindPos s) true)] else [])
            ++ out s) /\
  (movementProgress s = false \/ movementL1 s = negb d ->
   movementProgress s' = true /\ movementL1 s' = d /\
   movementTimeout s' = blindMaxPos cfg /\
   relays (out s') = (d, negb d)).
Proof.
  intros Hb Hp Hd Hm Hu Hc. cbv zeta.
  apply Z.ltb_lt in Hd. unfold manualActivatorDelay in Hd.
  rewrite (after_button_idle e s Hb) in Hd. cbn [fst] in Hd.
  set (dl := to_ulong (to_ulong (millis_at e 0%nat) - manualLockActivatorTime s)) in *.
  assert (Hc' : (manualSetupModeCounter s =? 1) = false) by (apply Z.eqb_neq; exact Hc).
  focus_exec.
  sym_gpio. rewrite Hb. mgoal. fold dl. rewrite Hd. clearbody dl.
  destruct (pressed_switch_cases e sw Hp) as [(H1 & ->) | (H1 & H2 & ->)];
    rewrite ?H1, ?H2; unfold SWITCH_S1, SWITCH_S2; cbn [Z.eqb Pos.eqb]; mgoal;
    destruct (manualLockActivatorSwitch s =? 4) eqn:Hsw;
    cbn [negb]; mgoal; rewrite ?Hc'; cbn [negb Z.eqb]; rewrite ?andb_false_r; mgoal;
    rewrite Hu; cbn [negb]; mgoal; rewrite Hm; cbn [negb]; mgoal;
    destruct (mqttUp e) eqn:Hup; mgoal;
    destruct (blindInvertSwitch cfg) eqn:Hinv;
      destruct (movementProgress s) eqn:Hmp;
      destruct (movementL1 s) eqn:HL1;
      repeat progress (mgoal; rewrite ?Hmp, ?HL1, ?Hup; cbn [andb orb negb]);
    subst Q; unfold press_drives_L1, movement_state, SWITCH_S1;
    mgoal; rewrite ?Hm, ?Hu, ?Hmp, ?HL1, ?Hinv;
    cbn [andb orb negb Z.eqb Pos.eqb relays app fst snd];
    (split; [reflexivity | split; [reflexivity | split; [reflexivity | ] ] ]);
    (split; [intros ? ?; try discriminate; repeat split
            | intros [? | ?]; try discriminate; repeat split ]).
Qed.

Lemma drive_press_witness :
  let s := boot default_config (quiet 0) in
  let s' := exec (gpioLoop default_config) (press1 1000) s in
  (buttonLow (press1 1000) = false /\
   pressed_switch (press1 1000) = Some SWITCH_S1 /\
   MANUAL_LOCK_MIN_DELAY_MS < manualActivatorDelay (press1 1000) s /\
   manualMode s = false /\ manualLocked s = false /\
   manualSetupModeCounter s <> 1) /\
  manualMode s' = true /\ relays (out s') = (true, false).
Proof.
  cbv zeta.
  assert (H3 : MANUAL_LOCK_MIN_DELAY_MS
               < manualActivatorDelay (press1 1000) (boot default_config (quiet 0)))
    by (vm_compute; reflexivity).
  assert (H6 : manualSetupModeCounter (boot default_config (quiet 0)) <> 1)
    by (vm_compute; discriminate).
  pose proof (drive_press default_config (press1 1000)
                (boot default_config (quiet 0)) SWITCH_S1
                eq_refl eq_refl H3 eq_refl eq_refl H6) as H.
  cbv zeta in H. destruct H as (Hm & _ & _ & _ & Hstart).
  split.
  - exact (conj eq_refl (conj eq_refl (conj H3 (conj eq_refl (conj eq_refl H6))))).
  - split; [exact Hm | ].
    exact (proj2 (proj2 (proj2 (Hstart (or_introl eq_refl))))).
Defined.

(** X4. In every state of every run with an override that is not a lock, a
    tick that finds both switches released ends the override and leaves
    nothing moving: manual mode is off, no movement is in progress, both
    relays are low, and (the link being up) the tick has published the
    position, without the dot. *)
Theorem release_stops_drive (cfg : Config) (e0 : Env) (l : list Step) (e : Env) :
  let s := run cfg e0 l in
  buttonLow e = false -> pressed_switch e = None ->
  MANUAL_LOCK_MIN_DELAY_MS < manualActivatorDelay e s ->
  manualMode s = true -> manualLocked s = false ->
  let s' := exec (gpioLoop cfg) e s in
  manualMode s' = false /\ movementProgress s' = false /\
  relays (out s') = (false, false) /\
  (mqttUp e = true ->
   exists pre, out s' = pre ++ out s /\
               In (MqttPublish (mqttMsg (blindPos s') false)) pre).
Proof.
  cbv zeta. pose proof (coh_run cfg e0 l) as Hcoh.
  set (s := run cfg e0 l) in *. clearbody s.
  intros Hb Hp Hd Hm Hu.
  unfold coherent, levels_of in Hcoh.
  destruct (pressed_switch_none e Hp) as [H1 H2].
  apply Z.ltb_lt in Hd. unfold manualActivatorDelay in Hd.
  rewrite (after_button_idle e s Hb) in Hd. cbn [fst] in Hd.
  set (dl := to_ulong (to_ulong (millis_at e 0%nat) - manualLockActivatorTime s)) in *.
  focus_exec.
  sym_gpio. rewrite Hb. mgoal. fold dl. rewrite Hd, H1, H2. clearbody dl. mgoal.
  rewrite Hm. mgoal.
  destruct (dl <? MANUAL_LOCK_MAX_DELAY_MS); mgoal;
    [ generalize (to_long (manualSetupModeCounter s + 1)); intros c1;
      destruct (c1 =? MANUAL_SETUP_COUNTER); mgoal;
      [ destruct (wifiManagerSetupRunning s); mgoal;
        [ | destruct (apCallback e); mgoal ] | ] | ];
    rewrite ?Hu; mgoal;
    destruct (movementProgress s) eqn:Hmp; mgoal;
    destruct (movementL1 s) eqn:HL1;
    destruct (mqttUp e) eqn:Hup;
    repeat progress (mgoal; rewrite ?Hmp, ?HL1, ?Hup; cbn [andb orb negb]);
    subst Q; mgoal; cbn [relays fst snd]; rewrite ?Hcoh, ?Hmp; cbn [andb fst snd];
    (split; [reflexivity | split; [reflexivity | split; [reflexivity | ] ] ]);
    intros Hx; try discriminate Hx;
    prefix_of s;
    (split; [reflexivity | cbn [In]; auto 6]).
Qed.

Lemma release_stops_drive_witness :
  let s := run default_config (quiet 0) [Gpio (press1 1000)] in
  let s' := exec (gpioLoop default_config) (quiet 1600) s in
  (buttonLow (quiet 1600) = false /\ pressed_switch (quiet 1600) = None /\
   MANUAL_LOCK_MIN_DELAY_MS < manualActivatorDelay (quiet 1600) s /\
   manualMode s = true /\ manualLocked s = false /\
   relays (out s) = (true, false)) /\
  manualMode s' = false /\ relays (out s') = (false, false).
Proof.
  cbv zeta.
  assert (H3 : MANUAL_LOCK_MIN_DELAY_MS
               < manualActivatorDelay (quiet 1600)
                   (run default_config (quiet 0) [Gpio (press1 1000)]))
    by (vm_compute; reflexivity).
  pose proof (release_stops_drive default_config (quiet 0) [Gpio (press1 1000)]
                (quiet 1600) eq_refl eq_refl H3 eq_refl eq_refl) as H.
  cbv zeta in H. destruct H as (Hm & _ & Hr & _).
  split.
  - exact (conj eq_refl (conj eq_refl (conj H3 (conj eq_refl (conj eq_refl eq_refl))))).
  - exact (conj Hm Hr).
Defined.

(** X5. The lock also engages in the middle of a hold. While a switch is
    driving (override on, lock off) with the tap counter at 1 (one quick tap
    was made on that switch before, however long ago), a tick that finds the
    switch still asserted more than 200 and less than 500 ms after the stamp
    [manualLockActivatorTime], which the press that started the drive set,
    sets the lock flag. The tick writes no pin: the relay stays energized and
    the movement goes on. *)
Theorem lock_engages_during_hold (cfg : Config) (e : Env) (s : State) (sw : Z) :
  buttonLow e = false -> blindDisableManualLock cfg = false ->
  manualMode s = true -> manualLocked s = false ->
  manualSetupModeCounter s = 1 ->
  pressed_switch e = Some sw -> manualLockActivatorSwitch s = sw ->
  MANUAL_LOCK_MIN_DELAY_MS < manualActivatorDelay e s < MANUAL_LOCK_MAX_DELAY_MS ->
  let s' := exec (gpioLoop cfg) e s in
  manualLocked s' = true /\ manualMode s' = true /\
  movement_state s' = movement_state s /\ blindPos s' = blindPos s /\
  out s' = (if mqttUp e then [MqttPublish (mqttMsg (blindPos s) true)] else [])
           ++ out s.
Proof.
  intros Hb Hdis Hm Hu Hc Hp Ha [Hd1 Hd2]. cbv zeta.
  apply Z.ltb_lt in Hd1. apply Z.ltb_lt in Hd2.
  unfold manualActivatorDelay in Hd1, Hd2.
  rewrite (after_button_idle e s Hb) in Hd1, Hd2. cbn [fst] in Hd1, Hd2.
  set (dl := to_ulong (to_ulong (millis_at e 0%nat) - manualLockActivatorTime s)) in *.
  focus_exec.
  sym_gpio. rewrite Hb. mgoal. fold dl. rewrite Hd1. clearbody dl.
  destruct (pressed_switch_cases e sw Hp) as [(H1 & ->) | (H1 & H2 & ->)];
    rewrite ?H1, ?H2; mgoal; rewrite Ha;
    cbn [Z.eqb Pos.eqb SWITCH_S1 SWITCH_S2 negb]; mgoal;
    rewrite Hu, Hc, Hdis, Hd2; cbn [Z.eqb Pos.eqb negb andb]; mgoal;
    destruct (mqttUp e); mgoal; cbn [negb]; mgoal;
    subst Q; unfold movement_state; mgoal; cbn [app];
    repeat split.
Qed.

Lemma lock_engages_during_hold_witness :
  let s := run default_config (quiet 0)
             [Gpio (press1 1000); Gpio (quiet 1210); Gpio (press1 5000)] in
  let s' := exec (gpioLoop default_config) (press1 5250) s in
  (buttonLow (press1 5250) = false /\
   blindDisableManualLock default_config = false /\
   manualMode s = true /\ manualLocked s = false /\
   manualSetupModeCounter s = 1 /\
   pressed_switch (press1 5250) = Some SWITCH_S1 /\
   manualLockActivatorSwitch s = SWITCH_S1 /\
   MANUAL_LOCK_MIN_DELAY_MS < manualActivatorDelay (press1 5250) s
     < MANUAL_LOCK_MAX_DELAY_MS) /\
  relays (out s) = (true, false) /\
  manualLocked s' = true /\ relays (out s') = (true, false).
Proof.
  cbv zeta.
  assert (H8 : MANUAL_LOCK_MIN_DELAY_MS
               < manualActivatorDelay (press1 5250)
                   (run default_config (quiet 0)
                      [Gpio (press1 1000); Gpio (quiet 1210); Gpio (press1 5000)])
               < MANUAL_LOCK_MAX_DELAY_MS)
    by (vm_compute; split; reflexivity).
  pose proof (lock_engages_during_hold default_config (press1 5250)
                (run default_config (quiet 0)
                   [Gpio (press1 1000); Gpio (quiet 1210); Gpio (press1 5000)])
                SWITCH_S1 eq_refl eq_refl eq_refl eq_refl eq_refl eq_refl eq_refl H8)
    as H.
  cbv zeta in H. destruct H as (Hl & _ & _ & _ & Ho).
  split.
  - exact (conj eq_refl (conj eq_refl (conj eq_refl (conj eq_refl (conj eq_refl
             (conj eq_refl (conj eq_refl H8))))))).
  - split; [reflexivity | split; [exact Hl | ] ].
    rewrite Ho. reflexivity.
Defined.

(** X6. A release that ends a locked override (both flags set) clears the
    two flags and writes no pin: relay levels, movement state and position
    are as before. A relay that was energized when the lock engaged is not
    switched off by the release; it runs until its time-out. *)
Theorem locked_release_keeps_relay (cfg : Config) (e : Env) (s : State) :
  buttonLow e = false -> pressed_switch e = None ->
  MANUAL_LOCK_MIN_DELAY_MS < manualActivatorDelay e s ->
  manualMode s = true -> manualLocked s = true ->
  let s' := exec (gpioLoop cfg) e s in
  manualMode s' = false /\ manualLocked s' = false /\
  movement_state s' = movement_state s /\ blindPos s' = blindPos s /\
  relays (out s') = relays (out s) /\
  exists pre, out s' = pre ++ out s /\ forallb writes_no_pin pre = true.
Proof.
  intros Hb Hp Hd Hm Hu. cbv zeta.
  destruct (pressed_switch_none e Hp) as [H1 H2].
  apply Z.ltb_lt in Hd. unfold manualActivatorDelay in Hd.
  rewrite (after_button_idle e s Hb) in Hd. cbn [fst] in Hd.
  set (dl := to_ulong (to_ulong (millis_at e 0%nat) - manualLockActivatorTime s)) in *.
  focus_exec.
  sym_gpio. rewrite Hb. mgoal. fold dl. rewrite Hd, H1, H2. clearbody dl. mgoal.
  rewrite Hm. mgoal.
  destruct (dl <? MANUAL_LOCK_MAX_DELAY_MS); mgoal;
    [ generalize (to_long (manualSetupModeCounter s + 1)); intros c1;
      destruct (c1 =? MANUAL_SETUP_COUNTER); mgoal;
      [ destruct (wifiManagerSetupRunning s); mgoal;
        [ | destruct (apCallback e); mgoal ] | ] | ];
    rewrite ?Hu; mgoal;
    destruct (mqttUp e) eqn:Hup; mgoal;
    subst Q; unfold movement_state; mgoal; cbn [relays];
    (split; [reflexivity | split; [reflexivity | split; [reflexivity
      | split; [reflexivity | split; [reflexivity | ] ] ] ] ]);
    prefix_of s; split; reflexivity.
Qed.

Lemma locked_release_keeps_relay_witness :
  let s := run default_config (quiet 0)
             [Gpio (press1 1000); Gpio (quiet 1210); Gpio (press1 5000);
              Gpio (press1 5250)] in
  let s' := exec (gpioLoop default_config) (quiet 5600) s in
  (buttonLow (quiet 5600) = false /\ pressed_switch (quiet 5600) = None /\
   MANUAL_LOCK_MIN_DELAY_MS < manualActivatorDelay (quiet 5600) s /\
   manualMode s = true /\ manualLocked s = true) /\
  manualMode s' = false /\ manualLocked s' = false /\
  relays (out s') = (true, false).
Proof.
  cbv zeta.
  assert (H3 : MANUAL_LOCK_MIN_DELAY_MS
               < manualActivatorDelay (quiet 5600)
                   (run default_config (quiet 0)
                      [Gpio (press1 1000); Gpio (quiet 1210); Gpio (press1 5000);
                       Gpio (press1 5250)]))
    by (vm_compute; reflexivity).
  pose proof (locked_release_keeps_relay default_config (quiet 5600)
                (run default_config (quiet 0)
                   [Gpio (press1 1000); Gpio (quiet 1210); Gpio (press1 5000);
                    Gpio (press1 5250)])
                eq_refl eq_refl H3 eq_refl eq_refl) as H.
  cbv zeta in H. destruct H as (Hm & Hl & _ & _ & Hr & _).
  split.
  - exact (conj eq_refl (conj eq_refl (conj H3 (conj eq_refl eq_refl)))).
  - split; [exact Hm | split; [exact Hl | ] ].
    rewrite Hr. reflexivity.
Defined.

(** While the lock flag is set, a tick that finds a switch asserted changes
    at most the tap counter. *)
Lemma locked_hold_tick (cfg : Config) (e : Env) (s : State) :
  manualLocked s = true -> held e ->
  let s' := exec (gpioLoop cfg) e s in
  out s' = out s /\ manualLocked s' = true /\ manualMode s' = manualMode s /\
  manualLockActivatorTime s' = manualLockActivatorTime s /\
  movement_state s' = movement_state s /\ blindPos s' = blindPos s.
Proof.
  intros Hu [Hb Hp]. cbv zeta.
  focus_exec.
  sym_gpio. rewrite Hb. mgoal.
  destruct (_ <? _); mgoal;
    [ | subst Q; repeat split; assumption ].
  destruct (s1Low e) eqn:H1; [ | destruct (s2Low e) eqn:H2 ]; mgoal.
  - destruct (manualLockActivatorSwitch s =? SWITCH_S1); cbn [negb]; mgoal;
      rewrite Hu; cbn [negb]; rewrite ?andb_false_r; cbn [andb]; mgoal;
      rewrite Hu; cbn [negb]; mgoal;
      subst Q; unfold movement_state; mgoal; repeat split; assumption.
  - destruct (manualLockActivatorSwitch s =? SWITCH_S1); cbn [negb]; mgoal;
      rewrite Hu; cbn [negb]; rewrite ?andb_false_r; cbn [andb]; mgoal;
      rewrite Hu; cbn [negb]; mgoal;
      subst Q; unfold movement_state; mgoal; repeat split; assumption.
  - exfalso. apply Hp. unfold pressed_switch. rewrite H1, H2. reflexivity.
Qed.

(** X7. While the lock flag is set and a switch stays asserted, the arbiter
    is inert: over any number of ticks it writes no pin and publishes
    nothing, and the two flags, the movement state and the position stay as
    they are. [setup] sets the lock flag when it finds a switch asserted, so
    a switch that is on at power-on starts no movement until it has been
    released. *)
Theorem locked_hold_is_inert (cfg : Config) (l : list Env) (s : State) :
  manualLocked s = true -> Forall held l ->
  let s' := ticks cfg l s in
  out s' = out s /\ manualLocked s' = true /\ manualMode s' = manualMode s /\
  movement_state s' = movement_state s /\ blindPos s' = blindPos s.
Proof.
  intros Hu Hl. cbv zeta. unfold ticks. revert s Hu.
  induction Hl as [ | e l He Hl IH]; intros s Hu; cbn [fold_left].
  - repeat split; assumption.
  - destruct (locked_hold_tick cfg e s Hu He) as (E1 & E2 & E3 & E4 & E5 & E6).
    destruct (IH _ E2) as (I1 & I2 & I3 & I4 & I5).
    rewrite I1, I2, I3, I4, I5, E1, E3, E5, E6. repeat split.
Qed.

Lemma locked_hold_is_inert_witness :
  let s := boot default_config (press1 0) in
  let s' := ticks default_config [press1 300; press1 600; press1 60000] s in
  (manualLocked s = true /\ Forall held [press1 300; press1 600; press1 60000]) /\
  out s' = out s /\ manualMode s' = false /\ relays (out s') = (false, false).
Proof.
  cbv zeta.
  assert (Hh : forall t, held (press1 t))
    by (intros t; split; [reflexivity | discriminate]).
  assert (H2 : Forall held [press1 300; press1 600; press1 60000])
    by (repeat constructor; apply Hh).
  pose proof (locked_hold_is_inert default_config
                [press1 300; press1 600; press1 60000]
                (boot default_config (press1 0)) eq_refl H2) as H.
  cbv zeta in H. destruct H as (Ho & _ & Hm & _).
  split; [exact (conj eq_refl H2) | ].
  split; [exact Ho | split; [rewrite Hm; reflexivity | rewrite Ho; reflexivity] ].
Defined.

(** * Movement supervisor: the stop at the time-out *)

Lemma clamp_value (cfg : Config) (p : Z) :
  wf_config cfg -> - 2 ^ 31 <= p < 2 ^ 31 ->
  (if p <? 0 then 0
   else if blindMaxPos cfg <? to_ulong p then to_long (blindMaxPos cfg) else p)
  = Z.max 0 (Z.min (blindMaxPos cfg) p).
Proof.
  intros Hcfg Hp. unfold wf_config in Hcfg.
  destruct (Z.ltb_spec p 0); [lia | ].
  rewrite (to_ulong_small p) by lia.
  destruct (Z.ltb_spec (blindMaxPos cfg) p); [rewrite to_long_small | ]; lia.
Qed.

(** X8. The supervisor leaves a movement alone until its first clock
    reading is [movementTimeout] past the start. It then stops it: nothing
    moves, both relays are low, and the position has changed by the time
    elapsed at the second clock reading (the one [updateBlindPos] makes), not
    by the time-out, clamped to the range; the new position is published,
    with the dot if an override is active. A movement whose time-out is at
    least [blindMaxPos] (a manual drive) therefore ends exactly at 0 or at
    [blindMaxPos]. *)
Theorem supervisor_stop (cfg : Config) (e : Env) (s : State) :
  wf_config cfg -> movementProgress s = true ->
  0 <= blindPos s <= blindMaxPos cfg ->
  let elapsed0 := to_ulong (to_ulong (millis_at e 0%nat) - movementStartTime s) in
  let elapsed1 := to_ulong (to_ulong (millis_at e 1%nat) - movementStartTime s) in
  let s' := exec (movementLoop cfg) e s in
  (elapsed0 < movementTimeout s -> s' = s) /\
  (movementTimeout s <= elapsed0 -> blindPos s + elapsed1 <= LONG_MAX ->
   movementProgress s' = false /\ relays (out s') = (false, false) /\
   blindPos s' = (if toward_zero cfg s
                  then Z.max 0 (blindPos s - elapsed1)
                  else Z.min (blindMaxPos cfg) (blindPos s + elapsed1)) /\
   (blindMaxPos cfg <= movementTimeout s -> elapsed0 <= elapsed1 ->
    blindPos s' = if toward_zero cfg s then 0 else blindMaxPos cfg) /\
   (mqttUp e = true ->
    exists pre, out s' = pre ++ out s /\
                In (MqttPublish (mqttMsg (blindPos s') (manualMode s))) pre)).
Proof.
  intros Hcfg Hp Hr. cbv zeta.
  set (elapsed0 := to_ulong (to_ulong (millis_at e 0%nat) - movementStartTime s)).
  set (elapsed1 := to_ulong (to_ulong (millis_at e 1%nat) - movementStartTime s)).
  assert (H1 : 0 <= elapsed1 < 2 ^ 32) by (apply Z.mod_pos_bound; lia).
  split.
  - intros Hlt. apply Z.leb_gt in Hlt.
    unfold exec, movementLoop, when. munfold. mgoal. rewrite Hp. mgoal.
    fold elapsed0. rewrite Hlt. reflexivity.
  - intros Hto Hlong. apply Z.leb_le in Hto.
    unfold LONG_MAX in *.
    assert (Cm : (if to_long (blindPos s - elapsed1) <? 0 then 0
                  else if blindMaxPos cfg <? to_ulong (to_long (blindPos s - elapsed1))
                       then to_long (blindMaxPos cfg)
                       else to_long (blindPos s - elapsed1))
                 = Z.max 0 (Z.min (blindMaxPos cfg) (blindPos s - elapsed1))).
    { rewrite (to_long_small (blindPos s - elapsed1)) by lia.
      apply clamp_value; [exact Hcfg | lia]. }
    assert (Cp : (if to_long (blindPos s + elapsed1) <? 0 then 0
                  else if blindMaxPos cfg <? to_ulong (to_long (blindPos s + elapsed1))
                       then to_long (blindMaxPos cfg)
                       else to_long (blindPos s + elapsed1))
                 = Z.max 0 (Z.min (blindMaxPos cfg) (blindPos s + elapsed1))).
    { rewrite (to_long_small (blindPos s + elapsed1)) by lia.
      apply clamp_value; [exact Hcfg | lia]. }
    unfold wf_config in Hcfg.
    focus_exec.
    unfold exec, movementLoop, stopL1, stopL2, updateBlindPos, mqttCommunicate,
      digitalWrite, when.
    munfold. mgoal. rewrite Hp. mgoal. fold elapsed0. rewrite Hto.
    unfold toward_zero in *.
    destruct (movementL1 s) eqn:HL1; destruct (blindInvertZero cfg) eqn:Hinv;
      destruct (mqttUp e) eqn:Hup;
      repeat progress (mgoal; rewrite ?HL1, ?Hp, ?Hup; cbn [andb negb]);
      fold elapsed1; rewrite ?Cm, ?Cp;
      subst Q; mgoal; cbn [relays fst snd xorb];
      (split; [reflexivity | split; [reflexivity | split; [lia | split ] ] ]);
      try (intros; lia);
      intros Hx; try discriminate Hx;
      prefix_of s; (split; [reflexivity | cbn [In]; auto 6]).
Qed.

Lemma supervisor_stop_witness :
  let s := run default_config (quiet 0) [Gpio (press2 1000)] in
  let s' := exec (movementLoop default_config) (quiet 61050) s in
  (wf_config default_config /\ movementProgress s = true /\
   0 <= blindPos s <= blindMaxPos default_config) /\
  exec (movementLoop default_config) (quiet 60999) s = s /\
  blindPos s' = 60000 /\ relays (out s') = (false, false).
Proof.
  cbv zeta.
  assert (H1 : wf_config default_config) by (unfold wf_config; cbn; lia).
  assert (H3 : 0 <= blindPos (run default_config (quiet 0) [Gpio (press2 1000)])
               <= blindMaxPos default_config) by (vm_compute; split; discriminate).
  pose proof (supervisor_stop default_config (quiet 60999)
                (run default_config (quiet 0) [Gpio (press2 1000)])
                H1 eq_refl H3) as Hbefore.
  pose proof (supervisor_stop default_config (quiet 61050)
                (run default_config (quiet 0) [Gpio (press2 1000)])
                H1 eq_refl H3) as Hafter.
  cbv zeta in Hbefore, Hafter.
  destruct Hbefore as [Hb _]. destruct Hafter as [_ Ha].
  split; [exact (conj H1 (conj eq_refl H3)) | ].
  split; [apply Hb; vm_compute; reflexivity | ].
  assert (Hto : movementTimeout (run default_config (quiet 0) [Gpio (press2 1000)])
                <= to_ulong (to_ulong (millis_at (quiet 61050) 0%nat)
                             - movementStartTime
                                 (run default_config (quiet 0) [Gpio (press2 1000)])))
    by (vm_compute; discriminate).
  assert (Hlong : blindPos (run default_config (quiet 0) [Gpio (press2 1000)])
                  + to_ulong (to_ulong (millis_at (quiet 61050) 1%nat)
                              - movementStartTime
                                  (run default_config (quiet 0) [Gpio (press2 1000)]))
                  <= LONG_MAX) by (vm_compute; discriminate).
  destruct (Ha Hto Hlong) as (_ & Hr & _ & Hend & _).
  split; [ | exact Hr].
  apply Hend; vm_compute; discriminate.
Defined.

(** * Command interpreter: what is read of a payload *)

Lemma substring_all (s : string) : substring 0 (String.length s) s = s.
Proof. induction s as [ | c s IH]; cbn [substring String.length]; congruence. Qed.

Lemma substring_app (a b : string) (n : nat) :
  substring 0 (String.length a + n) (a ++ b) = (a ++ substring 0 n b)%string.
Proof.
  induction a as [ | c a IH]; cbn [substring String.length append Nat.add];
    congruence.
Qed.

Lemma append_length (a b : string) :
  String.length (a ++ b) = (String.length a + String.length b)%nat.
Proof. induction a as [ | c a IH]; cbn [append String.length Nat.add]; congruence. Qed.

Lemma append_empty (s : string) : (s ++ EmptyString)%string = s.
Proof. induction s as [ | c s IH]; cbn [append]; congruence. Qed.

Lemma substring_head (a b : string) (n : nat) :
  (n <= String.length a)%nat -> substring 0 n (a ++ b) = substring 0 n a.
Proof.
  revert n. induction a as [ | c a IH]; intros n Hn; cbn [String.length] in Hn.
  - assert (n = 0%nat) by lia. subst n. destruct b; reflexivity.
  - destruct n as [ | n]; cbn [append substring]; [reflexivity | ].
    rewrite IH by lia. reflexivity.
Qed.

Lemma c_str_nul (a r : string) : c_str (a ++ String zero r) = c_str a.
Proof.
  induction a as [ | c a IH]; cbn [append c_str].
  - reflexivity.
  - destruct (Ascii.eqb c zero); [reflexivity | rewrite IH; reflexivity].
Qed.

Lemma payloadCopy_tail (p q : string) :
  (9 <= String.length p)%nat \/ (exists q', q = String zero q') ->
  payloadCopy (p ++ q) = payloadCopy p.
Proof.
  intros H. unfold payloadCopy. rewrite append_length.
  destruct (Nat.le_gt_cases 9 (String.length p)) as [H9 | H9].
  - replace (Nat.min (String.length p + String.length q) 9) with 9%nat by lia.
    replace (Nat.min (String.length p) 9) with 9%nat by lia.
    rewrite substring_head by exact H9. reflexivity.
  - destruct H as [H | (q' & ->)]; [lia | ].
    cbn [String.length].
    replace (Nat.min (String.length p) 9) with (String.length p) by lia.
    rewrite substring_all.
    replace (Nat.min (String.length p + S (String.length q')) 9)
      with (String.length p + S (Nat.min (String.length p + String.length q') 8
                                 - String.length p))%nat by lia.
    rewrite substring_app. cbn [substring]. apply c_str_nul.
Qed.

(** X9. Only the first nine bytes of a payload, and of those only the ones
    before the first NUL, reach the interpreter: what follows changes
    nothing of what the command does. (So the number of a command is read
    from at most six characters.) *)
Theorem payload_tail_ignored (cfg : Config) (e : Env) (s : State) (p q : string) :
  (9 <= String.length p)%nat \/ (exists q', q = String zero q') ->
  exec (mqttCallback cfg (p ++ q)) e s = exec (mqttCallback cfg p) e s.
Proof.
  intros H. unfold exec, mqttCallback. cbv zeta.
  rewrite (payloadCopy_tail p q H). reflexivity.
Qed.

Lemma payload_tail_ignored_witness :
  (9 <= String.length "mva123456")%nat /\
  exec (mqttCallback default_config ("mva123456" ++ "789")) (quiet 100)
    (boot default_config (quiet 0))
  = exec (mqttCallback default_config "mva123456") (quiet 100)
      (boot default_config (quiet 0)).
Proof.
  assert (H : (9 <= String.length "mva123456")%nat) by (cbn; lia).
  split; [exact H | ].
  exact (payload_tail_ignored default_config (quiet 100)
           (boot default_config (quiet 0)) "mva123456" "789" (or_introl H)).
Defined.

(** ** Numbers written and read *)

Lemma digits_numeral (u : Decimal.uint) (rest : string) :
  no_digit rest = true ->
  forall acc, digits acc (NilEmpty.string_of_uint u ++ rest) = numeral u acc.
Proof.
  intros Hr.
  induction u; intros acc; cbn [NilEmpty.string_of_uint append numeral digits];
    try (cbn [digit_of]; apply IHu).
  unfold no_digit in Hr. destruct rest as [ | c r]; cbn [digits]; [reflexivity | ].
  destruct (digit_of c); [discriminate | reflexivity].
Qed.

Lemma numeral_acc (u : Decimal.uint) (acc : positive) :
  Z.pos (Pos.of_uint_acc u acc) = numeral u (Z.pos acc).
Proof.
  revert acc. induction u; intros acc; cbn [Pos.of_uint_acc numeral];
    try reflexivity; rewrite IHu; f_equal; lia.
Qed.

Lemma numeral_of_uint (u : Decimal.uint) : Z.of_uint u = numeral u 0.
Proof.
  unfold Z.of_uint.
  induction u; cbn [Pos.of_uint numeral]; try reflexivity;
    try (cbn [Z.of_N]; rewrite numeral_acc; reflexivity).
  exact IHu.
Qed.

Lemma numeral_lower (u : Decimal.uint) :
  forall acc, 0 <= acc -> acc * 10 ^ Z.of_nat (Decimal.nb_digits u) <= numeral u acc.
Proof.
  induction u; intros acc Hacc; cbn [Decimal.nb_digits numeral];
    try (rewrite Nat2Z.inj_succ, Z.pow_succ_r by lia;
         match goal with
         | |- _ <= numeral _ ?a => specialize (IHu a ltac:(lia))
         end;
         assert (0 <= 10 ^ Z.of_nat (Decimal.nb_digits u))
           by (apply Z.pow_nonneg; lia);
         nia).
  cbn. lia.
Qed.

(** The numeral of a positive number has no leading zero, so it has no more
    digits than the number needs. *)
Lemma numeral_digits (p : positive) :
  10 ^ Z.of_nat (Decimal.nb_digits (Pos.to_uint p) - 1) <= Z.pos p.
Proof.
  pose proof (DecimalPos.Unsigned.of_to p) as Hv.
  assert (Hz : Z.of_uint (Pos.to_uint p) = Z.pos p)
    by (unfold Z.of_uint; rewrite Hv; reflexivity).
  rewrite numeral_of_uint in Hz.
  pose proof (DecimalPos.Unsigned.to_of (Pos.to_uint p)) as Hn.
  rewrite Hv in Hn. cbn [N.to_uint] in Hn.
  set (u := Pos.to_uint p) in *. clearbody u.
  unfold Decimal.unorm in Hn.
  destruct u; cbn [Decimal.nb_digits Nat.sub numeral] in *;
    try (rewrite Nat.sub_0_r;
         match goal with
         | H : numeral _ ?a = _ |- _ =>
             pose proof (numeral_lower u a ltac:(lia)) as Hl
         end;
         assert (0 <= 10 ^ Z.of_nat (Decimal.nb_digits u))
           by (apply Z.pow_nonneg; lia);
         nia).
  - cbn. lia.
  - cbn [Decimal.nzhead] in Hn.
    pose proof (DecimalFacts.nb_digits_nzhead u) as Hh.
    destruct (Decimal.nzhead u) eqn:E; try discriminate Hn;
      injection Hn as Hn; subst.
    + cbn in Hz. lia.
    + cbn [Decimal.nb_digits] in Hh. lia.
Qed.

Lemma string_of_uint_length (u : Decimal.uint) :
  String.length (NilEmpty.string_of_uint u) = Decimal.nb_digits u.
Proof.
  induction u; cbn [NilEmpty.string_of_uint String.length Decimal.nb_digits];
    congruence.
Qed.

Lemma to_uint_not_nil (p : positive) : Pos.to_uint p <> Decimal.Nil.
Proof.
  intros E. pose proof (DecimalPos.Unsigned.of_to p) as Hv.
  rewrite E in Hv. discriminate Hv.
Qed.

Lemma ltoa_pos (p : positive) :
  ltoa (Z.pos p) = NilEmpty.string_of_uint (Pos.to_uint p).
Proof.
  unfold ltoa. cbn [Z.to_int NilZero.string_of_int]. unfold NilZero.string_of_uint.
  pose proof (to_uint_not_nil p). destruct (Pos.to_uint p); congruence.
Qed.

Lemma ltoa_neg (p : positive) :
  ltoa (Z.neg p) = String "-" (NilEmpty.string_of_uint (Pos.to_uint p)).
Proof.
  unfold ltoa. cbn [Z.to_int NilZero.string_of_int]. unfold NilZero.string_of_uint.
  pose proof (to_uint_not_nil p). destruct (Pos.to_uint p); congruence.
Qed.

Lemma ltoa_nonneg (n : Z) :
  0 <= n -> exists u, u <> Decimal.Nil /\ ltoa n = NilEmpty.string_of_uint u.
Proof.
  intros Hn. destruct n as [ | p | p]; [ | | lia].
  - exists (Decimal.D0 Decimal.Nil). split; [discriminate | reflexivity].
  - exists (Pos.to_uint p). split; [apply to_uint_not_nil | apply ltoa_pos].
Qed.

Lemma numeral_to_uint (p : positive) : numeral (Pos.to_uint p) 0 = Z.pos p.
Proof.
  rewrite <- numeral_of_uint. unfold Z.of_uint.
  rewrite DecimalPos.Unsigned.of_to. reflexivity.
Qed.

(** What [digits] reads of the text [ltoa] writes for a number that is not
    negative. *)
Lemma digits_ltoa (n : Z) (rest : string) :
  0 <= n -> no_digit rest = true -> digits 0 (ltoa n ++ rest) = n.
Proof.
  intros Hn Hr. destruct n as [ | p | p]; [ | | lia].
  - change (ltoa 0) with (NilEmpty.string_of_uint (Decimal.D0 Decimal.Nil)).
    rewrite (digits_numeral _ rest Hr). reflexivity.
  - rewrite ltoa_pos, (digits_numeral _ rest Hr). apply numeral_to_uint.
Qed.

(** A string that begins with a digit is read by [atoi] as by [digits]. *)
Lemma atoi_digit_first (c : ascii) (s : string) (d : Z) :
  digit_of c = Some d -> atoi (String c s) = digits 0 (String c s).
Proof.
  intros Hd. unfold atoi. cbn [skip_spaces].
  assert (Hs : isspace c = false /\ Ascii.eqb c "-" = false /\ Ascii.eqb c "+" = false).
  { unfold digit_of in Hd. unfold isspace.
    destruct (Z.leb_spec 48 (Z.of_nat (nat_of_ascii c))); [ | discriminate].
    destruct (Z.leb_spec (Z.of_nat (nat_of_ascii c)) 57); [ | discriminate].
    repeat split.
    - apply orb_false_iff. split.
      + apply Nat.eqb_neq. lia.
      + apply andb_false_iff. right. apply Nat.leb_gt. lia.
    - apply Ascii.eqb_neq. intros ->. cbn in *. lia.
    - apply Ascii.eqb_neq. intros ->. cbn in *. lia. }
  destruct Hs as (-> & -> & ->). reflexivity.
Qed.

Lemma string_of_uint_first (u : Decimal.uint) (rest : string) :
  u <> Decimal.Nil ->
  exists c s d, (NilEmpty.string_of_uint u ++ rest)%string = String c s /\
                digit_of c = Some d.
Proof.
  intros Hu. destruct u; [congruence | ..];
    cbn [NilEmpty.string_of_uint append]; do 3 eexists; split; reflexivity.
Qed.

(** [atoi] reads back what [ltoa] writes, whatever follows the number. *)
Lemma atoi_ltoa (n : Z) (rest : string) :
  no_digit rest = true -> atoi (ltoa n ++ rest) = n.
Proof.
  intros Hr. destruct n as [ | p | p].
  - destruct (ltoa_nonneg 0 ltac:(lia)) as (u & Hu & E).
    destruct (string_of_uint_first u rest Hu) as (c & s & d & E' & Hd).
    rewrite <- E in E'. rewrite E', (atoi_digit_first c s d Hd), <- E'.
    apply digits_ltoa; [lia | exact Hr].
  - destruct (ltoa_nonneg (Z.pos p) ltac:(lia)) as (u & Hu & E).
    destruct (string_of_uint_first u rest Hu) as (c & s & d & E' & Hd).
    rewrite <- E in E'. rewrite E', (atoi_digit_first c s d Hd), <- E'.
    apply digits_ltoa; [lia | exact Hr].
  - rewrite ltoa_neg. cbn [append]. unfold atoi. cbn [skip_spaces].
    change (isspace "-") with false. cbn match.
    change (Ascii.eqb "-" "-") with true. cbn match.
    rewrite (digits_numeral _ rest Hr), numeral_to_uint. reflexivity.
Qed.

Lemma atoi_ltoa_plain (n : Z) : atoi (ltoa n) = n.
Proof.
  rewrite <- (append_empty (ltoa n)). apply atoi_ltoa. reflexivity.
Qed.

Lemma ltoa_nonempty (n : Z) : (0 <? String.length (ltoa n))%nat = true.
Proof.
  apply Nat.ltb_lt. destruct n as [ | p | p].
  - cbn. lia.
  - rewrite ltoa_pos.
    pose proof (to_uint_not_nil p) as H.
    destruct (Pos.to_uint p); [congruence | ..];
      cbn [NilEmpty.string_of_uint String.length]; lia.
  - rewrite ltoa_neg. cbn [String.length]. lia.
Qed.

(** The number of characters [ltoa] writes for a positive number. *)
Lemma ltoa_length_exact (n : Z) (k : nat) :
  10 ^ Z.of_nat k <= n < 10 ^ Z.of_nat (S k) ->
  String.length (ltoa n) = S k.
Proof.
  intros Hn.
  assert (Hpos : 0 < 10 ^ Z.of_nat k) by (apply Z.pow_pos_nonneg; lia).
  destruct n as [ | p | p]; try lia.
  pose proof (digits_ltoa (Z.pos p) EmptyString ltac:(lia) eq_refl) as Ha.
  rewrite append_empty in Ha.
  pose proof (digits_bound (ltoa (Z.pos p)) 0 ltac:(lia)) as Hup.
  rewrite Ha in Hup.
  rewrite ltoa_pos in *. rewrite string_of_uint_length in *.
  pose proof (numeral_digits p) as Hlow.
  set (nb := Decimal.nb_digits (Pos.to_uint p)) in *. clearbody nb.
  destruct (Nat.lt_trichotomy nb (S k)) as [Hlt | [Heq | Hgt] ]; [ | exact Heq | ].
  - exfalso.
    assert (10 ^ Z.of_nat nb <= 10 ^ Z.of_nat k) by (apply Z.pow_le_mono_r; lia).
    lia.
  - exfalso.
    assert (10 ^ Z.of_nat (S k) <= 10 ^ Z.of_nat (nb - 1))
      by (apply Z.pow_le_mono_r; lia).
    lia.
Qed.

Lemma ltoa_length (n : Z) :
  0 <= n < 10 ^ 6 -> (String.length (ltoa n) <= 6)%nat.
Proof.
  intros Hn. destruct n as [ | p | p]; [cbn; lia | | lia].
  rewrite ltoa_pos, string_of_uint_length.
  pose proof (numeral_digits p) as Hd.
  destruct (Nat.le_gt_cases (Decimal.nb_digits (Pos.to_uint p)) 6) as [H | H];
    [exact H | exfalso].
  assert (10 ^ 6 <= 10 ^ Z.of_nat (Decimal.nb_digits (Pos.to_uint p) - 1))
    by (apply Z.pow_le_mono_r; lia).
  lia.
Qed.

Lemma skip_spaces_app (ws s : string) :
  all_space ws = true -> skip_spaces (ws ++ s) = skip_spaces s.
Proof.
  induction ws as [ | c ws IH]; cbn [all_space append skip_spaces]; [reflexivity | ].
  intros H. apply andb_true_iff in H. destruct H as [Hc Hws].
  rewrite Hc. apply IH. exact Hws.
Qed.

(** What [atoi] reads: white space is skipped, then an optional sign and
    the decimal digits are read, and whatever follows the digits is
    ignored. *)
Lemma atoi_number (ws : string) (n : Z) (rest : string) :
  all_space ws = true -> no_digit rest = true ->
  atoi (ws ++ ltoa n ++ rest) = n /\
  (0 <= n -> atoi (ws ++ "+" ++ ltoa n ++ rest) = n).
Proof.
  intros Hws Hr. split.
  - pose proof (atoi_ltoa n rest Hr) as H. unfold atoi in *.
    rewrite (skip_spaces_app ws _ Hws). exact H.
  - intros Hn. unfold atoi. rewrite (skip_spaces_app ws _ Hws).
    cbn [append skip_spaces]. change (isspace "+") with false. cbn match.
    change (Ascii.eqb "+" "-") with false. cbn match.
    change (Ascii.eqb "+" "+") with true. cbn match.
    apply digits_ltoa; assumption.
Qed.

Lemma substring_from_all (a b : string) :
  String.length a = 3%nat -> substring_from 3 (a ++ b) = b.
Proof.
  destruct a as [ | c1 [ | c2 [ | c3 [ | c4 r] ] ] ]; try discriminate. intros _.
  unfold substring_from. cbn [append String.length Nat.sub substring].
  rewrite Nat.sub_0_r. apply substring_all.
Qed.

Lemma c_str_numeral (u : Decimal.uint) (r : string) :
  c_str (NilEmpty.string_of_uint u ++ r) = (NilEmpty.string_of_uint u ++ c_str r)%string.
Proof.
  induction u; cbn [NilEmpty.string_of_uint append c_str];
    try reflexivity; rewrite IHu; reflexivity.
Qed.

Lemma append_assoc_s (a b c : string) : ((a ++ b) ++ c = a ++ b ++ c)%string.
Proof. induction a as [ | x a IH]; cbn [append]; congruence. Qed.

Lemma prefix_append (a b : string) : prefix a (a ++ b) = true.
Proof.
  induction a as [ | c a IH]; cbn [append prefix].
  - destruct b; reflexivity.
  - destruct (ascii_dec c c); [exact IH | congruence].
Qed.

Lemma c_str_space (ws r : string) :
  all_space ws = true -> c_str (ws ++ r) = (ws ++ c_str r)%string.
Proof.
  induction ws as [ | c ws IH]; cbn [all_space append c_str]; [reflexivity | ].
  intros H. apply andb_true_iff in H. destruct H as [Hc Hws].
  destruct (Ascii.eqb_spec c zero) as [-> | _]; [discriminate Hc | ].
  rewrite IH by exact Hws. reflexivity.
Qed.

Lemma c_str_ltoa (n : Z) (r : string) :
  c_str (ltoa n ++ r) = (ltoa n ++ c_str r)%string.
Proof.
  destruct n as [ | p | p].
  - reflexivity.
  - rewrite ltoa_pos. apply c_str_numeral.
  - rewrite ltoa_neg. cbn [append c_str]. change (Ascii.eqb "-" zero) with false.
    cbn match. rewrite c_str_numeral. reflexivity.
Qed.

Lemma no_digit_cut (rest : string) (k : nat) :
  no_digit rest = true -> no_digit (c_str (substring 0 k rest)) = true.
Proof.
  destruct rest as [ | c r]; destruct k as [ | k]; cbn [substring c_str no_digit];
    try reflexivity.
  intros H. destruct (Ascii.eqb c zero); [reflexivity | exact H].
Qed.

(** The copy of a command whose number ends within the nine bytes kept:
    the text up to the number is kept, and what follows it starts with a
    digit only if it did. *)
Lemma payloadCopy_number (cmd pre rest : string) (n : Z) :
  cmd = CMD_MOVE_ABS \/ cmd = CMD_MOVE_REL ->
  (forall r, c_str (pre ++ r) = (pre ++ c_str r)%string) ->
  (String.length pre + String.length (ltoa n) <= 6)%nat ->
  no_digit rest = true ->
  exists rest', no_digit rest' = true /\
    payloadCopy (cmd ++ pre ++ ltoa n ++ rest)
    = (cmd ++ pre ++ ltoa n ++ rest')%string.
Proof.
  intros Hcmd Hpre Hlen Hrest.
  set (k := Nat.min (String.length rest)
              (6 - String.length pre - String.length (ltoa n))).
  exists (c_str (substring 0 k rest)). split; [apply no_digit_cut; exact Hrest | ].
  assert (H3 : String.length cmd = 3%nat) by (destruct Hcmd as [-> | ->]; reflexivity).
  assert (Hc : forall r, c_str (cmd ++ r) = (cmd ++ c_str r)%string)
    by (intros r; destruct Hcmd as [-> | ->]; reflexivity).
  unfold payloadCopy. rewrite !append_length.
  replace (Nat.min (String.length cmd + (String.length pre
             + (String.length (ltoa n) + String.length rest))) 9)
    with (String.length cmd + (String.length pre + (String.length (ltoa n) + k)))%nat
    by lia.
  rewrite !substring_app, Hc, Hpre, c_str_ltoa. reflexivity.
Qed.

(** X10. The number of a command. For a payload made of [mva] or [mvr],
    optional white space, a number as [ltoa] writes it (with its minus sign
    if negative) and any text that does not start with a digit, the
    interpreter takes the command and reads exactly that number, provided
    the white space and the number fit the six bytes kept after the three
    letters; what follows the number may be cut by the nine-byte copy or
    not. A plus sign before a number that is not negative is accepted as
    well. *)
Theorem command_number_read (cmd ws rest : string) (n : Z) :
  cmd = CMD_MOVE_ABS \/ cmd = CMD_MOVE_REL ->
  all_space ws = true -> no_digit rest = true ->
  (String.length ws + String.length (ltoa n) <= 6)%nat ->
  (startsWith (payloadCopy (cmd ++ ws ++ ltoa n ++ rest)) cmd = true /\
   atoi (substring_from 3 (payloadCopy (cmd ++ ws ++ ltoa n ++ rest))) = n) /\
  (0 <= n -> (String.length ws + String.length (ltoa n) <= 5)%nat ->
   startsWith (payloadCopy (cmd ++ ws ++ "+" ++ ltoa n ++ rest)) cmd = true /\
   atoi (substring_from 3 (payloadCopy (cmd ++ ws ++ "+" ++ ltoa n ++ rest))) = n).
Proof.
  intros Hcmd Hws Hrest Hlen.
  assert (H3 : String.length cmd = 3%nat) by (destruct Hcmd as [-> | ->]; reflexivity).
  split.
  - destruct (payloadCopy_number cmd ws rest n Hcmd
                (fun r => c_str_space ws r Hws) Hlen Hrest) as (rest' & Hr & ->).
    split; [apply prefix_append | ].
    rewrite (substring_from_all _ _ H3).
    exact (proj1 (atoi_number ws n rest' Hws Hr)).
  - intros Hn Hlen5.
    assert (Hpre : forall r, c_str ((ws ++ "+") ++ r) = ((ws ++ "+") ++ c_str r)%string).
    { intros r. rewrite !append_assoc_s, (c_str_space ws _ Hws). reflexivity. }
    assert (Hl : (String.length (ws ++ "+") + String.length (ltoa n) <= 6)%nat)
      by (rewrite append_length; cbn [String.length]; lia).
    destruct (payloadCopy_number cmd (ws ++ "+") rest n Hcmd Hpre Hl Hrest)
      as (rest' & Hr & E).
    rewrite !append_assoc_s in E. rewrite E.
    split; [apply prefix_append | ].
    rewrite (substring_from_all _ _ H3).
    exact (proj2 (atoi_number ws n rest' Hws Hr) Hn).
Qed.

Lemma command_number_read_witness :
  (("mvr"%string = CMD_MOVE_ABS \/ "mvr"%string = CMD_MOVE_REL) /\
   all_space " " = true /\ no_digit ".5" = true /\
   (String.length " " + String.length (ltoa (-42)) <= 6)%nat) /\
  atoi (substring_from 3 (payloadCopy "mvr -42.5")) = -42.
Proof.
  assert (Hc : "mvr"%string = CMD_MOVE_ABS \/ "mvr"%string = CMD_MOVE_REL)
    by (right; reflexivity).
  assert (Hl : (String.length " " + String.length (ltoa (-42)) <= 6)%nat)
    by (cbn; lia).
  split; [exact (conj Hc (conj eq_refl (conj eq_refl Hl))) | ].
  exact (proj2 (proj1 (command_number_read "mvr" " " ".5" (-42) Hc
                         eq_refl eq_refl Hl))).
Defined.

(** X11. The position in a status message is read back by the command
    interpreter: [atoi] of the message is the position in whole seconds,
    with or without the dot of the manual override, and the message put
    after [mva] is the command that moves to that position; this for
    positions below a million seconds, whose six digits fit the nine bytes
    the interpreter keeps. *)
Theorem status_echo (p : Z) (manual : bool) :
  0 <= p < 10 ^ 9 ->
  atoi (mqttMsg p manual) = Z.quot p 1000 /\
  startsWith (payloadCopy (CMD_MOVE_ABS ++ mqttMsg p manual)) CMD_MOVE_ABS = true /\
  atoi (substring_from 3 (payloadCopy (CMD_MOVE_ABS ++ mqttMsg p manual)))
  = Z.quot p 1000.
Proof.
  intros Hp. unfold mqttMsg.
  set (k := Z.quot p 1000).
  assert (Hk : 0 <= k < 10 ^ 6).
  { subst k. rewrite Z.quot_div_nonneg by lia. split.
    - apply Z.div_pos; lia.
    - apply Z.div_lt_upper_bound; lia. }
  pose proof (ltoa_length k Hk) as Hlen.
  set (dot := if manual then "."%string else EmptyString).
  assert (Hdot : dot = "."%string \/ dot = EmptyString)
    by (subst dot; destruct manual; auto).
  split.
  - apply atoi_ltoa. destruct Hdot as [-> | ->]; reflexivity.
  - assert (Hcopy : exists rest, no_digit rest = true /\
              payloadCopy (CMD_MOVE_ABS ++ (ltoa k ++ dot))
              = (CMD_MOVE_ABS ++ (ltoa k ++ rest))%string).
    { destruct (ltoa_nonneg k ltac:(lia)) as (u & _ & Hu).
      unfold payloadCopy, CMD_MOVE_ABS.
      cbn [append String.length].
      rewrite append_length.
      destruct Hdot as [-> | ->]; cbn [String.length].
      - destruct (Nat.eq_dec (String.length (ltoa k)) 6) as [E6 | N6].
        + exists EmptyString. split; [reflexivity | ].
          replace (Nat.min (S (S (S (String.length (ltoa k) + 1)))) 9)
            with (3 + (String.length (ltoa k) + 0))%nat by lia.
          cbn [Nat.add substring]. rewrite substring_app.
          cbn [substring]. rewrite Hu. cbn [c_str Ascii.eqb Bool.eqb].
          rewrite c_str_numeral. reflexivity.
        + exists "."%string. split; [reflexivity | ].
          replace (Nat.min (S (S (S (String.length (ltoa k) + 1)))) 9)
            with (3 + (String.length (ltoa k) + 1))%nat by lia.
          cbn [Nat.add substring]. rewrite substring_app.
          cbn [substring]. rewrite Hu. cbn [c_str Ascii.eqb Bool.eqb].
          rewrite c_str_numeral. reflexivity.
      - exists EmptyString. split; [reflexivity | ].
        replace (Nat.min (S (S (S (String.length (ltoa k) + 0)))) 9)
          with (3 + (String.length (ltoa k) + 0))%nat by lia.
        cbn [Nat.add substring]. rewrite substring_app.
        cbn [substring]. rewrite Hu. cbn [c_str Ascii.eqb Bool.eqb].
        rewrite c_str_numeral. reflexivity. }
    destruct Hcopy as (rest & Hrest & ->).
    split.
    { unfold startsWith, CMD_MOVE_ABS. cbn [append prefix].
      repeat (destruct (ascii_dec _ _); [ | congruence]).
      destruct (ltoa k ++ rest)%string; reflexivity. }
    rewrite substring_from_all by reflexivity.
    apply atoi_ltoa. exact Hrest.
Qed.

Lemma status_echo_witness :
  0 <= 29700 < 10 ^ 9 /\
  mqttMsg 29700 true = "29."%string /\
  atoi (substring_from 3 (payloadCopy (CMD_MOVE_ABS ++ mqttMsg 29700 true))) = 29.
Proof.
  assert (H : 0 <= 29700 < 10 ^ 9) by lia.
  split; [exact H | split; [reflexivity | ] ].
  exact (proj2 (proj2 (status_echo 29700 true H))).
Defined.

(** * Command interpreter: the moves commanded *)

(** X12. A move-relative command with number [k], received without
    override. It first stops the movement in progress, whatever [k] is:
    then nothing moves, both relays are low and the position is the one the
    stop has stored. With [k] = 0 that is all it does. Otherwise it
    energizes the relay toward the maximum ([k] positive) or toward zero
    ([k] negative), stamps the movement with the clock reading of the
    command and gives it [|k|] seconds as time-out, wherever the blind is:
    at an end stop too. *)
Theorem relative_move (cfg : Config) (e0 : Env) (l : list Step)
    (e : Env) (payload : string) :
  wf_config cfg ->
  manualMode (run cfg e0 l) = false ->
  startsWith (payloadCopy payload) CMD_MOVE_REL = true ->
  let s := run cfg e0 l in
  let k := atoi (substring_from 3 (payloadCopy payload)) in
  let s0 := stopped_first cfg e s in
  let s' := exec (mqttCallback cfg payload) e s in
  (movementProgress s0 = false /\ relays (out s0) = (false, false) /\
   0 <= blindPos s0 <= blindMaxPos cfg /\
   (movementProgress s = false -> s0 = s)) /\
  (k = 0 -> s' = s0) /\
  (blindPos s0 + k * 1000 <= LONG_MAX ->
   (0 < k ->
    movementProgress s' = true /\ movementTimeout s' = k * 1000 /\
    movementStartTime s' = command_clock e s /\
    relays (out s') = toward_max_levels cfg /\ blindPos s' = blindPos s0) /\
   (k < 0 ->
    movementProgress s' = true /\ movementTimeout s' = - k * 1000 /\
    movementStartTime s' = command_clock e s /\
    relays (out s') = toward_zero_levels cfg /\ blindPos s' = blindPos s0)).
Proof.
  intros Hcfg Hm Hmvr. cbv zeta.
  destruct (pos_run cfg Hcfg e0 l) as [[Hr Hl] _].
  pose proof (coh_run cfg e0 l) as Hcoh.
  set (s := run cfg e0 l) in *. clearbody s.
  pose proof (command_number_bound payload) as Hb.
  destruct (stopped_first_result cfg e s Hcfg Hm Hr Hl)
    as ((Hma & Hpa & Hra & Hla & Hsa) & Hrel & _).
  rewrite (move_rel_parts cfg e payload s Hcfg Hm Hr Hl Hmvr).
  set (k := atoi (substring_from 3 (payloadCopy payload))) in *.
  set (s0 := stopped_first cfg e s) in *.
  set (n1 := (if movementProgress s && negb (manualMode s) then 1 else 0)%nat).
  unfold LONG_MAX in *.
  rewrite (to_long_small (k * 1000)) by lia.
  split; [ | split].
  - split; [exact Hpa | split; [exact (Hrel Hcoh) | split; [exact Hra | exact Hsa] ] ].
  - intros Hk. rewrite Hk. change (0 * 1000) with 0. rewrite Z.add_0_r.
    destruct (autoMove_result cfg e n1 s0 (to_long (blindPos s0)) Hma Hpa)
      as (Hstay & _ & _).
    rewrite (to_long_small (blindPos s0)) in * by lia.
    rewrite Z.sub_diag in Hstay. exact (Hstay eq_refl).
  - intros Hlong.
    rewrite (to_long_small (blindPos s0 + k * 1000)) by lia.
    destruct (autoMove_result cfg e n1 s0 (blindPos s0 + k * 1000) Hma Hpa)
      as (_ & Hup & Hdown).
    replace (blindPos s0 + k * 1000 - blindPos s0) with (k * 1000) in * by lia.
    rewrite (to_long_small (k * 1000)) in * by lia.
    unfold toward_max_levels, toward_zero_levels, command_clock. fold n1.
    split; intros Hk.
    + destruct (Hup ltac:(lia)) as (G1 & G2 & G3 & G4 & G5 & G6 & G7).
      rewrite G1, G3, G4, G5, G7. destruct (blindInvertZero cfg); repeat split.
    + destruct (Hdown ltac:(lia)) as (G1 & G2 & G3 & G4 & G5 & G6 & G7).
      rewrite G1, G3, G4, G5, G7. destruct (blindInvertZero cfg); repeat split; lia.
Qed.

Lemma relative_move_witness :
  let l := [Mqtt (quiet 100) "mva60"; Movement (quiet 60100);
            Mqtt (quiet 65000) "mva30"] in
  let s := run default_config (quiet 0) l in
  let s' := exec (mqttCallback default_config "mvr5") (quiet 70000) s in
  (wf_config default_config /\ manualMode s = false /\
   startsWith (payloadCopy "mvr5") CMD_MOVE_REL = true) /\
  movementProgress s = true /\ relays (out s) = (true, false) /\
  blindPos (stopped_first default_config (quiet 70000) s) = 55000 /\
  movementStartTime s' = 70000 /\ movementTimeout s' = 5000 /\
  relays (out s') = (false, true) /\ blindPos s' = 55000.
Proof.
  cbv zeta.
  assert (H1 : wf_config default_config) by (unfold wf_config; cbn; lia).
  pose proof (relative_move default_config (quiet 0)
                [Mqtt (quiet 100) "mva60"; Movement (quiet 60100);
                 Mqtt (quiet 65000) "mva30"]
                (quiet 70000) "mvr5" H1 eq_refl eq_refl) as H.
  cbv zeta in H. destruct H as (_ & _ & H).
  assert (Hlong : blindPos (stopped_first default_config (quiet 70000)
                              (run default_config (quiet 0)
                                 [Mqtt (quiet 100) "mva60"; Movement (quiet 60100);
                                  Mqtt (quiet 65000) "mva30"]))
                  + atoi (substring_from 3 (payloadCopy "mvr5")) * 1000 <= LONG_MAX)
    by (vm_compute; discriminate).
  destruct (H Hlong) as [Hup _].
  assert (Hk : 0 < atoi (substring_from 3 (payloadCopy "mvr5")))
    by (vm_compute; reflexivity).
  destruct (Hup Hk) as (_ & Ht & Hs & Hr & Hp).
  split; [exact (conj H1 (conj eq_refl eq_refl)) | ].
  split; [reflexivity | split; [reflexivity | split; [reflexivity | ] ] ].
  split; [exact Hs | split; [exact Ht | split; [exact Hr | ] ] ].
  rewrite Hp. reflexivity.
Defined.

(** X13. A move-absolute command received by an idle controller without
    override does nothing when its target (a thousand times its number) is
    the position; otherwise it energizes the relay toward the target with
    the distance as time-out, whether or not the target is within
    [0, blindMaxPos]. *)
Theorem absolute_move (cfg : Config) (e0 : Env) (l : list Step)
    (e : Env) (payload : string) :
  wf_config cfg ->
  manualMode (run cfg e0 l) = false -> movementProgress (run cfg e0 l) = false ->
  startsWith (payloadCopy payload) CMD_MOVE_ABS = true ->
  let s := run cfg e0 l in
  let target := atoi (substring_from 3 (payloadCopy payload)) * 1000 in
  let s' := exec (mqttCallback cfg payload) e s in
  let toward_max := if blindInvertZero cfg then (true, false) else (false, true) in
  let toward_0 := if blindInvertZero cfg then (false, true) else (true, false) in
  - 2 ^ 31 < target - blindPos s ->
  (target = blindPos s -> s' = s) /\
  (blindPos s < target ->
   movementProgress s' = true /\ movementTimeout s' = target - blindPos s /\
   relays (out s') = toward_max /\ blindPos s' = blindPos s) /\
  (target < blindPos s ->
   movementProgress s' = true /\ movementTimeout s' = blindPos s - target /\
   relays (out s') = toward_0 /\ blindPos s' = blindPos s).
Proof.
  intros Hcfg Hm Hidle Hmva. cbv zeta.
  destruct (pos_run cfg Hcfg e0 l) as [[Hr Hl] _].
  set (s := run cfg e0 l) in *. clearbody s.
  pose proof (command_number_bound payload) as Hb.
  set (k := atoi (substring_from 3 (payloadCopy payload))) in *.
  intros Hlow.
  destruct (move_abs_steps cfg e payload s Hcfg Hm Hr Hl Hmva)
    as (n1 & sa & (Hma & Hpa & Hra & Hla & Hsa) & E).
  fold k in E. unfold LONG_MAX in *. rewrite (Hsa Hidle) in *. clear Hsa.
  rewrite (to_long_small (k * 1000)) in E by lia.
  destruct (autoMove_result cfg e n1 s (k * 1000) Hma Hpa) as (Hstay & Hup & Hdown).
  rewrite (to_long_small (k * 1000 - blindPos s)) in * by lia.
  rewrite E. split; [ | split]; intros Hk.
  - apply Hstay. lia.
  - destruct (Hup ltac:(lia)) as (G1 & G2 & G3 & G4 & G5 & G6 & G7).
    rewrite G1, G3, G5, G7. destruct (blindInvertZero cfg); repeat split.
  - destruct (Hdown ltac:(lia)) as (G1 & G2 & G3 & G4 & G5 & G6 & G7).
    rewrite G1, G3, G5, G7. destruct (blindInvertZero cfg); repeat split; lia.
Qed.

Lemma absolute_move_witness :
  let l := [Mqtt (quiet 100) "mva30"; Movement (quiet 30100)] in
  let s := run default_config (quiet 0) l in
  let s' := exec (mqttCallback default_config "mva-60") (quiet 40000) s in
  (wf_config default_config /\ manualMode s = false /\ movementProgress s = false /\
   startsWith (payloadCopy "mva-60") CMD_MOVE_ABS = true /\
   - 2 ^ 31 < atoi (substring_from 3 (payloadCopy "mva-60")) * 1000 - blindPos s) /\
  blindPos s = 30000 /\
  movementTimeout s' = 90000 /\ relays (out s') = (true, false).
Proof.
  cbv zeta.
  assert (H1 : wf_config default_config) by (unfold wf_config; cbn; lia).
  assert (H5 : - 2 ^ 31 < atoi (substring_from 3 (payloadCopy "mva-60")) * 1000
               - blindPos (run default_config (quiet 0)
                             [Mqtt (quiet 100) "mva30"; Movement (quiet 30100)]))
    by (vm_compute; reflexivity).
  pose proof (absolute_move default_config (quiet 0)
                [Mqtt (quiet 100) "mva30"; Movement (quiet 30100)]
                (quiet 40000) "mva-60" H1 eq_refl eq_refl eq_refl H5) as H.
  cbv zeta in H. destruct H as (_ & _ & Hdown).
  assert (Hk : atoi (substring_from 3 (payloadCopy "mva-60")) * 1000
               < blindPos (run default_config (quiet 0)
                             [Mqtt (quiet 100) "mva30"; Movement (quiet 30100)]))
    by (vm_compute; reflexivity).
  destruct (Hdown Hk) as (_ & Ht & Hr & _).
  split; [exact (conj H1 (conj eq_refl (conj eq_refl (conj eq_refl H5)))) | ].
  split; [reflexivity | split; [exact Ht | exact Hr] ].
Defined.

(** * Status publisher: silence without the link *)

Lemma silent_ret {A} (a : A) : silent (ret a).
Proof. intros e n s _. reflexivity. Qed.

Lemma silent_bind {A B} (m : M A) (f : A -> M B) :
  silent m -> (forall a, silent (f a)) -> silent (bind m f).
Proof.
  intros Hm Hf e n s He. unfold bind.
  specialize (Hm e n s He).
  destruct (m e (n, s)) as [a [n' s']]. cbn [snd] in Hm.
  rewrite (Hf a e n' s' He). exact Hm.
Qed.

Lemma silent_get : silent get.
Proof. intros e n s _. reflexivity. Qed.

Lemma silent_ask : silent ask.
Proof. intros e n s _. reflexivity. Qed.

Lemma silent_millis : silent millis.
Proof. intros e n s _. reflexivity. Qed.

Lemma silent_when (b : bool) (m : M unit) : silent m -> silent (when b m).
Proof. intros H. destruct b; [exact H | apply silent_ret]. Qed.

Lemma silent_modify (f : State -> State) :
  (forall s, publishes (out (f s)) = publishes (out s)) -> silent (modify f).
Proof. intros H e n s _. apply H. Qed.

(** The one place where a message is handed to the broker. *)
Lemma silent_mqttCommunicate : silent mqttCommunicate.
Proof.
  intros e n s He. unfold mqttCommunicate, when. munfold. rewrite He. reflexivity.
Qed.

Ltac silent_step :=
  first
    [ apply silent_ret | apply silent_get | apply silent_ask | apply silent_millis
    | apply silent_mqttCommunicate
    | apply silent_when
    | match goal with
      | |- silent (if ?b then _ else _) => destruct b
      | |- silent (let _ := _ in _) => cbv zeta
      end
    | solve [eauto with dorfl]
    | apply silent_bind; [ | intro ]
    | apply silent_modify; intro; reflexivity ].

Ltac silent_auto := repeat silent_step.

Section Silence.

Variable cfg : Config.

Lemma silent_updateBlindPos : silent (updateBlindPos cfg).
Proof. unfold updateBlindPos. silent_auto. Qed.
Hint Resolve silent_updateBlindPos : dorfl.

Lemma silent_stopL1 : silent (stopL1 cfg).
Proof. unfold stopL1, digitalWrite. silent_auto. Qed.

Lemma silent_stopL2 : silent (stopL2 cfg).
Proof. unfold stopL2, digitalWrite. silent_auto. Qed.
Hint Resolve silent_stopL1 silent_stopL2 : dorfl.

Lemma silent_startL1 t : silent (startL1 cfg t).
Proof. unfold startL1, digitalWrite. silent_auto. Qed.

Lemma silent_startL2 t : silent (startL2 cfg t).
Proof. unfold startL2, digitalWrite. silent_auto. Qed.
Hint Resolve silent_startL1 silent_startL2 : dorfl.

Lemma silent_startWifiManager b : silent (startWifiManager b).
Proof.
  unfold startWifiManager, wifiManagerSetupStarted. destruct b; silent_auto.
Qed.
Hint Resolve silent_startWifiManager : dorfl.



End Silence.

(** * MQTT link: the back-off of [mqttReconnect] *)

Ltac dev :=
  cbn [core settings offline restart mqttConnectAttempt mqttConnectDelay
       configFile net overrun set_core set_settings set_offline set_restart
       set_mqttConnectAttempt set_mqttConnectDelay set_configFile set_overrun
       note fst snd].

(** [mqttReconnect], with the record written out. *)
Lemma reconnect_unfold (w : World) (d : Device) :
  mqttReconnect w d =
  if negb (connected w) && (mqttConnectDelay d <? sinceAttempt w d) then
    let delay := if 60000 <? to_ulong (mqttConnectDelay d + 1000)
                 then 60000 else to_ulong (mqttConnectDelay d + 1000) in
    let attempt := to_ulong (link_millis w 1%nat) in
    let t := Connect (mqttClientName (settings d)) (mqttUser (settings d))
               (mqttPassword (settings d)) :: net d in
    if connectOk w
    then (true, mkDevice (core d) (settings d) (offline d) (restart d) attempt 0
                  (configFile d) (Subscribe (mqttInTopic (settings d)) :: t)
                  (overrun d))
    else (false, mkDevice (core d) (settings d) (offline d) (restart d) attempt
                   delay (configFile d) t (overrun d))
  else (false, d).
Proof.
  unfold mqttReconnect, sinceAttempt.
  destruct (connected w); cbn [negb andb]; [reflexivity | ].
  destruct (_ <? _); [ | reflexivity]. dev.
  destruct (60000 <? _); destruct (connectOk w); reflexivity.
Qed.

Lemma reconnect_delay (w : World) (d : Device) :
  0 <= mqttConnectDelay d <= 60000 ->
  0 <= mqttConnectDelay (snd (mqttReconnect w d)) <= 60000.
Proof.
  intros H. rewrite reconnect_unfold. cbv zeta.
  destruct (_ && _); [ | exact H].
  destruct (connectOk w); dev; [lia | ].
  rewrite to_ulong_small by lia.
  destruct (Z.ltb_spec 60000 (mqttConnectDelay d + 1000)); lia.
Qed.

Lemma failed_attempt_delay (w : World) (d : Device) :
  0 <= mqttConnectDelay d <= 60000 ->
  connected w = false -> mqttConnectDelay d < sinceAttempt w d ->
  connectOk w = false ->
  mqttConnectDelay (snd (mqttReconnect w d))
  = Z.min 60000 (mqttConnectDelay d + 1000) /\
  net (snd (mqttReconnect w d))
  = Connect (mqttClientName (settings d)) (mqttUser (settings d))
      (mqttPassword (settings d)) :: net d.
Proof.
  intros H Hc Hd Hk. rewrite reconnect_unfold. cbv zeta.
  apply Z.ltb_lt in Hd. rewrite Hc, Hd, Hk. cbn [negb andb]. dev.
  rewrite to_ulong_small by lia.
  destruct (Z.ltb_spec 60000 (mqttConnectDelay d + 1000)); split;
    try reflexivity; lia.
Qed.

(** X14. The delay between attempts to connect to the broker stays within
    [0, 60000] ms through any calls of [mqttReconnect]. A run of [n]
    attempts that fail, each made once the delay has passed, lengthens it by
    a second each, up to a minute: from [D] to [min(60000, D + 1000 n)]; and
    the call that connects sets it back to 0. *)
Theorem reconnect_backoff (l : list World) (d : Device) :
  0 <= mqttConnectDelay d <= 60000 ->
  0 <= mqttConnectDelay (reconnects l d) <= 60000 /\
  (failed_attempts l d ->
   mqttConnectDelay (reconnects l d)
   = Z.min 60000 (mqttConnectDelay d + 1000 * Z.of_nat (List.length l)) /\
   connects (net (reconnects l d)) = (List.length l + connects (net d))%nat) /\
  (forall w, fst (mqttReconnect w (reconnects l d)) = true ->
             mqttConnectDelay (snd (mqttReconnect w (reconnects l d))) = 0).
Proof.
  unfold reconnects. revert d.
  induction l as [ | w l IH]; intros d H; cbn [fold_left List.length].
  - split; [exact H | split].
    + intros _. cbn [Z.of_nat Nat.add]. split; [lia | reflexivity].
    + intros w. rewrite reconnect_unfold. cbv zeta.
      destruct (_ && _); [ | discriminate].
      destruct (connectOk w); [ | discriminate]. reflexivity.
  - pose proof (reconnect_delay w d H) as H'.
    destruct (IH _ H') as (I1 & I2 & I3).
    split; [exact I1 | split; [ | exact I3] ].
    cbn [failed_attempts]. intros (Hc & Hd & Hk & Hl).
    destruct (failed_attempt_delay w d H Hc Hd Hk) as [E N].
    destruct (I2 Hl) as [I21 I22]. rewrite I21, I22, E, N.
    cbn [connects]. split; lia.
Qed.

Lemma reconnect_backoff_witness :
  let d := setup_device (quiet 0) "Dorfl-1a2b3c" None in
  let l := [refused 100; refused 1200; refused 3300] in
  (0 <= mqttConnectDelay d <= 60000 /\ failed_attempts l d) /\
  mqttConnectDelay (reconnects l d) = 3000 /\
  connects (net (reconnects l d)) = 3%nat.
Proof.
  cbv zeta.
  assert (H1 : 0 <= mqttConnectDelay (setup_device (quiet 0) "Dorfl-1a2b3c" None)
               <= 60000) by (vm_compute; split; discriminate).
  assert (H2 : failed_attempts [refused 100; refused 1200; refused 3300]
                 (setup_device (quiet 0) "Dorfl-1a2b3c" None))
    by (vm_compute; repeat split).
  destruct (reconnect_backoff [refused 100; refused 1200; refused 3300]
              (setup_device (quiet 0) "Dorfl-1a2b3c" None) H1) as (_ & H & _).
  destruct (H H2) as [Hd Hn].
  split; [exact (conj H1 H2) | split; [exact Hd | exact Hn] ].
Defined.

(** * The device: the main loop *)

Lemma drive_outside st d : outside_core (drive st d) = outside_core d.
Proof. reflexivity. Qed.

Lemma callbacks_outside (l : list (Env * string)) :
  forall d,
  outside_core (fold_left (fun d m => drive (Mqtt (online d (fst m)) (snd m)) d) l d)
  = outside_core d.
Proof.
  induction l as [ | m l IH]; intros d; cbn [fold_left]; [reflexivity | ].
  rewrite IH. apply drive_outside.
Qed.

(** An invariant of the core under the settings in force is kept by the
    callbacks of [mqttClient.loop()]. *)
Lemma callbacks_core (P : State -> Prop) (cfg : Config) (l : list (Env * string)) :
  (forall s st, P s -> P (step cfg s st)) ->
  forall d, blind (settings d) = cfg -> P (core d) ->
  P (core (fold_left (fun d m => drive (Mqtt (online d (fst m)) (snd m)) d) l d)).
Proof.
  intros Hstep. induction l as [ | m l IH]; intros d Hcfg H; cbn [fold_left];
    [exact H | ].
  apply IH; [exact Hcfg | ].
  unfold drive. dev. rewrite Hcfg. apply Hstep. exact H.
Qed.

Lemma reconnect_core w d : core (snd (mqttReconnect w d)) = core d.
Proof.
  rewrite reconnect_unfold. cbv zeta.
  destruct (_ && _); [ | reflexivity]. destruct (connectOk w); reflexivity.
Qed.

Lemma reconnect_static w d :
  settings (snd (mqttReconnect w d)) = settings d /\
  restart (snd (mqttReconnect w d)) = restart d /\
  offline (snd (mqttReconnect w d)) = offline d /\
  configFile (snd (mqttReconnect w d)) = configFile d /\
  overrun (snd (mqttReconnect w d)) = overrun d.
Proof.
  rewrite reconnect_unfold. cbv zeta.
  destruct (_ && _); [ | repeat split]. destruct (connectOk w); repeat split.
Qed.

Lemma clientLoop_static w d :
  settings (clientLoop w d) = settings d /\
  restart (clientLoop w d) = restart d /\
  offline (clientLoop w d) = offline d /\
  configFile (clientLoop w d) = configFile d /\
  mqttConnectDelay (clientLoop w d) = mqttConnectDelay d /\
  mqttConnectAttempt (clientLoop w d) = mqttConnectAttempt d /\
  overrun (clientLoop w d) = overrun d.
Proof.
  unfold clientLoop.
  pose proof (callbacks_outside (inbound w) (note ClientLoop d)) as H.
  unfold outside_core in H. injection H as -> -> -> -> -> -> _ ->. repeat split.
Qed.

Lemma mqttLoop_static w d :
  settings (mqttLoop w d) = settings d /\
  restart (mqttLoop w d) = restart d /\
  offline (mqttLoop w d) = offline d /\
  configFile (mqttLoop w d) = configFile d /\
  overrun (mqttLoop w d) = overrun d.
Proof.
  unfold mqttLoop.
  destruct (clientLoop_static w d) as (C1 & C2 & C3 & C4 & _ & _ & C7).
  destruct (connected w); cbn [negb]; [repeat split; assumption | ].
  destruct (reconnect_static w d) as (R1 & R2 & R3 & R4 & R5).
  destruct (mqttReconnect w d) as [ok d'] eqn:E. cbn [snd] in *.
  destruct ok; cbn [negb]; [ | repeat split; assumption].
  destruct (clientLoop_static w d') as (D1 & D2 & D3 & D4 & _ & _ & D7).
  rewrite D1, D2, D3, D4, D7. repeat split; assumption.
Qed.

Lemma mqttLoop_core (P : State -> Prop) (cfg : Config) w d :
  (forall s st, P s -> P (step cfg s st)) ->
  blind (settings d) = cfg -> P (core d) -> P (core (mqttLoop w d)).
Proof.
  intros Hstep Hcfg H. unfold mqttLoop.
  assert (Hc : forall d', settings d' = settings d -> core d' = core d ->
                          P (core (clientLoop w d'))).
  { intros d' Hs Hk. unfold clientLoop.
    apply (callbacks_core P cfg); [exact Hstep | | ].
    - dev. rewrite Hs. exact Hcfg.
    - dev. rewrite Hk. exact H. }
  destruct (connected w); cbn [negb]; [apply Hc; reflexivity | ].
  pose proof (reconnect_core w d) as Rk.
  destruct (reconnect_static w d) as (R1 & _).
  destruct (mqttReconnect w d) as [ok d'] eqn:E. cbn [snd] in *.
  destruct ok; cbn [negb]; [apply Hc; assumption | rewrite Rk; exact H].
Qed.

Lemma mqttLoop_delay w d :
  0 <= mqttConnectDelay d <= 60000 ->
  0 <= mqttConnectDelay (mqttLoop w d) <= 60000.
Proof.
  intros H. unfold mqttLoop.
  destruct (clientLoop_static w d) as (_ & _ & _ & _ & C5 & _).
  destruct (connected w); cbn [negb]; [rewrite C5; exact H | ].
  pose proof (reconnect_delay w d H) as R.
  destruct (mqttReconnect w d) as [ok d'] eqn:E. cbn [snd] in *.
  destruct ok; cbn [negb]; [ | exact R].
  destruct (clientLoop_static w d') as (_ & _ & _ & _ & D5 & _).
  rewrite D5. exact R.
Qed.

Ltac wm_cases w d :=
  unfold wifimanagerLoop, saveParamsCallback, wifiManagerSetupStopped;
  destruct (saved w) as [ [? [ | ] ] | ]; try destruct (params_fit _); dev;
  destruct (wifiManagerSetupRunning (core d)); dev;
  try destruct (_ <? _); dev;
  destruct (wifiConnected w); dev; try destruct (offline d); dev.

Lemma wifimanagerLoop_core w d : core (wifimanagerLoop w d) = core d.
Proof. wm_cases w d; reflexivity. Qed.

Lemma wifimanagerLoop_delay w d :
  mqttConnectDelay (wifimanagerLoop w d) = mqttConnectDelay d /\
  mqttConnectAttempt (wifimanagerLoop w d) = mqttConnectAttempt d.
Proof. wm_cases w d; split; reflexivity. Qed.

(** Without a save and without a time-out, [wifimanagerLoop] leaves the
    settings and the restart flag alone. *)
Lemma wifimanagerLoop_quiet w d :
  restart (wifimanagerLoop w d) = false ->
  restart d = false /\ settings (wifimanagerLoop w d) = settings d /\
  configFile (wifimanagerLoop w d) = configFile d.
Proof.
  wm_cases w d; intros H; try discriminate H; repeat split; assumption.
Qed.

Lemma max_pos_of_range (v : string) : 0 <= max_pos_of v < 2 ^ 32.
Proof. unfold max_pos_of, to_ulong. apply Z.mod_pos_bound. lia. Qed.

Lemma load_settings_wf json st :
  wf_config (blind st) -> wf_config (blind (load_settings json st)).
Proof.
  intros H. unfold load_settings, wf_config. cbn [blind blindMaxPos].
  destruct (json_text "blind_max_pos" json); [apply max_pos_of_range | exact H].
Qed.

Lemma boot_settings_wf apName file : wf_config (blind (boot_settings apName file)).
Proof.
  unfold boot_settings.
  assert (H : wf_config default_config) by (unfold wf_config; cbn; lia).
  destruct (boot_fits apName file); [ | exact H].
  destruct file; [apply load_settings_wf | ]; exact H.
Qed.

Lemma wifimanagerLoop_wf w d :
  wf_config (blind (settings d)) ->
  wf_config (blind (settings (wifimanagerLoop w d))).
Proof.
  intros H.
  assert (Hs : settings (wifimanagerLoop w d) = settings d \/
               exists p, settings (wifimanagerLoop w d) = read_params p)
    by (wm_cases w d; first [left; reflexivity | right; eexists; reflexivity]).
  destruct Hs as [-> | [p ->] ]; [exact H | ].
  unfold wf_config, read_params. cbn [blind blindMaxPos]. apply max_pos_of_range.
Qed.

Lemma core_safe_step cfg s st : core_safe s -> core_safe (step cfg s st).
Proof.
  intros [H1 H2]. split.
  - apply (relay_step cfg s st). split; [exact H1 | exact I].
  - apply coh_step. exact H2.
Qed.

(** The end of [loop] changes no global. *)
Lemma loop_tail (d d5 d6 : Device) :
  d5 = (if negb (movementProgress (core d))
        then note (Delay LOOP_DELAY_MS) d else d) ->
  d6 = (if restart d5 then note EspRestart d5 else d5) ->
  restart d6 = restart d /\ settings d6 = settings d /\ core d6 = core d /\
  mqttConnectDelay d6 = mqttConnectDelay d /\
  mqttConnectAttempt d6 = mqttConnectAttempt d /\
  configFile d6 = configFile d /\ offline d6 = offline d /\
  connects (net d6) = connects (net d).
Proof.
  intros -> ->. destruct (movementProgress (core d)) eqn:Hm; cbn [negb]; dev;
    destruct (restart d) eqn:Hr; dev; rewrite ?Hr; repeat split; reflexivity.
Qed.

Lemma loop_safe w d : device_safe d -> device_safe (loop w d).
Proof.
  intros (H1 & H2 & H3 & H4). unfold loop.
  set (d1 := drive (Gpio (online d (gpio_env w))) d).
  set (d2 := drive (Movement (online d1 (movement_env w))) d1).
  set (d3 := wifimanagerLoop w d2).
  assert (S2 : core_safe (core d2))
    by (subst d2 d1; unfold drive; dev; repeat apply core_safe_step; split; assumption).
  assert (S3 : core_safe (core d3)) by (subst d3; rewrite wifimanagerLoop_core; exact S2).
  assert (W3 : wf_config (blind (settings d3)))
    by (subst d3; apply wifimanagerLoop_wf; exact H4).
  assert (D3 : 0 <= mqttConnectDelay d3 <= 60000)
    by (subst d3; rewrite (proj1 (wifimanagerLoop_delay w d2)); exact H3).
  set (d4 := if negb (offline d3) then mqttLoop w d3 else d3).
  assert (S4 : device_safe d4).
  { subst d4. destruct (offline d3); cbn [negb].
    - destruct S3 as [K1 K2]. exact (conj K1 (conj K2 (conj D3 W3))).
    - pose proof (mqttLoop_core core_safe (blind (settings d3)) w d3
                    (core_safe_step _) eq_refl S3) as [K1 K2].
      destruct (mqttLoop_static w d3) as (M1 & _).
      split; [exact K1 | split; [exact K2 | split ] ].
      + apply mqttLoop_delay. exact D3.
      + rewrite M1. exact W3. }
  destruct (loop_tail d4 _ _ eq_refl eq_refl) as (_ & T2 & T3 & T4 & _).
  destruct S4 as (K1 & K2 & K3 & K4).
  unfold device_safe. rewrite T2, T3, T4.
  exact (conj K1 (conj K2 (conj K3 K4))).
Qed.

(** [setup] does not look at the settings: nothing moves yet when it stops
    the relays. So it does not matter that [startWifiManager(false)] loads
    them only at its end. *)
Lemma boot_any_config (cfg cfg' : Config) (e0 : Env) : boot cfg e0 = boot cfg' e0.
Proof. reflexivity. Qed.


Lemma setup_device_ok e0 apName file : device_inv (setup_device e0 apName file).
Proof.
  unfold device_inv, setup_device. dev.
  pose proof (boot_settings_wf apName file) as Hwf.
  set (st := boot_settings apName file) in *.
  set (e := online _ e0).
  change (exec (setup (blind st)) e power_on) with (run (blind st) e []).
  split; [ | split; [ | reflexivity] ].
  - split; [ | split; [ | split] ].
    + apply (relay_run (blind st) e []).
    + apply coh_run.
    + cbn. lia.
    + exact Hwf.
  - apply pos_run. exact Hwf.
Qed.

Lemma loop_position w d :
  wf_config (blind (settings d)) ->
  pos_inv (blind (settings d)) (core d) ->
  restart (loop w d) = false ->
  pos_inv (blind (settings (loop w d))) (core (loop w d)) /\ restart d = false.
Proof.
  intros Hwf Hp. unfold loop.
  set (d1 := drive (Gpio (online d (gpio_env w))) d).
  set (d2 := drive (Movement (online d1 (movement_env w))) d1).
  set (d3 := wifimanagerLoop w d2).
  set (d4 := if negb (offline d3) then mqttLoop w d3 else d3).
  intros Hr.
  destruct (loop_tail d4 _ _ eq_refl eq_refl) as (R5 & S5 & C5 & _).
  assert (Hr4 : restart d4 = false) by (rewrite <- R5; exact Hr).
  assert (Hr3 : restart d3 = false).
  { subst d4. destruct (offline d3); cbn [negb] in Hr4; [exact Hr4 | ].
    rewrite (proj1 (proj2 (mqttLoop_static w d3))) in Hr4. exact Hr4. }
  destruct (wifimanagerLoop_quiet w d2 Hr3) as (Hr2 & Hs3 & _).
  fold d3 in Hs3.
  assert (P2 : pos_inv (blind (settings d)) (core d2))
    by (subst d2 d1; unfold drive; dev; repeat apply pos_step; assumption).
  assert (P3 : pos_inv (blind (settings d)) (core d3))
    by (subst d3; rewrite wifimanagerLoop_core; exact P2).
  assert (S3 : settings d3 = settings d) by (rewrite Hs3; reflexivity).
  assert (P4 : pos_inv (blind (settings d)) (core d4) /\ settings d4 = settings d).
  { subst d4. destruct (offline d3); cbn [negb]; [split; assumption | ].
    split.
    - apply (mqttLoop_core (pos_inv (blind (settings d))) (blind (settings d)));
        [intros s st; apply pos_step; exact Hwf | rewrite S3; reflexivity | exact P3].
    - rewrite (proj1 (mqttLoop_static w d3)). exact S3. }
  destruct P4 as [P4 S4].
  split; [ | exact Hr2].
  rewrite S5, C5, S4. exact P4.
Qed.

Lemma iteration_inv apName d we : device_inv d -> device_inv (iteration apName d we).
Proof.
  intros (Hs & Hp & Hr). unfold iteration.
  destruct (restart (loop (fst we) d)) eqn:E.
  - apply setup_device_ok.
  - split; [apply loop_safe; exact Hs | split; [ | exact E] ].
    destruct Hs as (_ & _ & _ & Hwf).
    apply (loop_position (fst we) d Hwf Hp E).
Qed.

Lemma lifetime_inv apName file e0 l : device_inv (lifetime apName file e0 l).
Proof.
  unfold lifetime.
  pose proof (setup_device_ok e0 apName file) as H.
  revert H. generalize (setup_device e0 apName file) as d.
  induction l as [ | we l IH]; intros d H; cbn [fold_left]; [exact H | ].
  apply IH. apply iteration_inv. exact H.
Qed.






(** The document written for settings whose texts fit their buffers can be
    loaded without leaving them. *)
Lemma config_json_fits (p : Params) :
  params_fit p = true -> json_fits (config_json (read_params p)) = true.
Proof.
  unfold params_fit, json_fits, text_fits, json_text, config_json. cbv zeta.
  rewrite !andb_true_iff. intros (((((((F1 & F2) & F3) & F4) & F5) & F6) & F7) & _).
  cbn [json_set json_get String.eqb Ascii.eqb Bool.eqb read_params
       mqttServer mqttPort mqttClientName mqttUser mqttPassword mqttOutTopic
       mqttInTopic].
  repeat match goal with
         | |- context [(0 <? String.length ?v)%nat] =>
             destruct (0 <? String.length v)%nat
         end;
    rewrite ?F1, ?F2, ?F3, ?F4, ?F5, ?F6, ?F7; repeat split.
Qed.

Lemma loop_tail_overrun (d d5 d6 : Device) :
  d5 = (if negb (movementProgress (core d))
        then note (Delay LOOP_DELAY_MS) d else d) ->
  d6 = (if restart d5 then note EspRestart d5 else d5) ->
  overrun d6 = overrun d.
Proof.
  intros -> ->. destruct (movementProgress (core d)); cbn [negb]; dev;
    destruct (restart d); reflexivity.
Qed.

Lemma wifimanagerLoop_defined w d :
  world_fits w -> device_defined d -> device_defined (wifimanagerLoop w d).
Proof.
  unfold world_fits, device_defined. intros Hw [Ho Hf].
  unfold wifimanagerLoop, saveParamsCallback, wifiManagerSetupStopped.
  destruct (saved w) as [ [p wr] | ].
  - rewrite Hw. pose proof (config_json_fits p Hw) as Hj.
    destruct wr; dev;
      destruct (wifiManagerSetupRunning (core d)); dev;
      try destruct (_ <? _); dev;
      destruct (wifiConnected w); dev; try destruct (offline d); dev;
      split; assumption.
  - destruct (wifiManagerSetupRunning (core d)); dev;
      try destruct (_ <? _); dev;
      destruct (wifiConnected w); dev; try destruct (offline d); dev;
      split; assumption.
Qed.

Lemma loop_defined w d :
  world_fits w -> device_defined d -> device_defined (loop w d).
Proof.
  intros Hw Hd. unfold loop.
  set (d1 := drive (Gpio (online d (gpio_env w))) d).
  set (d2 := drive (Movement (online d1 (movement_env w))) d1).
  set (d3 := wifimanagerLoop w d2).
  set (d4 := if negb (offline d3) then mqttLoop w d3 else d3).
  destruct (loop_tail d4 _ _ eq_refl eq_refl) as (_ & _ & _ & _ & _ & T6 & _).
  pose proof (loop_tail_overrun d4 _ _ eq_refl eq_refl) as T9.
  unfold device_defined. rewrite T6, T9.
  assert (H3 : device_defined d3)
    by (subst d3; apply wifimanagerLoop_defined; [exact Hw | exact Hd]).
  subst d4. destruct (offline d3); cbn [negb]; [exact H3 | ].
  destruct (mqttLoop_static w d3) as (_ & _ & _ & M4 & M5).
  rewrite M4, M5. exact H3.
Qed.

Lemma setup_device_defined e0 apName file :
  fits 40 apName = true -> file_fits file ->
  device_defined (setup_device e0 apName file).
Proof.
  intros Ha Hf. unfold device_defined, setup_device, boot_fits. dev.
  rewrite Ha. destruct file as [json | ]; cbn [file_fits] in Hf;
    [rewrite Hf | ]; split; (reflexivity || assumption).
Qed.

Lemma lifetime_defined apName file e0 l :
  fits 40 apName = true -> file_fits file ->
  Forall (fun we => world_fits (fst we)) l ->
  device_defined (lifetime apName file e0 l).
Proof.
  intros Ha Hf Hl. unfold lifetime.
  pose proof (setup_device_defined e0 apName file Ha Hf) as H.
  revert H. generalize (setup_device e0 apName file) as d.
  induction Hl as [ | we l Hw Hl IH]; intros d H; cbn [fold_left]; [exact H | ].
  apply IH. unfold iteration.
  pose proof (loop_defined (fst we) d Hw H) as H'.
  destruct (restart (loop (fst we) d)); [ | exact H'].
  apply setup_device_defined; [exact Ha | exact (proj2 H')].
Qed.

(** X17. The invariants of the device, over every lifetime in which no
    [strcpy] leaves its buffer: power-on with a chip name and a
    configuration file whose texts fit, then any iterations of [loop] with
    whatever the switches do and the broker sends, and with what the portal
    saves as long as it fits, each restart running [setup] again. No
    [strcpy] then leaves its buffer (the files the sketch writes itself are
    loaded safely); between iterations the maximum position in force fits an
    [unsigned long], the position lies between 0 and that maximum, every
    published position does too, and no restart is pending. Inside the next
    iteration, where the portal may just have replaced the settings, the
    relays are still never both on, their levels are those of the movement
    state, and the reconnect delay is at most a minute. *)
Theorem device_keeps_invariants (apName : string) (file : option Json)
    (e0 : Env) (l : list (World * Env)) (w : World) :
  fits 40 apName = true -> file_fits file ->
  Forall (fun we => world_fits (fst we)) l -> world_fits w ->
  let d := lifetime apName file e0 l in
  (overrun d = false /\
   wf_config (blind (settings d)) /\
   0 <= blindPos (core d) <= blindMaxPos (blind (settings d)) /\
   Forall (pub_ok (blind (settings d))) (out (core d)) /\
   restart d = false) /\
  (overrun (loop w d) = false /\
   never_both (out (core (loop w d))) = true /\
   relays (out (core (loop w d))) = levels_of (core (loop w d)) /\
   0 <= mqttConnectDelay (loop w d) <= 60000).
Proof.
  intros Ha Hf Hl Hw. cbv zeta.
  destruct (lifetime_inv apName file e0 l) as (Hs & ((Hp & _) & Ho) & Hr).
  pose proof (lifetime_defined apName file e0 l Ha Hf Hl) as Hd.
  split.
  - destruct Hs as (_ & _ & _ & Hwf).
    exact (conj (proj1 Hd) (conj Hwf (conj Hp (conj Ho Hr)))).
  - destruct (loop_safe w _ Hs) as (S1 & S2 & S3 & _).
    destruct (loop_defined w _ Hw Hd) as [D1 _].
    split; [exact D1 | split; [exact S1 | split; [exact S2 | exact S3] ] ].
Qed.

Lemma device_keeps_invariants_witness :
  let p := mkParams "broker.local" "1883" "kitchen" "moist" "password"
             "blinds/pos" "blinds/cmd" "45" "false" "false" "false" in
  let l := [ (mkWorld (press2 1000) (quiet 1000) None 1000 true None true
                (fun _ => 1000) true [], quiet 0);
             (mkWorld (quiet 9000) (quiet 9000) (Some (p, true)) 9000 true None
                true (fun _ => 9000) true [], quiet 9500) ] in
  let d := lifetime "Dorfl-1a2b3c" None (quiet 0) l in
  (fits 40 "Dorfl-1a2b3c" = true /\ file_fits None /\
   Forall (fun we => world_fits (fst we)) l /\ world_fits (calm 10000)) /\
  blindMaxPos (blind (settings d)) = 45000 /\
  overrun d = false /\
  0 <= blindPos (core d) <= blindMaxPos (blind (settings d)).
Proof.
  cbv zeta.
  assert (Hl : Forall (fun we => world_fits (fst we))
                 [ (mkWorld (press2 1000) (quiet 1000) None 1000 true None true
                      (fun _ => 1000) true [], quiet 0);
                   (mkWorld (quiet 9000) (quiet 9000)
                      (Some (mkParams "broker.local" "1883" "kitchen" "moist"
                               "password" "blinds/pos" "blinds/cmd" "45" "false"
                               "false" "false", true))
                      9000 true None true (fun _ => 9000) true [], quiet 9500) ])
    by (repeat constructor).
  pose proof (device_keeps_invariants "Dorfl-1a2b3c" None (quiet 0) _
                (calm 10000) eq_refl I Hl I) as H.
  cbv zeta in H. destruct H as [(H1 & _ & H3 & _) _].
  split; [exact (conj eq_refl (conj I (conj Hl I))) | ].
  split; [reflexivity | split; [exact H1 | exact H3] ].
Defined.



(** * Settings: what survives the restart *)

Lemma is_true_bool_text (b : bool) : is_true (bool_text b) = b.
Proof. destruct b; reflexivity. Qed.

Lemma json_text_bool (b : bool) :
  (0 <? String.length (bool_text b))%nat = true.
Proof. destruct b; reflexivity. Qed.

Lemma atoi_int_small (v : string) :
  - 2 ^ 31 <= atoi v <= 2 ^ 31 - 1 -> atoi_int v = atoi v.
Proof. intros H. unfold atoi_int. lia. Qed.

(** Reading back the document written for [st], over the settings [st0]. *)
Lemma load_config_json (st st0 : Settings) :
  wf_config (blind st) ->
  load_settings (config_json st) st0 =
  mkSettings
    (nonempty_or (mqttServer st) (mqttServer st0))
    (nonempty_or (mqttPort st) (mqttPort st0))
    (nonempty_or (mqttClientName st) (mqttClientName st0))
    (nonempty_or (mqttUser st) (mqttUser st0))
    (nonempty_or (mqttPassword st) (mqttPassword st0))
    (nonempty_or (mqttOutTopic st) (mqttOutTopic st0))
    (nonempty_or (mqttInTopic st) (mqttInTopic st0))
    (mkConfig (1000 * (blindMaxPos (blind st) / 1000))
       (blindInvertZero (blind st)) (blindInvertSwitch (blind st))
       (blindDisableManualLock (blind st))).
Proof.
  intros Hwf. unfold wf_config in Hwf.
  unfold load_settings, config_json, text_or, json_text, nonempty_or.
  cbv zeta.
  assert (Hq : 0 <= blindMaxPos (blind st) / 1000 < 4294968).
  { split; [apply Z.div_pos; lia | apply Z.div_lt_upper_bound; lia]. }
  pose proof (ltoa_nonempty (blindMaxPos (blind st) / 1000)) as Hn.
  pose proof (atoi_ltoa_plain (blindMaxPos (blind st) / 1000)) as Ha.
  assert (Hm : max_pos_of (ltoa (blindMaxPos (blind st) / 1000))
               = 1000 * (blindMaxPos (blind st) / 1000)).
  { unfold max_pos_of. rewrite atoi_int_small by (rewrite Ha; lia).
    rewrite Ha. apply to_ulong_small.
    pose proof (Z.mul_div_le (blindMaxPos (blind st)) 1000 ltac:(lia)). lia. }
  unfold blindMaxPosStr.
  set (m := ltoa (blindMaxPos (blind st) / 1000)) in *. clearbody m.
  cbn [json_set json_get String.eqb Ascii.eqb Bool.eqb].
  rewrite Hn, !json_text_bool, !is_true_bool_text, Hm.
  repeat match goal with
         | |- context [(0 <? String.length ?v)%nat] =>
             destruct (0 <? String.length v)%nat
         end; reflexivity.
Qed.

(** The text written for a negative number of the portal's field. *)
Lemma negative_max_pos_text (n : Z) :
  - 1000 < n < 0 -> String.length (ltoa (to_ulong (1000 * n) / 1000)) = 7%nat.
Proof.
  intros Hn.
  assert (E : to_ulong (1000 * n) = 2 ^ 32 + 1000 * n).
  { unfold to_ulong.
    rewrite <- (Z.mod_add (1000 * n) 1 (2 ^ 32)) by lia.
    rewrite Z.mod_small; lia. }
  rewrite E. apply (ltoa_length_exact _ 6).
  assert (4293968 <= (2 ^ 32 + 1000 * n) / 1000)
    by (apply Z.div_le_lower_bound; lia).
  assert ((2 ^ 32 + 1000 * n) / 1000 < 4294967)
    by (apply Z.div_lt_upper_bound; lia).
  cbn [Z.of_nat Pos.of_succ_nat Pos.succ]. lia.
Qed.

(** X19. What [saveParamsCallback] writes to the configuration file and
    [setup] reads back after the restart, when the values the portal hands
    over fit the buffers they are copied to (39 characters, 5 for the port,
    3 for the text of the maximum position). The callback takes the eleven
    values as they are, and the file it writes is loaded at the next [setup]
    without leaving a buffer. After the restart each MQTT text is the saved
    one if that is not empty; an empty text is not kept: the field is back
    at its compiled-in default (the client name at ["Dorfl-<chip>"]). The
    three check boxes come back as saved. The maximum position comes back
    rounded down to whole seconds, which is the saved value itself for the
    portal's field of three characters. *)
Theorem settings_after_restart (p : Params) (d : Device) (e0 : Env)
    (apName : string) :
  params_fit p = true -> fits 40 apName = true ->
  let stored := settings (saveParamsCallback p true d) in
  let next := setup_device e0 apName (configFile (saveParamsCallback p true d)) in
  let again := settings next in
  overrun (saveParamsCallback p true d) = overrun d /\
  restart (saveParamsCallback p true d) = true /\
  overrun next = false /\
  stored = read_params p /\
  mqttServer again = nonempty_or (customMqttServer p) "TiffanyAching.local" /\
  mqttPort again = nonempty_or (customMqttPort p) "1883" /\
  mqttClientName again = nonempty_or (customMqttClientName p) apName /\
  mqttUser again = nonempty_or (customMqttUser p) "moist" /\
  mqttPassword again = nonempty_or (customMqttPassword p) "password" /\
  mqttOutTopic again
    = nonempty_or (customMqttOutTopic p) "ibnhouse/blinds/kitchen/pos" /\
  mqttInTopic again
    = nonempty_or (customMqttInTopic p) "ibnhouse/blinds/kitchen/cmd" /\
  blindInvertZero (blind again) = blindInvertZero (blind stored) /\
  blindInvertSwitch (blind again) = blindInvertSwitch (blind stored) /\
  blindDisableManualLock (blind again) = blindDisableManualLock (blind stored) /\
  blindMaxPos (blind again) = 1000 * (blindMaxPos (blind stored) / 1000) /\
  ((String.length (customBlindMaxPos p) <= 3)%nat ->
   blindMaxPos (blind stored) = 1000 * atoi (customBlindMaxPos p) /\
   blindMaxPos (blind again) = blindMaxPos (blind stored)).
Proof.
  intros Hfit Hap. cbv zeta.
  pose proof (config_json_fits p Hfit) as Hjf.
  unfold setup_device, saveParamsCallback, wifiManagerSetupStopped.
  rewrite Hfit. dev.
  unfold boot_settings, boot_fits. rewrite Hap, Hjf. cbn [andb negb].
  rewrite load_config_json
    by (unfold wf_config, read_params; cbn [blind blindMaxPos];
        apply max_pos_of_range).
  cbn [mqttServer mqttPort mqttClientName mqttUser mqttPassword mqttOutTopic
       mqttInTopic blind blindMaxPos blindInvertZero blindInvertSwitch
       blindDisableManualLock read_params initial_settings].
  repeat (split; [reflexivity | ]).
  intros Hlen.
  pose proof (atoi_bound (customBlindMaxPos p)) as Hb.
  assert (Hp : 10 ^ Z.of_nat (String.length (customBlindMaxPos p)) <= 10 ^ 3)
    by (apply Z.pow_le_mono_r; lia).
  unfold max_pos_of. rewrite atoi_int_small by lia.
  set (n := atoi (customBlindMaxPos p)) in *.
  destruct (Z_lt_le_dec n 0) as [Hneg | Hpos].
  - exfalso. unfold params_fit in Hfit. rewrite !andb_true_iff in Hfit.
    destruct Hfit as (_ & Hf). unfold fits, blindMaxPosStr, read_params in Hf.
    cbn [blind blindMaxPos] in Hf. unfold max_pos_of in Hf.
    rewrite atoi_int_small in Hf by (fold n; lia). fold n in Hf.
    rewrite (negative_max_pos_text n) in Hf by lia. discriminate Hf.
  - rewrite (to_ulong_small (1000 * n)) by lia.
    split; [reflexivity | ].
    replace (1000 * n / 1000) with n
      by (rewrite Z.mul_comm, Z.div_mul; lia).
    reflexivity.
Qed.

Lemma settings_after_restart_witness :
  let p := mkParams EmptyString "1884" "kitchen" "moist" "password"
             "blinds/pos" "blinds/cmd" "45" "true" "false" "false" in
  let d := setup_device (quiet 0) "Dorfl-1a2b3c" None in
  let again := settings (setup_device (quiet 0) "Dorfl-1a2b3c"
                           (configFile (saveParamsCallback p true d))) in
  (params_fit p = true /\ fits 40 "Dorfl-1a2b3c" = true) /\
  mqttServer again = "TiffanyAching.local"%string /\
  mqttPort again = "1884"%string /\
  blindMaxPos (blind again) = 45000 /\
  blindInvertZero (blind again) = true.
Proof.
  cbv zeta.
  pose proof (settings_after_restart
                (mkParams EmptyString "1884" "kitchen" "moist" "password"
                   "blinds/pos" "blinds/cmd" "45" "true" "false" "false")
                (setup_device (quiet 0) "Dorfl-1a2b3c" None) (quiet 0)
                "Dorfl-1a2b3c" eq_refl eq_refl) as H.
  cbv zeta in H.
  destruct H as (_ & _ & _ & _ & H1 & H2 & _ & _ & _ & _ & _ & H3 & _ & _ & H4 & _).
  split; [split; reflexivity | ].
  split; [exact H1 | split; [exact H2 | split; [ | ] ] ].
  - rewrite H4. reflexivity.
  - rewrite H3. reflexivity.
Defined.

(** X20. The maximum position entered in the portal, a field of at most
    three characters: [saveParamsCallback] always stores a value that fits
    an [unsigned long]. For a number that is not negative it is that many
    seconds, at most 999000 ms, and the text written to the file has at most
    three characters. A negative number is not refused: [-n] is stored as
    [2^32 - 1000 n] ms (more than 49 days), and the text written for it has
    seven characters, more than the three [blindMaxPosStr] has room for. *)
Theorem max_pos_field (p : Params) :
  (String.length (customBlindMaxPos p) <= 3)%nat ->
  let n := atoi (customBlindMaxPos p) in
  let st := read_params p in
  wf_config (blind st) /\
  (0 <= n ->
   blindMaxPos (blind st) = 1000 * n /\ blindMaxPos (blind st) <= 999000 /\
   (String.length (blindMaxPosStr st) <= 3)%nat) /\
  (n < 0 ->
   blindMaxPos (blind st) = 2 ^ 32 + 1000 * n /\
   String.length (blindMaxPosStr st) = 7%nat).
Proof.
  intros Hlen. cbv zeta.
  pose proof (atoi_bound (customBlindMaxPos p)) as Hb.
  assert (Hp : 10 ^ Z.of_nat (String.length (customBlindMaxPos p)) <= 10 ^ 3)
    by (apply Z.pow_le_mono_r; lia).
  set (n := atoi (customBlindMaxPos p)) in *.
  unfold blindMaxPosStr, read_params. cbn [blind blindMaxPos].
  unfold wf_config. cbn [blindMaxPos].
  split; [apply max_pos_of_range | ].
  unfold max_pos_of. rewrite atoi_int_small by (fold n; lia).
  fold n. split; intros Hn.
  - rewrite to_ulong_small by lia.
    split; [reflexivity | split; [lia | ] ].
    replace (1000 * n / 1000) with n by (rewrite Z.mul_comm, Z.div_mul; lia).
    destruct (Z.eq_dec n 0) as [-> | Hz];
      [change (ltoa 0) with "0"%string; cbn [String.length]; lia | ].
    destruct (Z_lt_le_dec n 10) as [H1 | H1];
      [rewrite (ltoa_length_exact n 0)
         by (cbn [Z.of_nat Pos.of_succ_nat Pos.succ]; lia); lia | ].
    destruct (Z_lt_le_dec n 100) as [H2 | H2];
      [rewrite (ltoa_length_exact n 1)
         by (cbn [Z.of_nat Pos.of_succ_nat Pos.succ]; lia); lia | ].
    rewrite (ltoa_length_exact n 2)
      by (cbn [Z.of_nat Pos.of_succ_nat Pos.succ]; lia). lia.
  - assert (E : to_ulong (1000 * n) = 2 ^ 32 + 1000 * n).
    { unfold to_ulong.
      rewrite <- (Z.mod_add (1000 * n) 1 (2 ^ 32)) by lia.
      rewrite Z.mod_small; lia. }
    rewrite E. split; [reflexivity | ].
    apply (ltoa_length_exact _ 6).
    assert (4293968 <= (2 ^ 32 + 1000 * n) / 1000)
      by (apply Z.div_le_lower_bound; lia).
    assert ((2 ^ 32 + 1000 * n) / 1000 < 4294967)
      by (apply Z.div_lt_upper_bound; lia).
    cbn [Z.of_nat Pos.of_succ_nat Pos.succ]. lia.
Qed.

Lemma max_pos_field_witness :
  let p := mkParams "broker.local" "1883" "kitchen" "moist" "password"
             "blinds/pos" "blinds/cmd" "-5" "true" "false" "false" in
  (String.length (customBlindMaxPos p) <= 3)%nat /\
  blindMaxPos (blind (read_params p)) = 4294962296 /\
  String.length (blindMaxPosStr (read_params p)) = 7%nat.
Proof.
  cbv zeta.
  assert (Hl : (String.length "-5" <= 3)%nat) by (cbn; lia).
  destruct (max_pos_field
              (mkParams "broker.local" "1883" "kitchen" "moist" "password"
                 "blinds/pos" "blinds/cmd" "-5" "true" "false" "false") Hl)
    as (_ & _ & H).
  split; [exact Hl | ].
  exact (H eq_refl).
Defined.
